(** * cursor-mcp-manager: state reconciliation, Docker adapter, IDE config sync

    A shallow embedding of the lifecycle core of the MCP server manager:
    - [src/state.ts]                          (module [State])
    - [src/services/docker-service.ts]        (module [DockerService])
    - [src/services/health-validator-service.ts] (module [HealthValidator])
    - [src/services/cursor-service.ts]        (module [CursorService])
    - [src/orchestrator.ts]                   (module [Orchestrator])
    - [src/config.ts], the list of enabled servers (module [ServerConfigs])
    - [src/utils/server-validator.ts]         (module [ServerValidator])
    - [src/commands/health-check.ts]          (module [HealthCheckCommand])

    Conventions.  JavaScript strings are Rocq strings; a JavaScript object is
    the association list of its own properties, in the order [Object.keys]
    lists them (array indices first, ascending, then the other names as they
    were created); members found on a prototype are looked up apart;
    [undefined] is [None].  Asynchronous code is sequential here: every
    [await] is a bind of the monad [M] below, which threads the outside world
    and carries JavaScript exceptions. *)

From Stdlib Require Import ZArith String Ascii List Bool.
From stdpp Require Import base option list strings gmap pretty.

Set Warnings "-register-all".
Local Open Scope string_scope.
Local Open Scope list_scope.

(** ** JavaScript strings and numbers *)

Module Js.

(** ASCII part of ECMAScript's WhiteSpace and LineTerminator classes
    (TAB, LF, VT, FF, CR, SP), the characters [trim] and [parseInt] skip. *)
Definition isWhiteSpace (c : ascii) : bool :=
  let n := nat_of_ascii c in
  ((9 <=? n)%nat && (n <=? 13)%nat) || (n =? 32)%nat.

Fixpoint trimStart (s : string) : string :=
  match s with
  | String c rest => if isWhiteSpace c then trimStart rest else s
  | EmptyString => EmptyString
  end.

(** [trimEnd] drops the trailing white space: a character is kept when it is
    not white space or when something is kept after it. *)
Fixpoint trimEnd (s : string) : string :=
  match s with
  | String c rest =>
      match trimEnd rest with
      | EmptyString => if isWhiteSpace c then EmptyString else String c EmptyString
      | kept => String c kept
      end
  | EmptyString => EmptyString
  end.

(** [String.prototype.trim] *)
Definition trim (s : string) : string := trimEnd (trimStart s).

(** [String.prototype.startsWith] *)
Definition startsWith (s p : string) : bool := String.prefix p s.

(** Truthiness of a string: the empty string is the only falsy one. *)
Definition truthyStr (s : string) : bool :=
  match s with EmptyString => false | _ => true end.

Definition digitOf (c : ascii) : option Z :=
  let n := Z.of_nat (nat_of_ascii c) in
  if ((48 <=? n) && (n <=? 57))%Z then Some (n - 48)%Z else None.

(** Value of the longest prefix of decimal digits; [None] without a digit. *)
Fixpoint digitsRun (acc : option Z) (s : string) : option Z :=
  match s with
  | String c rest =>
      match digitOf c with
      | Some d => digitsRun (Some (10 * default 0 acc + d)%Z) rest
      | None => acc
      end
  | EmptyString => acc
  end.

(** [Number.parseInt(s, 10)]: leading white space, an optional sign, then the
    longest run of digits; [None] is [NaN].  The integer is exact, as the
    JavaScript number is up to 2^53. *)
Definition parseInt (s : string) : option Z :=
  match trimStart s with
  | String "-" rest => Z.opp <$> digitsRun None rest
  | String "+" rest => digitsRun None rest
  | t => digitsRun None t
  end.

(** Interpolation of an integer number in a template literal. *)
Definition numberToString (n : Z) : string := pretty n.

(** [s.split(sep)] for a separator of one character. *)
Fixpoint split (sep : ascii) (s : string) : list string :=
  match s with
  | EmptyString => [EmptyString]
  | String c rest =>
      if Ascii.eqb c sep then EmptyString :: split sep rest
      else
        match split sep rest with
        | piece :: pieces => String c piece :: pieces
        | [] => [String c EmptyString]
        end
  end.

End Js.

(** ** src/types.ts *)

Inductive McpTransportType := http | stdio.

(** JSON values, for [Record<string, unknown>] and the IDE's document.  A
    number is kept as its canonical rendering, so two values have the same
    [JSON.stringify] text exactly when they are the same term. *)
Inductive json :=
| JNull
| JBool (b : bool)
| JNum (repr : string)
| JStr (s : string)
| JArr (items : list json)
| JObj (fields : list (string * json)).

Module HealthValidatorConfig.
Record t := mk {
  method : string;
  params : list (string * json);
  responseContains : option string;
  timeoutMs : option Z;
}.
End HealthValidatorConfig.

Module McpServerConfig.
Record t := mk {
  name : string;
  description : string;
  image : string;
  args : list string;
  postStartInstructions : option string;
  healthValidator : option HealthValidatorConfig.t;
  type : McpTransportType;
}.
End McpServerConfig.

Module McpState.
Record t := mk {
  name : string;
  endpoint : string;
  envFile : option string;
  online : bool;
  manageCursorConfig : option bool;
}.
End McpState.

Module McpStateFile.
Record t := mk {
  mcps : list McpState.t;
  updatedOn : option string;
}.
End McpStateFile.

(** [CursorMcpEntry = CursorHttpMcpEntry | CursorStdioMcpEntry] *)
Inductive CursorMcpEntry :=
| CursorHttpMcpEntry (url : string)
| CursorStdioMcpEntry (command : string) (args : list string).

(** ** The host: what the program imports from outside the repository *)

(** Result of [new Deno.Command(...).output()]. *)
Record CommandOutput := {
  code : Z;
  stdout : string;
  stderr : string;
}.

Class Host := {
  (** [join] of [@std/path] *)
  join : list string -> string;
  (** [Deno.cwd()] when [config.ts] is loaded *)
  cwd : string;
  (** the Docker daemon behind the [docker] command line *)
  Daemon : Type;
  (** [new Deno.Command('docker', { args }).output()]: [None] when spawning
      throws, else the exit code and the captured streams *)
  docker : list string -> Daemon -> option CommandOutput * Daemon;
  (** whether [Object.prototype] carries the accessor [__proto__] of
      ECMAScript's Annex B.  Deno deletes it when it starts, unless it is run
      with [--unstable-unsafe-proto]; other engines keep it. *)
  protoAccessor : bool;
}.

(** ** src/config.ts (paths) *)

Module Config.
Section WithHost.
Context `{Host}.

Definition workspaceRoot : string := cwd.
Definition serverConfigDir : string := join [workspaceRoot; "servers"; "config"].
Definition getWorkspacePath : string := workspaceRoot.
Definition getEnvFilePath (serverName : string) : string :=
  join [serverConfigDir; serverName +:+ ".env"].

End WithHost.
End Config.

(** ** The outside world and the monad of effects *)

(** What [JSON.parse] makes of a file's text: it throws on [Garbled] text and
    returns the document otherwise.  [JSON.stringify] followed by
    [JSON.parse] is the identity on documents, so a file is kept as the
    document its text stands for. *)
Inductive Content (A : Type) :=
| Garbled
| Doc (a : A).
Arguments Garbled {A}.
Arguments Doc {A} a.

(** What the text of [data/state.json] parses to.  The source casts the
    value, [JSON.parse(fileContent) as McpStateFile], without looking at it.
    [Shaped state] is an object whose [mcps] is an array of entries.
    [Shapeless] stands for every value that holds no array under [mcps]:
    [null], a number, a string, an array, an object such as [{}]; on such a
    value [state.mcps.find], [state.mcps.map] and [state.mcps.findIndex]
    throw a TypeError.  An array [mcps] whose elements are not entries of the
    declared type is not represented. *)
Inductive StateDoc :=
| Shaped (state : McpStateFile.t)
| Shapeless.

(** JavaScript exceptions, as far as a [catch] tells them apart. *)
Inductive Exn := AlreadyExists | OtherError.

Inductive IoKind := KExists | KMkdir | KRead | KWrite.

(** The files and directories the program touches: [data/] and
    [data/state.json] under the workspace, and the IDE configuration file
    with its directory. *)
Inductive Target :=
| StateDir
| StateFilePath
| ConfigDir (configPath : string)
| ConfigFile (configPath : string).

(** Observations the program makes of its environment; they do not change
    while a command runs. *)
Record Oracle := {
  (** [new Date().toISOString()] *)
  now : string;
  (** whether a file-system call throws, and what *)
  fault : IoKind -> Target -> option Exn;
  (** [getAppConfig()]: [None] when it throws *)
  appConfig : option (list (string * string));
  (** [promptSelect(question, options)]: [None] when it throws *)
  promptSelect : string -> option string;
  (** [getAvailablePort()] of [@std/net]: the port the operating system
      hands out at the call of that number, counted from 0; [None] when the
      call throws.  Two calls need not give the same port. *)
  availablePort : nat -> option Z;
  (** verdict of the JSON-RPC exchange of [validateHttpHealth] with the
      given port of [localhost]: whether the POST is answered in time with
      an [ok] status and a body without [error] that contains
      [responseContains] *)
  httpProbe : McpServerConfig.t -> HealthValidatorConfig.t -> Z -> bool;
  (** verdict of [validateStdioHealth] on the standard output of its
      container: whether a line that starts with a brace parses to a
      response with the identifier of the request (a random number), without
      [error], and containing [responseContains] *)
  stdioProbe : McpServerConfig.t -> HealthValidatorConfig.t -> string -> bool;
}.

Module Rt.

Inductive Outcome (A : Type) :=
| Returned (a : A)
| Threw (e : Exn).
Arguments Returned {A} a.
Arguments Threw {A} e.

Section WithHost.
Context `{Host}.

Record World := mkWorld {
  oracle : Oracle;
  (** whether [data/] exists *)
  stateDirExists : bool;
  (** [data/state.json]; [None] when the file is missing *)
  stateFile : option (Content StateDoc);
  (** the IDE configuration files, by path *)
  configFiles : gmap string (Content json);
  daemon : Daemon;
  (** the [docker] command lines run so far, oldest first *)
  issued : list (list string);
  (** how many times [getAvailablePort()] was called so far *)
  portsAsked : nat;
}.

Definition M (A : Type) : Type := World -> Outcome A * World.

Definition ret {A} (a : A) : M A := fun w => (Returned a, w).

Definition bind {A B} (m : M A) (k : A -> M B) : M B :=
  fun w =>
    match m w with
    | (Returned a, w') => k a w'
    | (Threw e, w') => (Threw e, w')
    end.

Definition throw {A} (e : Exn) : M A := fun w => (Threw e, w).

(** [try { m } catch (e) { handler e }] *)
Definition tryCatch {A} (m : M A) (handler : Exn -> M A) : M A :=
  fun w =>
    match m w with
    | (Returned a, w') => (Returned a, w')
    | (Threw e, w') => handler e w'
    end.

Definition ask {A} (f : Oracle -> A) : M A := fun w => (Returned (f (oracle w)), w).

Definition setStateDirExists (b : bool) (w : World) : World :=
  mkWorld (oracle w) b (stateFile w) (configFiles w) (daemon w) (issued w)
          (portsAsked w).

Definition setStateFile (f : option (Content StateDoc)) (w : World) : World :=
  mkWorld (oracle w) (stateDirExists w) f (configFiles w) (daemon w) (issued w)
          (portsAsked w).

Definition setConfigFiles (fs : gmap string (Content json)) (w : World) : World :=
  mkWorld (oracle w) (stateDirExists w) (stateFile w) fs (daemon w) (issued w)
          (portsAsked w).

Definition setDocker (d : Daemon) (log : list (list string)) (w : World) : World :=
  mkWorld (oracle w) (stateDirExists w) (stateFile w) (configFiles w) d log
          (portsAsked w).

Definition setPortsAsked (n : nat) (w : World) : World :=
  mkWorld (oracle w) (stateDirExists w) (stateFile w) (configFiles w) (daemon w)
          (issued w) n.

(** A file-system call: it throws when the oracle says so, and otherwise
    acts on the world. *)
Definition io {A} (kind : IoKind) (target : Target) (act : M A) : M A :=
  fun w =>
    match fault (oracle w) kind target with
    | Some e => (Threw e, w)
    | None => act w
    end.

(** [exists(path)] of [@std/fs] *)
Definition fsExists (target : Target) : M bool :=
  io KExists target
     (fun w =>
        (Returned
           match target with
           | StateDir => stateDirExists w
           | StateFilePath => bool_decide (is_Some (stateFile w))
           | ConfigDir _ => true
           | ConfigFile p => bool_decide (is_Some (configFiles w !! p))
           end, w)).

(** [Deno.mkdir(dir, { recursive: true })] *)
Definition mkdir (target : Target) : M unit :=
  io KMkdir target
     (fun w =>
        (Returned tt,
         match target with
         | StateDir => setStateDirExists true w
         | _ => w
         end)).

(** [new Deno.Command('docker', { args }).output()] *)
Definition runDocker (args : list string) : M CommandOutput :=
  fun w =>
    let '(result, d) := docker args (daemon w) in
    let w' := setDocker d (issued w ++ [args]) w in
    match result with
    | Some out => (Returned out, w')
    | None => (Threw OtherError, w')
    end.

End WithHost.
End Rt.

Import Rt.

Declare Scope m_scope.
Delimit Scope m_scope with M.
Notation "'let*' x ':=' m 'in' k" := (bind m (fun x => k))
  (at level 10, x name, m at level 100, k at level 200) : m_scope.

(** ** src/config.ts (enabled servers) and src/utils/server-validator.ts *)

Module ServerConfigs.

(** [filterEnabledServers].  [mainEnv] is what the two calls at the head of
    the [try] block observe: [Returned None] when [main.env] does not
    exist, [Returned (Some env)] with the variables [loadEnv] read from it,
    [Threw] when one of the calls throws. *)
Definition filterEnabledServers (mainEnv : Outcome (option (gmap string string)))
    (configs : list McpServerConfig.t) : list McpServerConfig.t :=
  match mainEnv with
  | Returned (Some env) =>
      match env !! "ENABLED_SERVERS" with
      | Some enabledServersStr =>
          if Js.truthyStr enabledServersStr then
            let enabledServers :=
              List.filter (fun server => (0 <? String.length server)%nat)
                          (map Js.trim (Js.split "," enabledServersStr)) in
            if (0 <? length enabledServers)%nat then
              List.filter
                (fun config =>
                   existsb (String.eqb (McpServerConfig.name config)) enabledServers)
                configs
            else configs
          else configs
      | None => configs
      end
  | Returned None => configs
  | Threw _error => configs
  end.

(** What [isServerEnabled] returns: the error text for a server that is not
    among the configurations, or a boolean. *)
Inductive ServerStatus :=
| NotFound (serverName : string)
| Enabled (enabled : bool).

(** [isServerEnabled]; [configs] is what [getMcpServerConfigs()] returns,
    the list cached by its first call. *)
Definition isServerEnabled (configs : list McpServerConfig.t) (serverName : string)
  : ServerStatus :=
  let serverExists :=
    existsb (fun config => String.eqb (McpServerConfig.name config) serverName) configs in
  if negb serverExists then NotFound serverName
  else
    let serverConfig :=
      List.find (fun config => String.eqb (McpServerConfig.name config) serverName)
                configs in
    Enabled (match serverConfig with Some _ => true | None => false end).

End ServerConfigs.

Module ServerValidator.

(** [validateServerSelection] *)
Definition validateServerSelection (configs : list McpServerConfig.t)
    (serverName : option string) : bool :=
  match serverName with
  | None => true
  | Some name =>
      if negb (Js.truthyStr name) then true
      else
        match ServerConfigs.isServerEnabled configs name with
        | ServerConfigs.NotFound _ => false
        | ServerConfigs.Enabled serverStatus => if negb serverStatus then false else true
        end
  end.

End ServerValidator.

(** ** src/state.ts *)

Module State.
Section WithHost.
Context `{Host}.

(** The loop shared by [syncStateWithConfig], [getPortFromArgs] and the
    validators: for [i] from [0] while [i < args.length - 1], the first
    ['--port'] whose successor parses as an integer decides. *)
Fixpoint scanPort (args : list string) : option Z :=
  match args with
  | a :: (b :: _) as rest =>
      if String.eqb a "--port" then
        match Js.parseInt b with
        | Some parsedPort => Some parsedPort
        | None => scanPort rest
        end
      else scanPort rest
  | _ => None
  end.

(** The endpoint synthesised when no prior endpoint is available. *)
Definition defaultEndpoint (server : McpServerConfig.t) : string :=
  match McpServerConfig.type server with
  | http =>
      let port := default 9000%Z (scanPort (McpServerConfig.args server)) in
      "http://localhost:" +:+ Js.numberToString port +:+ "/sse"
  | stdio => "command:docker:" +:+ McpServerConfig.image server
  end.

(** [getServerState]: [state.mcps.find(mcp => mcp.name === serverName) || null] *)
Definition getServerState (state : McpStateFile.t) (serverName : string)
  : option McpState.t :=
  List.find (fun mcp => String.eqb (McpState.name mcp) serverName)
            (McpStateFile.mcps state).

(** Body of the [for (const server of servers)] loop of
    [syncStateWithConfig]: the entry pushed for one server. *)
Definition syncEntry (state : McpStateFile.t) (server : McpServerConfig.t)
  : McpState.t :=
  let existingEntry := getServerState state (McpServerConfig.name server) in
  let endpoint :=
    match existingEntry with
    | Some e =>
        if Js.truthyStr (McpState.endpoint e) then McpState.endpoint e
        else defaultEndpoint server
    | None => defaultEndpoint server
    end in
  McpState.mk
    (McpServerConfig.name server)
    endpoint
    (Some (Config.getEnvFilePath (McpServerConfig.name server)))
    (match existingEntry with Some e => McpState.online e | None => false end)
    (match existingEntry with Some e => McpState.manageCursorConfig e | None => None end).

(** [state.updatedOn || new Date().toISOString()] *)
Definition updatedOnOr (now : string) (updatedOn : option string) : string :=
  match updatedOn with
  | Some u => if Js.truthyStr u then u else now
  | None => now
  end.

(** [syncStateWithConfig]; [now] is [new Date().toISOString()]. *)
Definition syncStateWithConfig (now : string) (state : McpStateFile.t)
    (servers : list McpServerConfig.t) : McpStateFile.t :=
  McpStateFile.mk
    (fold_left (fun newMcps server => newMcps ++ [syncEntry state server]) servers [])
    (Some (updatedOnOr now (McpStateFile.updatedOn state))).

(** [updateServerStatus]; an omitted [endpoint] is [None], and
    [endpoint ? { endpoint } : {}] tests the argument's truthiness. *)
Definition updateServerStatus (state : McpStateFile.t) (serverName : string)
    (isOnline : bool) (endpoint : option string) : McpStateFile.t :=
  McpStateFile.mk
    (map (fun mcp =>
            if String.eqb (McpState.name mcp) serverName then
              McpState.mk
                (McpState.name mcp)
                (match endpoint with
                 | Some e => if Js.truthyStr e then e else McpState.endpoint mcp
                 | None => McpState.endpoint mcp
                 end)
                (McpState.envFile mcp)
                isOnline
                (McpState.manageCursorConfig mcp)
            else mcp)
         (McpStateFile.mcps state))
    (McpStateFile.updatedOn state).

(** [state.mcps.findIndex(...) >= 0] *)
Definition hasServer (state : McpStateFile.t) (serverName : string) : bool :=
  existsb (fun mcp => String.eqb (McpState.name mcp) serverName)
          (McpStateFile.mcps state).

(** [updateServerCursorConfigPreference] *)
Definition updateServerCursorConfigPreference (state : McpStateFile.t)
    (serverName : string) (manageCursorConfig : bool) : McpStateFile.t :=
  if hasServer state serverName then
    McpStateFile.mk
      (map (fun mcp =>
              if String.eqb (McpState.name mcp) serverName then
                McpState.mk (McpState.name mcp) (McpState.endpoint mcp)
                  (McpState.envFile mcp) (McpState.online mcp)
                  (Some manageCursorConfig)
              else mcp)
           (McpStateFile.mcps state))
      (McpStateFile.updatedOn state)
  else
    McpStateFile.mk
      (McpStateFile.mcps state ++
         [McpState.mk serverName "" (Some (Config.getEnvFilePath serverName))
            false (Some manageCursorConfig)])
      (McpStateFile.updatedOn state).


Local Open Scope m_scope.

Definition freshState : M StateDoc :=
  let* t := ask now in
  ret (Shaped (McpStateFile.mk [] (Some t))).

(** [JSON.parse(fileContent) as McpStateFile]: the cast checks nothing. *)
Definition parseState (fileContent : Content StateDoc) : M StateDoc :=
  match fileContent with
  | Doc state => ret state
  | Garbled => throw OtherError
  end.

(** The functions above, [getServerState], [syncStateWithConfig] in its loop
    and [updateServerStatus] call a method of [state.mcps]: on a loaded value
    without that array the call throws a TypeError, otherwise they run on the
    state file. *)
Definition asStateFile (loaded : StateDoc) : M McpStateFile.t :=
  match loaded with
  | Shaped state => ret state
  | Shapeless => throw OtherError
  end.

(** [Deno.readTextFile(STATE_FILE_PATH)] *)
Definition readStateFile : M (Content StateDoc) :=
  io KRead StateFilePath
     (fun w =>
        match stateFile w with
        | Some fileContent => (Returned fileContent, w)
        | None => (Threw OtherError, w)
        end).

(** [Deno.writeTextFile(STATE_FILE_PATH, JSON.stringify(stateToSave, null, 2))] *)
Definition writeStateFile (stateToSave : McpStateFile.t) : M unit :=
  io KWrite StateFilePath
     (fun w => (Returned tt, setStateFile (Some (Doc (Shaped stateToSave))) w)).

Definition ensureStateDir : M unit :=
  let* dirExists := fsExists StateDir in
  if negb dirExists then mkdir StateDir else ret tt.

(** [loadState] *)
Definition loadState : M StateDoc :=
  tryCatch
    (let* _ := ensureStateDir in
     let* fileExists := fsExists StateFilePath in
     if fileExists then
       let* fileContent := readStateFile in
       parseState fileContent
     else freshState)
    (fun _error => freshState).

(** [saveState] *)
Definition saveState (state : McpStateFile.t) : M unit :=
  tryCatch
    (let* _ := ensureStateDir in
     let* t := ask now in
     let stateToSave := McpStateFile.mk (McpStateFile.mcps state) (Some t) in
     writeStateFile stateToSave)
    (fun _error => ret tt).

(** [array.findIndex(p)]; [None] is [-1]. *)
Fixpoint findIndex {A} (p : A -> bool) (l : list A) : option nat :=
  match l with
  | [] => None
  | a :: rest => if p a then Some 0%nat else S <$> findIndex p rest
  end.

(** [addOrUpdateServerState]; [now] is [new Date().toISOString()]. *)
Definition addOrUpdateServerState (now : string) (state : McpStateFile.t)
    (serverState : McpState.t) : McpStateFile.t :=
  let existingIndex :=
    findIndex (fun mcp => String.eqb (McpState.name mcp) (McpState.name serverState))
              (McpStateFile.mcps state) in
  let newMcps :=
    match existingIndex with
    | Some i => <[i := serverState]> (McpStateFile.mcps state)
    | None => McpStateFile.mcps state ++ [serverState]
    end in
  McpStateFile.mk newMcps (Some (updatedOnOr now (McpStateFile.updatedOn state))).

End WithHost.
End State.

(** ** src/services/docker-service.ts *)

Module DockerService.
Section WithHost.
Context `{Host}.
Local Open Scope m_scope.

(** The command line of [isContainerRunning]. *)
Definition runningCommand (containerName : string) : list string :=
  ["ps"; "--filter"; "name=" +:+ containerName; "--format"; "{{.Names}}"].

(** [isContainerRunning] *)
Definition isContainerRunning (containerName : string) : M bool :=
  tryCatch
    (let* out := runDocker (runningCommand containerName) in
     let output := Js.trim (stdout out) in
     ret (String.eqb output containerName))
    (fun _error => ret false).

(** The existence probe of [stopAndRemoveContainer]. *)
Definition checkCommand (containerName : string) : list string :=
  ["ps"; "-a"; "--filter"; "name=" +:+ containerName; "--format"; "{{.Names}}"].

(** [stopAndRemoveContainer] *)
Definition stopAndRemoveContainer (containerName : string) : M bool :=
  tryCatch
    (let* out := runDocker (checkCommand containerName) in
     let output := Js.trim (stdout out) in
     if String.eqb output "" then ret true
     else
       let* stopResult := runDocker ["stop"; containerName] in
       if negb (code stopResult =? 0)%Z then ret false
       else
         let* removeResult := runDocker ["rm"; containerName] in
         if negb (code removeResult =? 0)%Z then ret false
         else ret true)
    (fun _error => ret false).

(** [isDockerInstalled] *)
Definition isDockerInstalled : M bool :=
  tryCatch
    (let* out := runDocker ["--version"] in
     ret (code out =? 0)%Z)
    (fun _error => ret false).

(** [isDockerRunning] *)
Definition isDockerRunning : M bool :=
  tryCatch
    (let* out := runDocker ["info"] in
     ret (code out =? 0)%Z)
    (fun _error => ret false).

(** [isDockerImagePulled] *)
Definition isDockerImagePulled (imageName : string) : M bool :=
  tryCatch
    (let* out := runDocker ["image"; "inspect"; imageName] in
     ret (code out =? 0)%Z)
    (fun _error => ret false).

(** [pullDockerImage] *)
Definition pullDockerImage (imageName : string) : M bool :=
  tryCatch
    (let* out := runDocker ["pull"; imageName] in
     if negb (code out =? 0)%Z then ret false else ret true)
    (fun _error => ret false).

(** The options of [runContainer]. *)
Record RunOptions := {
  imageName : string;
  containerName : string;
  args : list string;
  envFile : option string;
  env : option (list (string * string));
  detached : option bool;
  ports : option (list (Z * Z));
}.

(** The result of [runContainer]: [{ success: true, output }],
    [{ success: false, error: errorText }] after a non-zero exit, and
    [{ success: false, error: String(error) }] after an exception. *)
Inductive RunResult :=
| RunSucceeded (output : string)
| RunExited (errorText : string)
| RunThrew.

Definition success (r : RunResult) : bool :=
  match r with RunSucceeded _ => true | _ => false end.

(** The command line [runContainer] builds in [dockerArgs]. *)
Definition runContainerArgs (options : RunOptions) : list string :=
  let dockerArgs := ["run"] in
  let dockerArgs :=
    match detached options with
    | Some true => dockerArgs ++ ["-d"]
    | _ => dockerArgs
    end in
  let dockerArgs := dockerArgs ++ ["--name"; containerName options] in
  let dockerArgs :=
    match ports options with
    | Some mappings =>
        fold_left
          (fun acc portMapping =>
             acc ++ ["-p"; Js.numberToString (fst portMapping) +:+ ":"
                           +:+ Js.numberToString (snd portMapping)])
          mappings dockerArgs
    | None => dockerArgs
    end in
  let dockerArgs :=
    match envFile options with
    | Some f => if Js.truthyStr f then dockerArgs ++ ["--env-file"; f] else dockerArgs
    | None => dockerArgs
    end in
  dockerArgs ++ (imageName options :: args options).

(** [runContainer] *)
Definition runContainer (options : RunOptions) : M RunResult :=
  tryCatch
    (let* out := runDocker (runContainerArgs options) in
     if negb (code out =? 0)%Z then ret (RunExited (stderr out))
     else ret (RunSucceeded (Js.trim (stdout out))))
    (fun _error => ret RunThrew).

(** The result of [getContainerLogs]. *)
Inductive LogsResult :=
| LogsRead (stdoutText stderrText : string)
| LogsExited (errorText : string)
| LogsThrew.

(** [getContainerLogs] *)
Definition getContainerLogs (containerName : string) : M LogsResult :=
  tryCatch
    (let* out := runDocker ["logs"; containerName] in
     if negb (code out =? 0)%Z then ret (LogsExited (stderr out))
     else ret (LogsRead (stdout out) (stderr out)))
    (fun _error => ret LogsThrew).

(** [printDockerLogs]: the logs are fetched and printed. *)
Definition printDockerLogs (containerName : string) : M unit :=
  tryCatch
    (let* _ := getContainerLogs containerName in ret tt)
    (fun _error => ret tt).

End WithHost.
End DockerService.

(** ** src/services/health-validator-service.ts *)

Module HealthValidator.
Section WithHost.
Context `{Host}.
Local Open Scope m_scope.

(** [isPortOpen(host, port)]: whether the GET request is answered at all;
    a timeout or a refused connection is caught.  The answer is an
    observation of the network, given as [answers]. *)
Definition isPortOpen (answers : string -> Z -> bool) (host : string) (port : Z)
  : M bool :=
  ret (answers host port).

(** The longest prefix of decimal digits, and what follows it. *)
Fixpoint spanDigits (s : string) : string * string :=
  match s with
  | String c rest =>
      match Js.digitOf c with
      | Some _ => let '(digits, after) := spanDigits rest in (String c digits, after)
      | None => (EmptyString, s)
      end
  | EmptyString => (EmptyString, EmptyString)
  end.

(** [endpoint.match(/:(\d+)\//)?.[1]]: the digits of the leftmost colon
    that is followed by one or more digits and a slash. *)
Fixpoint matchPort (endpoint : string) : option string :=
  match endpoint with
  | String c rest =>
      if Ascii.eqb c ":" then
        let '(digits, after) := spanDigits rest in
        if Js.truthyStr digits && Js.startsWith after "/" then Some digits
        else matchPort rest
      else matchPort rest
  | EmptyString => None
  end.

(** The port the state file records for a server: the port matched in its
    endpoint, parsed. *)
Definition portFromState (state : McpStateFile.t) (serverName : string) : option Z :=
  match State.getServerState state serverName with
  | Some serverState =>
      if Js.truthyStr (McpState.endpoint serverState) then
        match matchPort (McpState.endpoint serverState) with
        | Some digits => Js.parseInt digits
        | None => None
        end
      else None
  | None => None
  end.

(** The port [validateHttpHealth] sends its request to, given the port it
    read off the state file: that one unless it is missing or zero
    ([!port]), else the one of the arguments, else 9000. *)
Definition healthPort (recorded : option Z) (server : McpServerConfig.t) : Z :=
  let fromArgs := default 9000%Z (State.scanPort (McpServerConfig.args server)) in
  match recorded with
  | Some port => if (port =? 0)%Z then fromArgs else port
  | None => fromArgs
  end.

(** The first [try] block of [validateHttpHealth]: the port the state file
    records for the server; [None] is [undefined], also after an exception. *)
Definition recordedPort (server : McpServerConfig.t) : M (option Z) :=
  tryCatch
    (let* loaded := State.loadState in
     let* state := State.asStateFile loaded in
     ret (portFromState state (McpServerConfig.name server)))
    (fun _error => ret None).

(** [validateHttpHealth]: after the guard on the transport, the port is the
    recorded one unless it is missing, [NaN] or zero, and the request's
    verdict is the world's. *)
Definition validateHttpHealth (server : McpServerConfig.t)
    (validator : HealthValidatorConfig.t) : M bool :=
  match McpServerConfig.type server with
  | http =>
      let* recorded := recordedPort server in
      ask (fun o => httpProbe o server validator (healthPort recorded server))
  | stdio => ret false
  end.

(** The command line of [validateStdioHealth]; [validator.timeoutMs || 10000]. *)
Definition stdioCommand (server : McpServerConfig.t)
    (validator : HealthValidatorConfig.t) : list string :=
  let timeoutMs :=
    match HealthValidatorConfig.timeoutMs validator with
    | Some t => if (t =? 0)%Z then 10000%Z else t
    | None => 10000%Z
    end in
  ["run"; "--rm"; "-e"; "TIMEOUT_MS=" +:+ Js.numberToString timeoutMs]
    ++ McpServerConfig.args server ++ [McpServerConfig.image server].

(** [validateStdioHealth]: after the guard on the transport, the container
    is run with the request on its standard input; a non-zero exit code
    fails, and otherwise the verdict on the output is the world's. *)
Definition validateStdioHealth (server : McpServerConfig.t)
    (validator : HealthValidatorConfig.t) : M bool :=
  match McpServerConfig.type server with
  | stdio =>
      tryCatch
        (let* out := runDocker (stdioCommand server validator) in
         if negb (code out =? 0)%Z then ret false
         else ask (fun o => stdioProbe o server validator (stdout out)))
        (fun _error => ret false)
  | http => ret false
  end.

(** [validateServerHealth] *)
Definition validateServerHealth (server : McpServerConfig.t) : M bool :=
  match McpServerConfig.healthValidator server with
  | None => ret true
  | Some validator =>
      match McpServerConfig.type server with
      | http => validateHttpHealth server validator
      | stdio => validateStdioHealth server validator
      end
  end.

End WithHost.
End HealthValidator.

(** ** JavaScript objects as JSON documents *)

(** A value read from a JSON file is described by its own properties.  A
    member access [target[k]] finds the own property first and then looks
    along the prototype chain, where the built-in methods are. *)

Module Json.

(** [!!v] *)
Definition truthy (v : json) : bool :=
  match v with
  | JNull => false
  | JBool b => b
  | JNum repr => negb (String.eqb repr "0")
  | JStr s => Js.truthyStr s
  | JArr _ | JObj _ => true
  end.

(** [!!v] where [v] may be [undefined] *)
Definition truthyOpt (v : option json) : bool :=
  match v with
  | Some x => truthy x
  | None => false
  end.

(** [JSON.stringify(a) === JSON.stringify(b)] *)
Fixpoint eqb (a b : json) : bool :=
  match a, b with
  | JNull, JNull => true
  | JBool x, JBool y => Bool.eqb x y
  | JNum x, JNum y => String.eqb x y
  | JStr x, JStr y => String.eqb x y
  | JArr xs, JArr ys =>
      (fix items (xs ys : list json) : bool :=
         match xs, ys with
         | [], [] => true
         | x :: xs', y :: ys' => eqb x y && items xs' ys'
         | _, _ => false
         end) xs ys
  | JObj xs, JObj ys =>
      (fix fields (xs ys : list (string * json)) : bool :=
         match xs, ys with
         | [], [] => true
         | (k, x) :: xs', (k', y) :: ys' => String.eqb k k' && eqb x y && fields xs' ys'
         | _, _ => false
         end) xs ys
  | _, _ => false
  end.

(** Own property of a record, first binding. *)
Fixpoint assocGet {V} (k : string) (fields : list (string * V)) : option V :=
  match fields with
  | [] => None
  | (k', v) :: rest => if String.eqb k' k then Some v else assocGet k rest
  end.

Definition isDigit (c : ascii) : bool :=
  match Js.digitOf c with Some _ => true | None => false end.

(** An array index: the canonical decimal text of an integer below 2^32 - 1. *)
Definition arrayIndex (k : string) : option nat :=
  match k with
  | EmptyString => None
  | String c rest =>
      if forallb isDigit (list_ascii_of_string k)
         && (negb (Ascii.eqb c "0") || String.eqb rest "")
      then
        match Js.digitsRun None k with
        | Some n => if (n <? 4294967295)%Z then Some (Z.to_nat n) else None
        | None => None
        end
      else None
  end.

(** The value of an existing key replaced, the key keeping its place. *)
Fixpoint replaceKey {V} (k : string) (v : V) (fields : list (string * V))
  : list (string * V) :=
  match fields with
  | [] => []
  | (k', v') :: rest =>
      if String.eqb k' k then (k, v) :: rest else (k', v') :: replaceKey k v rest
  end.

(** Where a new array index [i] goes among the keys: before the first key
    that is not an array index or is a larger one. *)
Fixpoint insertIndex {V} (i : nat) (k : string) (v : V) (fields : list (string * V))
  : list (string * V) :=
  match fields with
  | [] => [(k, v)]
  | (k', v') :: rest =>
      match arrayIndex k' with
      | Some j =>
          if (j <? i)%nat then (k', v') :: insertIndex i k v rest
          else (k, v) :: fields
      | None => (k, v) :: fields
      end
  end.

(** A property created: an array index goes among the indices, in
    ascending order, any other name goes last. *)
Definition createKey {V} (k : string) (v : V) (fields : list (string * V))
  : list (string * V) :=
  match arrayIndex k with
  | Some i => insertIndex i k v fields
  | None => fields ++ [(k, v)]
  end.

(** [fields[k] = v] on own properties. *)
Definition assocSet {V} (k : string) (v : V) (fields : list (string * V))
  : list (string * V) :=
  match assocGet k fields with
  | Some _ => replaceKey k v fields
  | None => createKey k v fields
  end.

(** [items[i] = v], as [JSON.stringify] shows the array afterwards: the
    holes left when [i] is past the end print as [null]. *)
Definition arraySet (items : list json) (i : nat) (v : json) : list json :=
  if (i <? length items)%nat then <[i := v]> items
  else items ++ replicate (i - length items) JNull ++ [v].

(** The own property [k] of [target]; reading a member of [null] throws.
    This is [target[k]] for a name that no prototype has, such as
    ["mcpServers"]. *)
Definition getOwn (target : json) (k : string) : Outcome (option json) :=
  match target with
  | JNull => Threw OtherError
  | JObj fields => Returned (assocGet k fields)
  | JArr items =>
      match arrayIndex k with
      | Some i => Returned (items !! i)
      | None =>
          if String.eqb k "length"
          then Returned (Some (JNum (pretty (Z.of_nat (length items)))))
          else Returned None
      end
  | JStr s =>
      match arrayIndex k with
      | Some i =>
          Returned (match String.get i s with
                    | Some c => Some (JStr (String c EmptyString))
                    | None => None
                    end)
      | None =>
          if String.eqb k "length"
          then Returned (Some (JNum (pretty (Z.of_nat (String.length s)))))
          else Returned None
      end
  | JBool _ | JNum _ => Returned None
  end.

(** The string-named members of the built-in prototypes (ECMAScript 2024
    with its Annex B).  Every value but [null] inherits those of
    [Object.prototype]; the lists of the other prototypes name what they
    add. *)
Definition objectPrototype : list string :=
  ["constructor"; "hasOwnProperty"; "isPrototypeOf"; "propertyIsEnumerable";
   "toLocaleString"; "toString"; "valueOf"; "__defineGetter__";
   "__defineSetter__"; "__lookupGetter__"; "__lookupSetter__"].

Definition arrayPrototype : list string :=
  ["at"; "concat"; "copyWithin"; "entries"; "every"; "fill"; "filter"; "find";
   "findIndex"; "findLast"; "findLastIndex"; "flat"; "flatMap"; "forEach";
   "includes"; "indexOf"; "join"; "keys"; "lastIndexOf"; "map"; "pop"; "push";
   "reduce"; "reduceRight"; "reverse"; "shift"; "slice"; "some"; "sort";
   "splice"; "toReversed"; "toSorted"; "toSpliced"; "unshift"; "values";
   "with"].

Definition stringPrototype : list string :=
  ["at"; "charAt"; "charCodeAt"; "codePointAt"; "concat"; "endsWith";
   "includes"; "indexOf"; "isWellFormed"; "lastIndexOf"; "localeCompare";
   "match"; "matchAll"; "normalize"; "padEnd"; "padStart"; "repeat";
   "replace"; "replaceAll"; "search"; "slice"; "split"; "startsWith";
   "substring"; "toLocaleLowerCase"; "toLocaleUpperCase"; "toLowerCase";
   "toUpperCase"; "toWellFormed"; "trim"; "trimEnd"; "trimStart"; "substr";
   "anchor"; "big"; "blink"; "bold"; "fixed"; "fontcolor"; "fontsize";
   "italics"; "link"; "small"; "strike"; "sub"; "sup"; "trimLeft";
   "trimRight"].

Definition numberPrototype : list string :=
  ["toExponential"; "toFixed"; "toPrecision"].

(** What [target[k]] evaluates to, as far as the program can tell: the
    JSON value of an own property; a member of the prototype chain, which is
    a built-in function or, under [__proto__], the prototype itself; or
    [undefined]. *)
Inductive Member :=
| Data (v : json)
| Inherited
| Undefined.

(** [!!member]: a function and a prototype are truthy. *)
Definition truthyMember (m : Member) : bool :=
  match m with
  | Data v => truthy v
  | Inherited => true
  | Undefined => false
  end.

(** [JSON.stringify(member) === JSON.stringify(entry)] for an entry of the
    IDE file: a function prints as [undefined] and a prototype as an empty
    object, array, string, zero or false, never as the entry. *)
Definition sameText (m : Member) (entry : json) : bool :=
  match m with
  | Data v => eqb v entry
  | Inherited | Undefined => false
  end.

Section WithHost.
Context `{Host}.

(** Whether the prototype chain of [target] has a member named [k]. *)
Definition inherits (target : json) (k : string) : bool :=
  let among := existsb (String.eqb k) in
  match target with
  | JNull => false
  | _ =>
      (protoAccessor && String.eqb k "__proto__") || among objectPrototype ||
      match target with
      | JArr _ => among arrayPrototype
      | JStr _ => among stringPrototype
      | JNum _ => among numberPrototype
      | _ => false
      end
  end.

(** [target[k]]; reading a member of [null] throws. *)
Definition getMember (target : json) (k : string) : Outcome Member :=
  match getOwn target k with
  | Returned (Some v) => Returned (Data v)
  | Returned None => Returned (if inherits target k then Inherited else Undefined)
  | Threw e => Threw e
  end.

(** Whether [target[k] = value] runs the setter of [Object.prototype]'s
    [__proto__]: the name is that one, the accessor is there, and no own
    property of that name shadows it ([JSON.parse] creates one for such a key
    of the text).  The setter changes the prototype of an object or an array
    and ignores any other target; no property is created. *)
Definition setsPrototype (target : json) (k : string) : bool :=
  protoAccessor && String.eqb k "__proto__" &&
  match target with
  | JObj fields => negb (bool_decide (is_Some (assocGet k fields)))
  | _ => true
  end.

(** [target[k] = { ...value }] in strict mode, the target shown as
    [JSON.stringify] prints it afterwards.  Assigning to a member of [null]
    throws; so does creating or changing a property of a number, a string
    or a boolean.  On an array an index stores the element, ['length']
    throws a RangeError (the value is an object), any other name is a
    property that is not printed. *)
Definition assignMember (target : json) (k : string)
    (value : list (string * json)) : Outcome json :=
  match target with
  | JNull => Threw OtherError
  | _ =>
      if setsPrototype target k then Returned target
      else
        match target with
        | JObj fields => Returned (JObj (assocSet k (JObj value) fields))
        | JArr items =>
            match arrayIndex k with
            | Some i => Returned (JArr (arraySet items i (JObj value)))
            | None =>
                if String.eqb k "length" then Threw OtherError
                else Returned (JArr items)
            end
        | _ => Threw OtherError
        end
  end.

End WithHost.

(** An entry as the object literal the orchestrator builds. *)
Definition entryFields (entry : CursorMcpEntry) : list (string * json) :=
  match entry with
  | CursorHttpMcpEntry url => [("url", JStr url)]
  | CursorStdioMcpEntry command args =>
      [("command", JStr command); ("args", JArr (map JStr args))]
  end.

(** The record without the key [k]. *)
Fixpoint assocDel {V} (k : string) (fields : list (string * V)) : list (string * V) :=
  match fields with
  | [] => []
  | (k', v) :: rest =>
      if String.eqb k' k then assocDel k rest else (k', v) :: assocDel k rest
  end.

(** [delete target[k]] in strict mode, the target shown as [JSON.stringify]
    prints it afterwards.  Only own properties are deleted: a key of a
    record goes; a deleted array element leaves a hole, printed as [null];
    ['length'] of an array or of a string and a character of a string cannot
    be deleted (TypeError); deleting what the target does not own, an
    inherited member included, does nothing. *)
Definition deleteMember (target : json) (k : string) : Outcome json :=
  match target with
  | JObj fields => Returned (JObj (assocDel k fields))
  | JArr items =>
      match arrayIndex k with
      | Some i => Returned (JArr (if (i <? length items)%nat
                                  then <[i := JNull]> items else items))
      | None =>
          if String.eqb k "length" then Threw OtherError
          else Returned (JArr items)
      end
  | JStr s =>
      match arrayIndex k with
      | Some i =>
          if (i <? String.length s)%nat then Threw OtherError else Returned (JStr s)
      | None =>
          if String.eqb k "length" then Threw OtherError else Returned (JStr s)
      end
  | JNull => Threw OtherError
  | other => Returned other
  end.

End Json.

(** ** src/services/cursor-service.ts *)

Module CursorService.
Section WithHost.
Context `{Host}.
Local Open Scope m_scope.

Definition lift {A} (r : Outcome A) : M A := fun w => (r, w).

(** [Deno.readTextFile(configPath)] *)
Definition readConfigText (configPath : string) : M (Content json) :=
  io KRead (ConfigFile configPath)
     (fun w =>
        match configFiles w !! configPath with
        | Some rawContent => (Returned rawContent, w)
        | None => (Threw OtherError, w)
        end).

(** [Deno.writeTextFile(configPath, JSON.stringify(config, null, 2))] *)
Definition writeConfigText (configPath : string) (config : json) : M unit :=
  io KWrite (ConfigFile configPath)
     (fun w =>
        (Returned tt, setConfigFiles (<[configPath := Doc config]> (configFiles w)) w)).

(** [JSON.parse(rawContent)] *)
Definition parseConfig (rawContent : Content json) : M json :=
  match rawContent with
  | Doc jsonContent => ret jsonContent
  | Garbled => throw OtherError
  end.

(** [readMcpConfigFile] *)
Definition readMcpConfigFile (configPath : string) : M json :=
  tryCatch
    (let* present := fsExists (ConfigFile configPath) in
     if negb present then ret (JObj [])
     else
       let* rawContent := readConfigText configPath in
       tryCatch (parseConfig rawContent) (fun _parseError => ret (JObj [])))
    (fun _error => ret (JObj [])).

(** [writeMcpConfigFile] *)
Definition writeMcpConfigFile (configPath : string) (config : json) : M bool :=
  tryCatch
    (let* _ := tryCatch (mkdir (ConfigDir configPath))
                 (fun err =>
                    match err with
                    | AlreadyExists => ret tt
                    | OtherError => throw err
                    end) in
     let* _ := writeConfigText configPath config in
     ret true)
    (fun _error => ret false).

(** [config.mcpServers || {}] *)
Definition orEmpty (v : option json) : json :=
  match v with
  | Some x => if Json.truthy x then x else JObj []
  | None => JObj []
  end.

(** [getMcpServers] *)
Definition getMcpServers (configPath : string) : M json :=
  tryCatch
    (let* config := readMcpConfigFile configPath in
     let* mcpServers := lift (Json.getOwn config "mcpServers") in
     ret (orEmpty mcpServers))
    (fun _error => ret (JObj [])).

(** The [for (const [name, serverConfig] of Object.entries(servers))] loop
    of [addMcpServers], on the object held by [config.mcpServers]. *)
Fixpoint addEach (servers : list (string * CursorMcpEntry)) (mcpServers : json)
  : Outcome json :=
  match servers with
  | [] => Returned mcpServers
  | (name, serverConfig) :: rest =>
      match Json.assignMember mcpServers name (Json.entryFields serverConfig) with
      | Returned updated => addEach rest updated
      | Threw e => Threw e
      end
  end.

(** The document after the loop: the loop mutates the object that
    [config.mcpServers] holds, so a record shows the result under that key;
    a property of that name on an array is not printed. *)
Definition withMcpServers (config mcpServers : json) : json :=
  match config with
  | JObj fields => JObj (Json.assocSet "mcpServers" mcpServers fields)
  | other => other
  end.

(** [addMcpServers] *)
Definition addMcpServers (configPath : string)
    (servers : list (string * CursorMcpEntry)) : M bool :=
  tryCatch
    (let* config := readMcpConfigFile configPath in
     let* existing := lift (Json.getOwn config "mcpServers") in
     let* _ :=
       if Json.truthyOpt existing then ret config
       else lift (Json.assignMember config "mcpServers" []) in
     let* mcpServers := lift (addEach servers (orEmpty existing)) in
     writeMcpConfigFile configPath (withMcpServers config mcpServers))
    (fun _error => ret false).

(** The [for (const name of serverNames)] loop of [removeMcpServers], on
    the object held by [config.mcpServers]; the flag is [removed]. *)
Fixpoint removeEach (serverNames : list string) (mcpServers : json) (removed : bool)
  : Outcome (json * bool) :=
  match serverNames with
  | [] => Returned (mcpServers, removed)
  | name :: rest =>
      match Json.getMember mcpServers name with
      | Returned entry =>
          if Json.truthyMember entry then
            match Json.deleteMember mcpServers name with
            | Returned remaining => removeEach rest remaining true
            | Threw e => Threw e
            end
          else removeEach rest mcpServers removed
      | Threw e => Threw e
      end
  end.

(** [removeMcpServers] *)
Definition removeMcpServers (configPath : string) (serverNames : list string)
  : M bool :=
  tryCatch
    (let* present := fsExists (ConfigFile configPath) in
     if negb present then ret true
     else
       let* config := readMcpConfigFile configPath in
       let* existing := lift (Json.getOwn config "mcpServers") in
       if negb (Json.truthyOpt existing) then ret true
       else
         let* loop := lift (removeEach serverNames (orEmpty existing) false) in
         let '(mcpServers, removed) := loop in
         if removed then writeMcpConfigFile configPath (withMcpServers config mcpServers)
         else ret true)
    (fun _error => ret true).

End WithHost.
End CursorService.

(** ** src/presentation.ts *)

Module Presentation.
Section WithHost.
Context `{Host}.
Local Open Scope m_scope.

(** [confirm(question, defaultYes = true)] *)
Definition confirm (question : string) : M bool :=
  let defaultYes := true in
  tryCatch
    (let* reply := ask (fun o => promptSelect o question) in
     match reply with
     | Some response => ret (String.eqb response "Yes")
     | None => throw OtherError
     end)
    (fun _error => ret defaultYes).

End WithHost.
End Presentation.

(** ** src/orchestrator.ts *)

Module Orchestrator.
Section WithHost.
Context `{Host}.
Local Open Scope m_scope.

(** [getAppConfig()] *)
Definition getAppConfig : M (list (string * string)) :=
  let* config := ask appConfig in
  match config with
  | Some c => ret c
  | None => throw OtherError
  end.

(** [getAvailablePort()]: each call is counted, and answered by the
    operating system. *)
Definition getAvailablePort : M Z :=
  fun w =>
    let w' := setPortsAsked (S (portsAsked w)) w in
    match availablePort (oracle w) (portsAsked w) with
    | Some p => (Returned p, w')
    | None => (Threw OtherError, w')
    end.

(** [getPortFromArgs] *)
Definition getPortFromArgs (args : list string) (dynamicFallback : bool)
  : M (option Z) :=
  match State.scanPort args with
  | Some port => ret (Some port)
  | None =>
      if dynamicFallback then
        tryCatch (let* port := getAvailablePort in ret (Some port))
                 (fun _error => ret None)
      else ret None
  end.

(** [getAbsoluteEnvFilePathForCursor] *)
Definition getAbsoluteEnvFilePathForCursor (serverName : string) : string :=
  Config.getEnvFilePath serverName.

(** The [docker run] command line of a STDIO entry. *)
Definition stdioEntry (server : McpServerConfig.t) : CursorMcpEntry :=
  CursorStdioMcpEntry "docker"
    (["run"; "-i"; "--rm"; "--env-file";
      getAbsoluteEnvFilePathForCursor (McpServerConfig.name server);
      McpServerConfig.image server] ++ McpServerConfig.args server).

(** First half of [transformServerConfigForCursor]: the entry read off the
    state file, if the stored endpoint fits the transport. *)
Definition entryFromState (server : McpServerConfig.t) : M (option CursorMcpEntry) :=
  tryCatch
    (let* loaded := State.loadState in
     let* state := State.asStateFile loaded in
     match State.getServerState state (McpServerConfig.name server) with
     | Some serverState =>
         let endpoint := McpState.endpoint serverState in
         if Js.truthyStr endpoint then
           match McpServerConfig.type server with
           | http =>
               if Js.startsWith endpoint "http://"
               then ret (Some (CursorHttpMcpEntry endpoint))
               else ret None
           | stdio =>
               if Js.startsWith endpoint "command:"
               then ret (Some (stdioEntry server))
               else ret None
           end
         else ret None
     | None => ret None
     end)
    (fun _error => ret None).

(** [transformServerConfigForCursor] *)
Definition transformServerConfigForCursor (server : McpServerConfig.t)
  : M CursorMcpEntry :=
  let* fromState := entryFromState server in
  match fromState with
  | Some entry => ret entry
  | None =>
      match McpServerConfig.type server with
      | http =>
          let* port := getPortFromArgs (McpServerConfig.args server) true in
          match port with
          | Some p =>
              if (p =? 0)%Z then ret (CursorHttpMcpEntry "http://localhost:9000/sse")
              else ret (CursorHttpMcpEntry
                          ("http://localhost:" +:+ Js.numberToString p +:+ "/sse"))
          | None => ret (CursorHttpMcpEntry "http://localhost:9000/sse")
          end
      | stdio => ret (stdioEntry server)
      end
  end.

(** [updateAndSaveServerState] *)
Definition updateAndSaveServerState (serverName : string) (isOnline : bool)
    (endpoint : option string) : M unit :=
  let* loaded := State.loadState in
  let* state := State.asStateFile loaded in
  let updatedState := State.updateServerStatus state serverName isOnline endpoint in
  State.saveState updatedState.

(** [validateStdioServer] *)
Definition validateStdioServer (server : McpServerConfig.t) : M bool :=
  let name := McpServerConfig.name server in
  let image := McpServerConfig.image server in
  tryCatch
    (match McpServerConfig.type server with
     | http => ret false
     | stdio =>
         let* isValid := HealthValidator.validateServerHealth server in
         if negb isValid then
           let* _ := updateAndSaveServerState name false None in
           ret false
         else
           let endpoint := "command:docker:" +:+ image in
           let* _ := updateAndSaveServerState name false (Some endpoint) in
           ret true
     end)
    (fun _error => ret false).

(** [healthCheck] *)
Definition healthCheck (server : McpServerConfig.t) : M bool :=
  let name := McpServerConfig.name server in
  tryCatch
    (let* containerRunning :=
       match McpServerConfig.type server with
       | http => DockerService.isContainerRunning name
       | stdio => ret true
       end in
     if negb containerRunning then ret false
     else
       match McpServerConfig.healthValidator server with
       | None => ret true
       | Some _ => HealthValidator.validateServerHealth server
       end)
    (fun _error => ret false).

(** The question [updateCursorConfigForServer] asks. *)
Definition question (server : McpServerConfig.t) (serverInConfig : bool)
    (mcpConfigPath : string) : string :=
  let action := if serverInConfig then "update" else "add" in
  "Would you like to automatically " +:+ action +:+ " "
    +:+ McpServerConfig.description server +:+ " ("
    +:+ McpServerConfig.name server +:+ ") in your Cursor MCP config at "
    +:+ mcpConfigPath +:+ "?".

(** [updateCursorConfigForServer]; [displayCursorConfig] only prints. *)
Definition updateCursorConfigForServer (server : McpServerConfig.t)
    (forceUpdate : bool) : M bool :=
  tryCatch
    (let* appConfig := getAppConfig in
     match Json.assocGet "CURSOR_MCP_CONFIG_PATH" appConfig with
     | None => ret true
     | Some mcpConfigPath =>
         if negb (Js.truthyStr mcpConfigPath) then ret true
         else
           let* transformedConfig := transformServerConfigForCursor server in
           let* currentServers := CursorService.getMcpServers mcpConfigPath in
           let* currentConfig :=
             CursorService.lift
               (Json.getMember currentServers (McpServerConfig.name server)) in
           let serverInConfig := Json.truthyMember currentConfig in
           let configChanged :=
             negb (Json.sameText currentConfig
                     (JObj (Json.entryFields transformedConfig))) in
           if serverInConfig && negb configChanged then ret true
           else
             let* shouldUpdate :=
               if forceUpdate then ret true
               else Presentation.confirm (question server serverInConfig mcpConfigPath) in
             if shouldUpdate then
               let serverConfig := [(McpServerConfig.name server, transformedConfig)] in
               CursorService.addMcpServers mcpConfigPath serverConfig
             else ret true
     end)
    (fun _error =>
       let* _ := tryCatch (let* _ := transformServerConfigForCursor server in ret tt)
                          (fun _e => ret tt) in
       ret false).

(** [handleHttpServerSuccess] *)
Definition handleHttpServerSuccess (server : McpServerConfig.t) (port : Z) : M bool :=
  let endpoint := "http://localhost:" +:+ Js.numberToString port +:+ "/sse" in
  let* _ := updateAndSaveServerState (McpServerConfig.name server) true (Some endpoint) in
  ret true.

(** [handleHttpServerFailure] *)
Definition handleHttpServerFailure (server : McpServerConfig.t) : M bool :=
  let name := McpServerConfig.name server in
  let* _ := DockerService.printDockerLogs name in
  let* _ := DockerService.stopAndRemoveContainer name in
  let* _ := updateAndSaveServerState name false None in
  ret false.

(** [checkServerHealth] *)
Definition checkServerHealth (server : McpServerConfig.t) (port : Z) : M bool :=
  HealthValidator.validateServerHealth server.

(** [stopServer] *)
Definition stopServer (server : McpServerConfig.t) : M bool :=
  let name := McpServerConfig.name server in
  tryCatch
    (match McpServerConfig.type server with
     | stdio => ret true
     | http =>
         let* success := DockerService.stopAndRemoveContainer name in
         if negb success then ret false
         else
           let* _ := updateAndSaveServerState name false None in
           let* _ := updateCursorConfigForServer server true in
           ret true
     end)
    (fun _error => ret false).

(** [isServerRunning]; [answers] is what [isPortOpen] observes. *)
Definition isServerRunning (answers : string -> Z -> bool)
    (server : McpServerConfig.t) : M bool :=
  let name := McpServerConfig.name server in
  tryCatch
    (match McpServerConfig.type server with
     | http =>
         let* containerRunning := DockerService.isContainerRunning name in
         if containerRunning then ret true
         else
           let* loaded := State.loadState in
           let* state := State.asStateFile loaded in
           match HealthValidator.portFromState state name with
           | Some port => HealthValidator.isPortOpen answers "localhost" port
           | None =>
               match State.scanPort (McpServerConfig.args server) with
               | Some port => HealthValidator.isPortOpen answers "localhost" port
               | None => ret false
               end
           end
     | stdio => ret false
     end)
    (fun _error => ret false).

(** [updateServerImage] *)
Definition updateServerImage (server : McpServerConfig.t) : M bool :=
  tryCatch
    (let* pulled := DockerService.pullDockerImage (McpServerConfig.image server) in
     if negb pulled then ret false else ret true)
    (fun _error => ret false).

(** The loop of [startHttpServer] that sets [portSpecifiedInArgs]: whether
    ['--port'] occurs in [args] before the last position. *)
Fixpoint portSpecifiedInArgs (args : list string) : bool :=
  match args with
  | a :: (_ :: _) as rest => String.eqb a "--port" || portSpecifiedInArgs rest
  | _ => false
  end.

(** The server object after [server.args.push(...)]. *)
Definition withArgs (server : McpServerConfig.t) (args : list string)
  : McpServerConfig.t :=
  McpServerConfig.mk (McpServerConfig.name server) (McpServerConfig.description server)
    (McpServerConfig.image server) args (McpServerConfig.postStartInstructions server)
    (McpServerConfig.healthValidator server) (McpServerConfig.type server).

(** The waiting loop of [startHttpServer]: one probe of the port after each
    interval, [remaining] times at most; [probes n] is what the [n]-th call
    of [isPortOpen] observes. *)
Fixpoint waitForPort (probes : nat -> string -> Z -> bool) (port : Z)
    (attempt remaining : nat) : M bool :=
  match remaining with
  | O => ret false
  | S remaining' =>
      let* portOpen := HealthValidator.isPortOpen (probes attempt) "localhost" port in
      if portOpen then ret true
      else waitForPort probes port (S attempt) remaining'
  end.

(** [startHttpServer], from the first probe of the port on; [server] is the
    server object after its arguments were completed. *)
Definition launchHttpServer (probes : nat -> string -> Z -> bool)
    (server : McpServerConfig.t) (port : Z) : M bool :=
  let name := McpServerConfig.name server in
  let* portResponding := HealthValidator.isPortOpen (probes 0%nat) "localhost" port in
  if portResponding then
    let* healthy := checkServerHealth server port in
    if healthy then handleHttpServerSuccess server port
    else ret false
  else
    let* containerRunning := DockerService.isContainerRunning name in
    if containerRunning then
      let* isHealthy := checkServerHealth server port in
      if isHealthy then handleHttpServerSuccess server port
      else ret isHealthy
    else
      let* _ := DockerService.stopAndRemoveContainer name in
      let containerConfig := {|
        DockerService.imageName := McpServerConfig.image server;
        DockerService.containerName := name;
        DockerService.args := McpServerConfig.args server;
        DockerService.envFile := Some (Config.getEnvFilePath name);
        DockerService.env := None;
        DockerService.detached := Some true;
        DockerService.ports := Some [(port, port)];
      |} in
      let* result := DockerService.runContainer containerConfig in
      if negb (DockerService.success result) then handleHttpServerFailure server
      else
        let maxAttempts := 10%nat in
        let* serverAvailable := waitForPort probes port 1%nat maxAttempts in
        if negb serverAvailable then handleHttpServerFailure server
        else
          let* healthy := checkServerHealth server port in
          if negb healthy then handleHttpServerFailure server
          else handleHttpServerSuccess server port.

(** [startHttpServer].  The function pushes to [server.args], and the caller
    holds the same object: the result is paired with the server as it is
    afterwards.  The source has one [try] block; it is split here where the
    arguments are pushed, so that each handler returns the server object as
    it is when the exception is caught. *)
Definition startHttpServer (probes : nat -> string -> Z -> bool)
    (server : McpServerConfig.t) : M (bool * McpServerConfig.t) :=
  tryCatch
    (match McpServerConfig.type server with
     | stdio => ret (false, server)
     | http =>
         let* port := getPortFromArgs (McpServerConfig.args server) true in
         match port with
         | None => ret (false, server)
         | Some port =>
             if (port =? 0)%Z then ret (false, server)
             else
               let server :=
                 if portSpecifiedInArgs (McpServerConfig.args server) then server
                 else withArgs server
                        (McpServerConfig.args server
                           ++ ["--port"; Js.numberToString port]) in
               tryCatch
                 (let* started := launchHttpServer probes server port in
                  ret (started, server))
                 (fun _error => ret (false, server))
         end
     end)
    (fun _error => ret (false, server)).

End WithHost.
End Orchestrator.

(** ** src/commands/health-check.ts *)

Module HealthCheckCommand.
Section WithHost.
Context `{Host}.
Local Open Scope m_scope.

(** The [for (const server of serversToProcess)] loop. *)
Fixpoint checkEach (serversToProcess : list McpServerConfig.t)
    (currentState : McpStateFile.t) (allHealthy : bool)
  : M (McpStateFile.t * bool) :=
  match serversToProcess with
  | [] => ret (currentState, allHealthy)
  | server :: rest =>
      let* result := Orchestrator.healthCheck server in
      let currentState :=
        State.updateServerStatus currentState (McpServerConfig.name server) result None in
      let* _ := Orchestrator.updateCursorConfigForServer server true in
      let allHealthy := if negb result then false else allHealthy in
      checkEach rest currentState allHealthy
  end.

(** [command] of [health-check], after [getMcpServerConfigs()] returned
    [serverConfigs]; [targetServer] is [args.server]. *)
Definition command (serverConfigs : list McpServerConfig.t)
    (targetServer : option string) : M unit :=
  if (length serverConfigs =? 0)%nat then ret tt
  else
    let* loaded := State.loadState in
    let* now := ask now in
    (* the loop of [syncStateWithConfig] runs, [serverConfigs] being
       non-empty, and reads [state.mcps] *)
    let* currentState := State.asStateFile loaded in
    let currentState := State.syncStateWithConfig now currentState serverConfigs in
    let targeted :=
      match targetServer with Some name => Js.truthyStr name | None => false end in
    if targeted
       && negb (ServerValidator.validateServerSelection serverConfigs targetServer)
    then ret tt
    else
      let serversToProcess :=
        match targetServer with
        | Some name =>
            if Js.truthyStr name
            then List.filter (fun s => String.eqb (McpServerConfig.name s) name)
                             serverConfigs
            else serverConfigs
        | None => serverConfigs
        end in
      if (length serversToProcess =? 0)%nat && targeted then ret tt
      else
        let* checked := checkEach serversToProcess currentState true in
        State.saveState (fst checked).

End WithHost.
End HealthCheckCommand.

(** ** A small host, to run the model on concrete inputs *)

Module Toy.

(** [hay.includes(needle)] *)
Fixpoint includes (needle hay : string) : bool :=
  String.prefix needle hay ||
  match hay with
  | String _ rest => includes needle rest
  | EmptyString => false
  end.

Definition newline : string := String (ascii_of_nat 10) EmptyString.

(** A daemon that is the list of its containers' names, all running.
    [ps] prints the names matching the [name=] filter, one per line; [stop]
    and [rm] fail on a name that is not there; [run --rm] prints a response
    and leaves no container; [run -d --name <name>] adds the container unless
    the name is taken. *)
Definition toyDocker (args : list string) (containers : list string)
  : option CommandOutput * list string :=
  let listing (filter : string) :=
    let wanted := String.substring 5 (String.length filter - 5) filter in
    String.concat "" (map (fun n => n +:+ newline)
                          (List.filter (includes wanted) containers)) in
  let present (n : string) := existsb (String.eqb n) containers in
  match args with
  | ["ps"; "-a"; "--filter"; filter; "--format"; _] =>
      (Some {| code := 0; stdout := listing filter; stderr := "" |}, containers)
  | ["ps"; "--filter"; filter; "--format"; _] =>
      (Some {| code := 0; stdout := listing filter; stderr := "" |}, containers)
  | ["stop"; n] =>
      if present n then (Some {| code := 0; stdout := ""; stderr := "" |}, containers)
      else (Some {| code := 1; stdout := ""; stderr := "No such container" |}, containers)
  | ["rm"; n] =>
      if present n
      then (Some {| code := 0; stdout := ""; stderr := "" |},
            List.filter (fun c => negb (String.eqb n c)) containers)
      else (Some {| code := 1; stdout := ""; stderr := "No such container" |}, containers)
  | "run" :: "--rm" :: _ =>
      (Some {| code := 0; stdout := "{}" +:+ newline; stderr := "" |}, containers)
  | "run" :: "-d" :: "--name" :: n :: _ =>
      if present n
      then (Some {| code := 125; stdout := ""; stderr := "name in use" |}, containers)
      else (Some {| code := 0; stdout := n +:+ newline; stderr := "" |},
            containers ++ [n])
  | _ => (None, containers)
  end.

#[export] Instance toyHost : Host := {|
  join := String.concat "/";
  cwd := "/workspace";
  Daemon := list string;
  docker := toyDocker;
  protoAccessor := false;
|}.

(** The same host with an engine that keeps [Object.prototype.__proto__]. *)
Definition annexB : Host := {|
  join := String.concat "/";
  cwd := "/workspace";
  Daemon := list string;
  docker := toyDocker;
  protoAccessor := true;
|}.

(** A host where every file-system call succeeds, the configuration names
    the IDE file, the user answers yes and the probes pass. *)
Definition calm : Oracle := {|
  now := "2025-01-01T00:00:00.000Z";
  fault := fun _ _ => None;
  appConfig := Some [("CURSOR_MCP_CONFIG_PATH", "/home/u/.cursor/mcp.json")];
  promptSelect := fun _ => Some "Yes";
  availablePort := fun n => Some (9500 + Z.of_nat n)%Z;
  httpProbe := fun _ _ _ => true;
  stdioProbe := fun _ _ _ => true;
|}.

(** The same host, with a user who answers No. *)
Definition declining : Oracle := {|
  now := now calm;
  fault := fault calm;
  appConfig := appConfig calm;
  promptSelect := fun _ => Some "No";
  availablePort := availablePort calm;
  httpProbe := httpProbe calm;
  stdioProbe := stdioProbe calm;
|}.

(** The same host, except that no file can be read. *)
Definition unreadable : Oracle := {|
  now := now calm;
  fault := fun kind _ => match kind with KRead => Some OtherError | _ => None end;
  appConfig := appConfig calm;
  promptSelect := promptSelect calm;
  availablePort := availablePort calm;
  httpProbe := httpProbe calm;
  stdioProbe := stdioProbe calm;
|}.

Definition worldWith (o : Oracle) (state : option (Content StateDoc))
    (files : list (string * Content json)) (containers : list string)
  : World :=
  mkWorld o true state (list_to_map files) containers [] 0.

Definition world := worldWith calm.

Definition httpServer (name : string) (args : list string) : McpServerConfig.t :=
  McpServerConfig.mk name "a server" "img" args None None http.

Definition probe : HealthValidatorConfig.t :=
  HealthValidatorConfig.mk "tools/list" [] None None.

Definition stdioServer (name : string) (validator : option HealthValidatorConfig.t)
  : McpServerConfig.t :=
  McpServerConfig.mk name "a server" "img" [] None validator stdio.

Definition configPath : string := "/home/u/.cursor/mcp.json".

(** An IDE document with a setting of its own and one server. *)
Definition ideFields : list (string * json) :=
  [("theme", JStr "dark");
   ("mcpServers", JObj [("other", JObj [("url", JStr "http://localhost:7000/sse")])])].

(** A workstation where [svc] is recorded online and nobody was asked about
    the IDE file yet. *)
Definition svcState : McpStateFile.t :=
  McpStateFile.mk [McpState.mk "svc" "http://localhost:9001/sse" None true None]
                  (Some "2024-12-31T00:00:00.000Z").

Definition desk : World :=
  world (Some (Doc (Shaped svcState))) [(configPath, Doc (JObj ideFields))] ["svc"].

End Toy.

(** ** Vocabulary of the statements *)

(** The entry a map of servers gives a name: with [Object.entries] order,
    the last binding wins. *)
Fixpoint lastEntry (name : string) (servers : list (string * CursorMcpEntry))
  : option CursorMcpEntry :=
  match servers with
  | [] => None
  | (n, e) :: rest =>
      match lastEntry name rest with
      | Some later => Some later
      | None => if String.eqb n name then Some e else None
      end
  end.

(** An IDE document whose [mcpServers] member is a map of entries, or is
    missing or falsy (and then stands for the empty map). *)
Definition mcpServersIsMap (fields : list (string * json)) : Prop :=
  match Json.assocGet "mcpServers" fields with
  | Some (JObj _) => True
  | Some v => Json.truthy v = false
  | None => True
  end.

(** The entries of that map. *)
Definition priorEntries (fields : list (string * json)) : list (string * json) :=
  match Json.assocGet "mcpServers" fields with
  | Some (JObj old) => old
  | _ => []
  end.

(** The entries of a map after those of [servers] were assigned to it, one
    after the other. *)
Fixpoint assigned `{Host} (servers : list (string * CursorMcpEntry))
    (entries : list (string * json)) : list (string * json) :=
  match servers with
  | [] => entries
  | (name, serverConfig) :: rest =>
      assigned rest
        (if Json.setsPrototype (JObj entries) name then entries
         else Json.assocSet name (JObj (Json.entryFields serverConfig)) entries)
  end.

Section Vocabulary.
Context `{Host}.

(** What [isContainerRunning] answers: whether the listing, trimmed, is the
    container's name; false when [docker] cannot be spawned. *)
Definition listedAsRunning (containerName : string) (w : World) : bool :=
  match fst (docker (DockerService.runningCommand containerName) (daemon w)) with
  | Some out => String.eqb (Js.trim (stdout out)) containerName
  | None => false
  end.

(** What [readMcpConfigFile] makes of the IDE file: its document when the
    file is there, can be read and parses; the empty object otherwise. *)
Definition configAsRead (configPath : string) (w : World) : json :=
  match fault (oracle w) KExists (ConfigFile configPath),
        fault (oracle w) KRead (ConfigFile configPath),
        configFiles w !! configPath with
  | None, None, Some (Doc config) => config
  | _, _, _ => JObj []
  end.

(** The world after a successful write of the IDE file. *)
Definition written (configPath : string) (config : json) (w : World) : World :=
  setConfigFiles (<[configPath := Doc config]> (configFiles w)) w.

End Vocabulary.

(** Whether a name is among those to remove. *)
Definition listed (name : string) (serverNames : list string) : bool :=
  existsb (String.eqb name) serverNames.

(** Whether a name is a truthy member of a map of entries, own or
    inherited: the test of the loop of [removeMcpServers]. *)
Definition present `{Host} (entries : list (string * json)) (name : string) : bool :=
  match Json.getMember (JObj entries) name with
  | Returned member => Json.truthyMember member
  | Threw _ => false
  end.

(** Whether the loop of [removeMcpServers] finds something to remove. *)
Definition anyPresent `{Host} (serverNames : list string)
    (entries : list (string * json)) : bool :=
  existsb (present entries) serverNames.

(** Whether [removeMcpServers] finds something to remove in a document:
    its [mcpServers] is truthy and one of the names is a truthy member of
    it. *)
Definition anyToRemove `{Host} (serverNames : list string)
    (fields : list (string * json)) : bool :=
  Json.truthyOpt (Json.assocGet "mcpServers" fields)
  && anyPresent serverNames (priorEntries fields).

(** A world that differs at most in that [data/] now exists: all that
    [loadState] may change. *)
Definition onlyDir `{Host} (w w1 : World) : Prop :=
  w1 = w \/ w1 = setStateDirExists true w.

(** A world that differs at most in that [data/] now exists and in that one
    more free port was asked for: all that [transformServerConfigForCursor]
    may change. *)
Definition onlyAsked `{Host} (w w1 : World) : Prop :=
  exists n, (n = portsAsked w \/ n = S (portsAsked w)) /\
            onlyDir (setPortsAsked n w) w1.

(** The path of the IDE file the application's configuration names, when
    it can be loaded and names one. *)
Definition configuredPath `{Host} (w : World) : option string :=
  match appConfig (oracle w) with
  | Some config =>
      match Json.assocGet "CURSOR_MCP_CONFIG_PATH" config with
      | Some mcpConfigPath =>
          if Js.truthyStr mcpConfigPath then Some mcpConfigPath else None
      | None => None
      end
  | None => None
  end.

(** What [confirm] answers to a question: whether the reply is Yes, and
    yes when the prompt fails. *)
Definition consents `{Host} (question : string) (w : World) : bool :=
  match promptSelect (oracle w) question with
  | Some response => String.eqb response "Yes"
  | None => true
  end.

(** Whether the entry found in the IDE file is the one computed for the
    server: [serverInConfig && !configChanged]. *)
Definition upToDate (currentConfig : Json.Member) (entry : CursorMcpEntry) : bool :=
  Json.truthyMember currentConfig
  && Json.sameText currentConfig (JObj (Json.entryFields entry)).

(** The same observations, except for what the user replies. *)
Definition withPrompt (reply : string -> option string) (o : Oracle) : Oracle := {|
  now := now o;
  fault := fault o;
  appConfig := appConfig o;
  promptSelect := reply;
  availablePort := availablePort o;
  httpProbe := httpProbe o;
  stdioProbe := stdioProbe o;
|}.

(** The same world with another user in front of it. *)
Definition rePrompt `{Host} (reply : string -> option string) (w : World) : World :=
  mkWorld (withPrompt reply (oracle w)) (stateDirExists w) (stateFile w)
          (configFiles w) (daemon w) (issued w) (portsAsked w).

(** [w'] is [w] after the [docker] commands [log], and possibly the
    creation of [data/] and a call for a free port: the oracle, the state
    file and the IDE files are the same. *)
Definition Quiet `{Host} (log : list (list string)) (w w' : World) : Prop :=
  oracle w' = oracle w /\ stateFile w' = stateFile w /\
  configFiles w' = configFiles w /\ issued w' = issued w ++ log.

(** The state file after [updateAndSaveServerState] saved the loaded state
    with a server's status. *)
Definition savedStatus (o : Oracle) (loaded : McpStateFile.t) (serverName : string)
    (isOnline : bool) (endpoint : option string) : option (Content StateDoc) :=
  Some (Doc (Shaped (McpStateFile.mk
                       (McpStateFile.mcps
                          (State.updateServerStatus loaded serverName isOnline endpoint))
                       (Some (now o))))).

(** Whether the three file-system calls of [saveState] go through. *)
Definition canSave (o : Oracle) : Prop :=
  fault o KExists StateDir = None /\ fault o KMkdir StateDir = None /\
  fault o KWrite StateFilePath = None.

(** Every [docker run] of [log] is followed at once by [docker logs <name>]
    and by the existence probe of [stopAndRemoveContainer]. *)
Definition cleanedUp (serverName : string) (log : list (list string)) : Prop :=
  forall cmd, In cmd log -> hd_error cmd = Some "run" ->
    exists before after,
      log = before ++ cmd :: ["logs"; serverName]
              :: DockerService.checkCommand serverName :: after.

(** What [launchHttpServer] guarantees about its outcome, the world [w'] it
    ends in and the [docker] commands [log] it ran from [w]. *)
Definition Launched `{Host} (server : McpServerConfig.t) (port : Z) (w : World)
    (result : Outcome bool) (w' : World) (log : list (list string)) : Prop :=
  oracle w' = oracle w /\ configFiles w' = configFiles w /\
  issued w' = issued w ++ log /\
  match result with
  | Returned true =>
      exists wh ws loaded,
        Quiet log w wh /\
        HealthValidator.validateServerHealth server wh = (Returned true, ws) /\
        fst (State.loadState ws) = Returned (Shaped loaded) /\
        Orchestrator.handleHttpServerSuccess server port ws = (Returned true, w') /\
        (canSave (oracle w) ->
         stateFile w'
         = savedStatus (oracle w) loaded (McpServerConfig.name server) true
             (Some ("http://localhost:" +:+ Js.numberToString port +:+ "/sse")))
  | Returned false => cleanedUp (McpServerConfig.name server) log
  | Threw _ => stateFile w = Some (Doc Shapeless)
  end.

(** A string without a comma. *)
Definition commaFree (s : string) : bool :=
  forallb (fun c => negb (Ascii.eqb c ",")) (list_ascii_of_string s).

(** Whether a server's name is one of the items, compared after trimming;
    a blank item names no server. *)
Definition named (items : list string) (config : McpServerConfig.t) : bool :=
  negb (String.eqb (McpServerConfig.name config) "")
  && existsb (fun item => String.eqb (Js.trim item) (McpServerConfig.name config)) items.



(** The verdict recorded for an entry: the one of the first server of that
    name. *)
Fixpoint verdictFor (name : string) (checked : list (McpServerConfig.t * bool))
  : option bool :=
  match checked with
  | [] => None
  | (server, verdict) :: rest =>
      if String.eqb name (McpServerConfig.name server) then Some verdict
      else verdictFor name rest
  end.


(** A computation that runs the same whoever the user is. *)
Definition Blind `{Host} {A} (m : M A) : Prop :=
  forall reply w, m (rePrompt reply w) = (fst (m w), rePrompt reply (snd (m w))).

(** * Properties *)

(** ** Lists *)

Lemma lookup_map {A B} (f : A -> B) (l : list A) (i : nat) :
  map f l !! i = f <$> (l !! i).
Proof.
  revert i. induction l as [|a l IH]; intros [|i]; simpl; auto.
Qed.

Lemma fold_push {A B} (f : A -> B) (l : list A) (acc : list B) :
  fold_left (fun out a => out ++ [f a]) l acc = acc ++ map f l.
Proof.
  revert acc. induction l as [|a l IH]; intros acc; simpl.
  - now rewrite app_nil_r.
  - rewrite IH. now rewrite <- app_assoc.
Qed.

(** ** Reconciliation *)

Section StateFacts.
Context `{Host}.

Lemma sync_mcps now state servers :
  McpStateFile.mcps (State.syncStateWithConfig now state servers)
  = map (State.syncEntry state) servers.
Proof. unfold State.syncStateWithConfig. simpl. now rewrite fold_push. Qed.

Lemma sync_lookup now state servers i server :
  servers !! i = Some server ->
  McpStateFile.mcps (State.syncStateWithConfig now state servers) !! i
  = Some (State.syncEntry state server).
Proof. intros Hi. rewrite sync_mcps, lookup_map, Hi. reflexivity. Qed.

(** C1, as the code has it.  [syncStateWithConfig] returns one entry per
    definition, in the order of the definitions and under their names, so no
    other name appears.  An entry whose name has a prior entry keeps that
    entry's [manageCursorConfig], and keeps its endpoint when that endpoint is
    not the empty string; with an empty prior endpoint, or with no prior
    entry, the endpoint is the default one: [http://localhost:<port>/sse]
    with the port of the arguments or 9000 for http,
    [command:docker:<image>] for stdio.  Without a prior entry [online] is
    false and [manageCursorConfig] is unset. *)
Theorem syncStateWithConfig_reconciles now state servers :
  let out := McpStateFile.mcps (State.syncStateWithConfig now state servers) in
  let fallback server :=
    match McpServerConfig.type server with
    | http =>
        "http://localhost:"
          +:+ Js.numberToString (default 9000%Z (State.scanPort (McpServerConfig.args server)))
          +:+ "/sse"
    | stdio => "command:docker:" +:+ McpServerConfig.image server
    end in
  length out = length servers /\
  map McpState.name out = map McpServerConfig.name servers /\
  (forall entry, In entry out ->
     exists server, In server servers /\ McpState.name entry = McpServerConfig.name server) /\
  (forall i server, servers !! i = Some server ->
     exists entry, out !! i = Some entry /\
       McpState.name entry = McpServerConfig.name server /\
       match State.getServerState state (McpServerConfig.name server) with
       | Some prior =>
           McpState.manageCursorConfig entry = McpState.manageCursorConfig prior /\
           McpState.endpoint entry =
             (if String.eqb (McpState.endpoint prior) "" then fallback server
              else McpState.endpoint prior)
       | None =>
           McpState.endpoint entry = fallback server /\
           McpState.online entry = false /\
           McpState.manageCursorConfig entry = None
       end).
Proof.
  intros out fallback. subst out. rewrite sync_mcps.
  split; [apply length_map|].
  split; [rewrite map_map; reflexivity|].
  split.
  - intros entry Hin. apply in_map_iff in Hin as (server & <- & Hin).
    exists server. split; [assumption|reflexivity].
  - intros i server Hi. exists (State.syncEntry state server). split.
    + rewrite lookup_map, Hi. reflexivity.
    + split; [reflexivity|]. unfold State.syncEntry. simpl.
      destruct (State.getServerState state (McpServerConfig.name server)) as [prior|].
      * split; [reflexivity|]. destruct (McpState.endpoint prior); reflexivity.
      * repeat split; reflexivity.
Qed.

(** C9.  Reconciliation carries the [online] flag forward: the entry of a
    definition whose name has a prior entry has that entry's [online] flag,
    and [online] is false only by default, when there is no prior entry.  So
    a server recorded as online is still online after reconciliation. *)
Theorem syncStateWithConfig_keeps_online now state servers i server :
  servers !! i = Some server ->
  exists entry,
    McpStateFile.mcps (State.syncStateWithConfig now state servers) !! i = Some entry /\
    McpState.name entry = McpServerConfig.name server /\
    McpState.online entry =
      (match State.getServerState state (McpServerConfig.name server) with
       | Some prior => McpState.online prior
       | None => false
       end) /\
    (forall prior,
       State.getServerState state (McpServerConfig.name server) = Some prior ->
       McpState.online prior = true -> McpState.online entry = true).
Proof.
  intros Hi. exists (State.syncEntry state server).
  split; [now apply sync_lookup|]. unfold State.syncEntry. simpl.
  split; [reflexivity|]. split; [reflexivity|].
  intros prior -> Hon. exact Hon.
Qed.

End StateFacts.

Example default_endpoint_from_args :
  State.defaultEndpoint (Toy.httpServer "svc" ["--transport"; "sse"; "--port"; "9001"])
  = "http://localhost:9001/sse".
Proof. reflexivity. Qed.

Example default_endpoint_without_port :
  State.defaultEndpoint (Toy.httpServer "svc" ["--transport"; "sse"])
  = "http://localhost:9000/sse".
Proof. reflexivity. Qed.

Example default_endpoint_skips_unparsable :
  State.defaultEndpoint (Toy.httpServer "svc" ["--port"; "--port"; " 80x"])
  = "http://localhost:80/sse".
Proof. reflexivity. Qed.

Example default_endpoint_stdio :
  State.defaultEndpoint (Toy.stdioServer "svcio" None) = "command:docker:img".
Proof. reflexivity. Qed.

(** C1 as stated fails: a prior entry with the empty endpoint (the minimal
    entry [updateServerCursorConfigPreference] creates) matches by name, and
    its endpoint is not kept. *)
Lemma syncStateWithConfig_replaces_empty_endpoint :
  let prior := McpState.mk "svc" "" None false (Some true) in
  let state := McpStateFile.mk [prior] None in
  let server := Toy.httpServer "svc" [] in
  State.updateServerCursorConfigPreference (H := Toy.toyHost)
    (McpStateFile.mk [] None) "svc" true
  = McpStateFile.mk
      [McpState.mk "svc" "" (Some "/workspace/servers/config/svc.env") false (Some true)]
      None /\
  State.getServerState state (McpServerConfig.name server) = Some prior /\
  map McpState.endpoint
      (McpStateFile.mcps (State.syncStateWithConfig (H := Toy.toyHost) "t" state [server]))
  = ["http://localhost:9000/sse"] /\
  "http://localhost:9000/sse" <> McpState.endpoint prior.
Proof. repeat split; try reflexivity. discriminate. Qed.

Lemma syncStateWithConfig_keeps_online_witness :
  let prior := McpState.mk "svc" "http://localhost:9001/sse" None true None in
  let state := McpStateFile.mk [prior] None in
  let server := Toy.httpServer "svc" [] in
  exists entry,
    McpStateFile.mcps (State.syncStateWithConfig (H := Toy.toyHost) "t" state [server]) !! 0%nat
    = Some entry /\
    McpState.online entry = true.
Proof.
  destruct (syncStateWithConfig_keeps_online (H := Toy.toyHost) "t"
              (McpStateFile.mk [McpState.mk "svc" "http://localhost:9001/sse" None true None] None)
              [Toy.httpServer "svc" []] 0%nat (Toy.httpServer "svc" []) eq_refl)
    as (entry & Hentry & _ & Honline & _).
  exists entry. split; [exact Hentry|exact Honline].
Defined.

(** ** Status updates *)

Lemma updateServerStatus_lookup state serverName isOnline endpoint i mcp :
  McpStateFile.mcps state !! i = Some mcp ->
  McpStateFile.mcps (State.updateServerStatus state serverName isOnline endpoint) !! i
  = Some (if String.eqb (McpState.name mcp) serverName
          then McpState.mk (McpState.name mcp)
                 (match endpoint with
                  | Some e => if Js.truthyStr e then e else McpState.endpoint mcp
                  | None => McpState.endpoint mcp
                  end)
                 (McpState.envFile mcp) isOnline (McpState.manageCursorConfig mcp)
          else mcp).
Proof. intros Hi. simpl. rewrite lookup_map, Hi. reflexivity. Qed.

Lemma getServerState_None state serverName :
  State.getServerState state serverName = None ->
  forall mcp, In mcp (McpStateFile.mcps state) ->
              String.eqb (McpState.name mcp) serverName = false.
Proof.
  unfold State.getServerState. intros Hnone mcp Hin.
  exact (find_none _ _ Hnone mcp Hin).
Qed.

Lemma updateServerStatus_unknown_entries state serverName isOnline endpoint :
  State.getServerState state serverName = None ->
  McpStateFile.mcps (State.updateServerStatus state serverName isOnline endpoint)
  = McpStateFile.mcps state.
Proof.
  intros Hnone. pose proof (getServerState_None _ _ Hnone) as Hall.
  simpl. rewrite <- (map_id (McpStateFile.mcps state)) at 2.
  apply map_ext_in. intros mcp Hin. now rewrite (Hall mcp Hin).
Qed.

(** C6.  [updateServerStatus] returns a state file with the same
    [updatedOn] and as many entries, position by position: an entry of
    another name is the same entry; an entry of the given name keeps its
    name, [envFile] and [manageCursorConfig], has the given [online] flag, and
    keeps its endpoint when none is supplied; a supplied endpoint replaces it
    (the empty string counts as none), so the endpoint changes only when one
    is supplied. *)
Theorem updateServerStatus_frame state serverName isOnline endpoint :
  let out := State.updateServerStatus state serverName isOnline endpoint in
  McpStateFile.updatedOn out = McpStateFile.updatedOn state /\
  length (McpStateFile.mcps out) = length (McpStateFile.mcps state) /\
  forall i mcp, McpStateFile.mcps state !! i = Some mcp ->
    exists mcp', McpStateFile.mcps out !! i = Some mcp' /\
      (McpState.name mcp <> serverName -> mcp' = mcp) /\
      (McpState.name mcp = serverName ->
         McpState.name mcp' = McpState.name mcp /\
         McpState.online mcp' = isOnline /\
         McpState.manageCursorConfig mcp' = McpState.manageCursorConfig mcp /\
         McpState.envFile mcp' = McpState.envFile mcp /\
         (endpoint = None -> McpState.endpoint mcp' = McpState.endpoint mcp) /\
         (endpoint = Some "" -> McpState.endpoint mcp' = McpState.endpoint mcp) /\
         (forall e, endpoint = Some e -> e <> "" -> McpState.endpoint mcp' = e) /\
         (McpState.endpoint mcp' <> McpState.endpoint mcp ->
            endpoint = Some (McpState.endpoint mcp'))).
Proof.
  intros out. subst out. split; [reflexivity|]. split; [apply length_map|].
  intros i mcp Hi. eexists. split; [exact (updateServerStatus_lookup _ _ _ _ _ _ Hi)|].
  destruct (String.eqb_spec (McpState.name mcp) serverName) as [Heq|Hne].
  - split; [intros Hx; contradiction|]. intros _. simpl.
    repeat split.
    + intros ->. reflexivity.
    + intros ->. reflexivity.
    + intros e -> He. destruct e; [contradiction|reflexivity].
    + destruct endpoint as [[|c e]|]; simpl; intros Hx;
        [contradiction | reflexivity | contradiction].
  - split; [reflexivity|]. intros Hx; contradiction.
Qed.

(** C10.  With no entry of the given name, [updateServerStatus] returns the
    list of entries it was given: nothing is added, nothing changes, and the
    function returns (it is total). *)
Theorem updateServerStatus_unknown_name state serverName isOnline endpoint :
  State.getServerState state serverName = None ->
  State.updateServerStatus state serverName isOnline endpoint = state /\
  McpStateFile.mcps (State.updateServerStatus state serverName isOnline endpoint)
  = McpStateFile.mcps state.
Proof.
  intros Hnone. pose proof (getServerState_None _ _ Hnone) as Hall.
  assert (Hm : McpStateFile.mcps (State.updateServerStatus state serverName isOnline endpoint)
               = McpStateFile.mcps state).
  { simpl. destruct state as [mcps upd]. simpl in *. clear Hnone.
    induction mcps as [|mcp mcps IH]; [reflexivity|]. simpl.
    rewrite (Hall mcp (or_introl eq_refl)). f_equal.
    apply IH. intros m Hm. apply Hall. now right. }
  split; [|exact Hm].
  unfold State.updateServerStatus in *. simpl in Hm. rewrite Hm.
  destruct state; reflexivity.
Qed.

Lemma updateServerStatus_unknown_name_witness :
  let state :=
    McpStateFile.mk [McpState.mk "a" "http://localhost:9001/sse" None true (Some true)]
                    (Some "t") in
  State.updateServerStatus state "b" true (Some "http://localhost:9002/sse") = state /\
  McpStateFile.mcps (State.updateServerStatus state "b" true (Some "http://localhost:9002/sse"))
  = McpStateFile.mcps state.
Proof.
  exact (updateServerStatus_unknown_name
           (McpStateFile.mk
              [McpState.mk "a" "http://localhost:9001/sse" None true (Some true)]
              (Some "t"))
           "b" true (Some "http://localhost:9002/sse") eq_refl).
Defined.

(** ** Running the effects *)

Ltac unfoldM :=
  cbv [State.loadState State.saveState State.ensureStateDir State.freshState
       State.readStateFile State.writeStateFile State.parseState
       tryCatch bind ret throw ask io fsExists mkdir] in *.

Ltac caseFault :=
  match goal with
  | |- context [fault ?o ?k ?t] =>
      let E := fresh "Hfault" in destruct (fault o k t) eqn:E; simpl
  end.

Section StoreFacts.
Context `{Host}.

(** [loadState] returns, changes nothing but the existence of [data/], and
    yields the document on disk or the fresh state. *)
Lemma loadState_returns (w : World) :
  exists state w',
    State.loadState w = (Returned state, w') /\
    (w' = w \/ w' = setStateDirExists true w) /\
    (state = Shaped (McpStateFile.mk [] (Some (now (oracle w)))) \/
     stateFile w = Some (Doc state)) /\
    (stateFile w = None \/ stateFile w = Some Garbled ->
     state = Shaped (McpStateFile.mk [] (Some (now (oracle w))))).
Proof.
  unfoldM. destruct w as [o dir sf cf d iss asked]; simpl in *.
  repeat caseFault.
  all: try (destruct dir; simpl).
  all: repeat caseFault.
  all: try (destruct sf as [[|st]|]; simpl).
  all: repeat caseFault.
  all: do 2 eexists; (split; [reflexivity|]); simpl.
  all: split; [auto|split; [auto|intros [?|?]; congruence]].
Qed.

(** [saveState] returns; it leaves the state file as it was or replaces it
    by the given entries stamped with the current time, the latter whenever
    its three file-system calls go through. *)
Lemma saveState_returns (state : McpStateFile.t) (w : World) :
  exists w',
    State.saveState state w = (Returned tt, w') /\
    oracle w' = oracle w /\ configFiles w' = configFiles w /\
    daemon w' = daemon w /\ issued w' = issued w /\
    portsAsked w' = portsAsked w /\
    (stateFile w' = stateFile w \/
     stateFile w' = Some (Doc (Shaped (McpStateFile.mk (McpStateFile.mcps state)
                                         (Some (now (oracle w))))))) /\
    (fault (oracle w) KExists StateDir = None ->
     fault (oracle w) KMkdir StateDir = None ->
     fault (oracle w) KWrite StateFilePath = None ->
     stateFile w' = Some (Doc (Shaped (McpStateFile.mk (McpStateFile.mcps state)
                                         (Some (now (oracle w))))))).
Proof.
  unfoldM. destruct w as [o dir sf cf d iss asked]; simpl in *.
  repeat caseFault.
  all: try (destruct dir; simpl).
  all: repeat caseFault.
  all: eexists; (split; [reflexivity|]); simpl.
  all: repeat (split; [auto|]); try congruence; auto.
Qed.

(** C8.  [loadState] never throws: in every world, whatever file-system
    call fails, it returns.  When [data/state.json] is missing or its text
    does not parse, the result is the fresh state [{ mcps: [], updatedOn:
    now }]; in every case it is that fresh state or the value the text on
    disk parses to. *)
Theorem loadState_never_raises (w : World) :
  exists state w',
    State.loadState w = (Returned state, w') /\
    (state = Shaped (McpStateFile.mk [] (Some (now (oracle w)))) \/
     stateFile w = Some (Doc state)) /\
    (stateFile w = None \/ stateFile w = Some Garbled ->
     state = Shaped (McpStateFile.mk [] (Some (now (oracle w))))).
Proof.
  destruct (loadState_returns w) as (state & w' & Hrun & _ & Hcases & Hfresh).
  exists state, w'. auto.
Qed.

End StoreFacts.

Example loadState_reads_document :
  let doc := McpStateFile.mk [McpState.mk "svc" "http://localhost:9001/sse" None true None]
                             (Some "t0") in
  fst (State.loadState (Toy.world (Some (Doc (Shaped doc))) [] []))
  = Returned (Shaped doc).
Proof. reflexivity. Qed.

Example loadState_on_garbled_file :
  fst (State.loadState (Toy.world (Some Garbled) [] []))
  = Returned (Shaped (McpStateFile.mk [] (Some "2025-01-01T00:00:00.000Z"))).
Proof. reflexivity. Qed.

(** The cast of [loadState] checks nothing: a text that parses to a value
    without [mcps], such as [{}], is returned as it is. *)
Example loadState_on_shapeless_document :
  fst (State.loadState (Toy.world (Some (Doc Shapeless)) [] [])) = Returned Shapeless.
Proof. reflexivity. Qed.

(** ** Docker adapter *)

Section DockerFacts.
Context `{Host}.

Lemma stopAndRemoveContainer_absent (w : World) containerName out d :
  docker (DockerService.checkCommand containerName) (daemon w) = (Some out, d) ->
  Js.trim (stdout out) = "" ->
  DockerService.stopAndRemoveContainer containerName w
  = (Returned true,
     setDocker d (issued w ++ [DockerService.checkCommand containerName]) w).
Proof.
  intros Hps Hout.
  cbv [DockerService.stopAndRemoveContainer tryCatch bind runDocker ret].
  rewrite Hps, Hout. reflexivity.
Qed.

(** When the existence probe ([docker ps -a --filter name=<name>]) prints
    nothing, [stopAndRemoveContainer] returns true having run that probe and
    nothing else; so two calls in a row on such a daemon both return true,
    and the log of [docker] commands grows by the two probes only. *)
Lemma stopAndRemoveContainer_twice_on_empty_listing (w : World) containerName
    out1 d1 out2 d2 :
  docker (DockerService.checkCommand containerName) (daemon w) = (Some out1, d1) ->
  Js.trim (stdout out1) = "" ->
  docker (DockerService.checkCommand containerName) d1 = (Some out2, d2) ->
  Js.trim (stdout out2) = "" ->
  exists w1 w2,
    DockerService.stopAndRemoveContainer containerName w = (Returned true, w1) /\
    DockerService.stopAndRemoveContainer containerName w1 = (Returned true, w2) /\
    issued w1 = issued w ++ [DockerService.checkCommand containerName] /\
    issued w2 = issued w1 ++ [DockerService.checkCommand containerName] /\
    daemon w1 = d1 /\ daemon w2 = d2 /\
    stateFile w2 = stateFile w /\ configFiles w2 = configFiles w.
Proof.
  intros Hps1 Hout1 Hps2 Hout2.
  set (probe := DockerService.checkCommand containerName) in *.
  set (w1 := setDocker d1 (issued w ++ [probe]) w).
  exists w1, (setDocker d2 (issued w1 ++ [probe]) w1).
  split; [exact (stopAndRemoveContainer_absent w containerName out1 d1 Hps1 Hout1)|].
  split; [exact (stopAndRemoveContainer_absent w1 containerName out2 d2 Hps2 Hout2)|].
  repeat split; reflexivity.
Qed.

(** When the probe lists anything and [docker stop <name>] exits with an
    error, [stopAndRemoveContainer] returns false having issued the probe
    and the [stop]. *)
Lemma stopAndRemoveContainer_listed (w : World) containerName out d stopResult d' :
  docker (DockerService.checkCommand containerName) (daemon w) = (Some out, d) ->
  Js.trim (stdout out) <> "" ->
  docker ["stop"; containerName] d = (Some stopResult, d') ->
  code stopResult <> 0%Z ->
  DockerService.stopAndRemoveContainer containerName w
  = (Returned false,
     setDocker d' (issued w ++ [DockerService.checkCommand containerName;
                                ["stop"; containerName]]) w).
Proof.
  intros Hps Hout Hstop Hcode.
  cbv [DockerService.stopAndRemoveContainer tryCatch bind runDocker ret].
  rewrite Hps. cbv beta iota.
  destruct (String.eqb_spec (Js.trim (stdout out)) "") as [E|_]; [contradiction|].
  cbn [daemon setDocker issued]. rewrite Hstop. cbv beta iota.
  destruct (Z.eqb_spec (code stopResult) 0) as [E|_]; [contradiction|].
  cbn [negb]. unfold setDocker. cbn. rewrite <- app_assoc. reflexivity.
Qed.

End DockerFacts.

(** C4, at an input where the code departs from it.  The daemon has a
    container named [svc-2] and none named [svc].  The [name=] filter of
    [docker ps] selects the names that contain the text, so the existence
    probe for [svc] lists [svc-2]; [stopAndRemoveContainer] tests only
    whether the listing is empty, takes [svc] to exist, issues
    [docker stop svc], which fails, and returns false; a second call does
    the same.  The sibling [isContainerRunning] compares the listing with
    the name, and answers false for [svc] on the same daemon. *)
Theorem stopAndRemoveContainer_on_similar_name :
  let w := Toy.world None [] ["svc-2"] in
  let '(r1, w1) := DockerService.stopAndRemoveContainer "svc" w in
  let '(r2, w2) := DockerService.stopAndRemoveContainer "svc" w1 in
  fst (DockerService.isContainerRunning "svc" w) = Returned false /\
  r1 = Returned false /\
  issued w1 = [DockerService.checkCommand "svc"; ["stop"; "svc"]] /\
  r2 = Returned false /\
  issued w2 = issued w1 ++ [DockerService.checkCommand "svc"; ["stop"; "svc"]] /\
  daemon w2 = ["svc-2"].
Proof. vm_compute. repeat split; reflexivity. Qed.

Example stopAndRemoveContainer_on_absent_container :
  exists w1 w2,
    DockerService.stopAndRemoveContainer "mcp-a" (Toy.world None [] ["other"])
    = (Returned true, w1) /\
    DockerService.stopAndRemoveContainer "mcp-a" w1 = (Returned true, w2) /\
    issued w1 = [] ++ [DockerService.checkCommand "mcp-a"] /\
    issued w2 = issued w1 ++ [DockerService.checkCommand "mcp-a"] /\
    daemon w1 = ["other"] /\ daemon w2 = ["other"] /\
    stateFile w2 = None /\ configFiles w2 = list_to_map [].
Proof.
  exact (stopAndRemoveContainer_twice_on_empty_listing (H := Toy.toyHost)
           (Toy.world None [] ["other"]) "mcp-a"
           {| code := 0; stdout := ""; stderr := "" |} ["other"]
           {| code := 0; stdout := ""; stderr := "" |} ["other"]
           eq_refl eq_refl eq_refl eq_refl).
Qed.

Example stopAndRemoveContainer_removes :
  let w := Toy.world None [] ["mcp-a"; "other"] in
  let '(r1, w1) := DockerService.stopAndRemoveContainer "mcp-a" w in
  let '(r2, w2) := DockerService.stopAndRemoveContainer "mcp-a" w1 in
  r1 = Returned true /\ r2 = Returned true /\ daemon w2 = ["other"] /\
  issued w2 = [DockerService.checkCommand "mcp-a"; ["stop"; "mcp-a"]; ["rm"; "mcp-a"];
               DockerService.checkCommand "mcp-a"].
Proof. vm_compute. repeat split; reflexivity. Qed.

(** ** Health checks *)

Section HealthFacts.
Context `{Host}.

Lemma validateServerHealth_vacuous server (w : World) :
  McpServerConfig.healthValidator server = None ->
  HealthValidator.validateServerHealth server w = (Returned true, w).
Proof.
  intros Hnone. unfold HealthValidator.validateServerHealth. rewrite Hnone. reflexivity.
Qed.

Lemma isContainerRunning_answer containerName (w : World) :
  DockerService.isContainerRunning containerName w
  = (Returned (listedAsRunning containerName w),
     setDocker (snd (docker (DockerService.runningCommand containerName) (daemon w)))
               (issued w ++ [DockerService.runningCommand containerName]) w).
Proof.
  cbv [DockerService.isContainerRunning listedAsRunning tryCatch bind runDocker ret].
  destruct (docker (DockerService.runningCommand containerName) (daemon w)) as [[out|] d];
    reflexivity.
Qed.

(** C2, as the code has it.  For a definition without [healthValidator],
    [validateServerHealth] returns true in every world and changes nothing.
    [healthCheck] returns true for such a stdio definition in every world;
    for such an http definition it first asks Docker, and returns exactly
    what [isContainerRunning] answers for the server's name: true when the
    listing shows that name, false otherwise. *)
Theorem healthCheck_without_validator server (w : World) :
  McpServerConfig.healthValidator server = None ->
  HealthValidator.validateServerHealth server w = (Returned true, w) /\
  match McpServerConfig.type server with
  | stdio => Orchestrator.healthCheck server w = (Returned true, w)
  | http =>
      Orchestrator.healthCheck server w
      = DockerService.isContainerRunning (McpServerConfig.name server) w /\
      fst (Orchestrator.healthCheck server w)
      = Returned (listedAsRunning (McpServerConfig.name server) w)
  end.
Proof.
  intros Hnone. split; [now apply validateServerHealth_vacuous|].
  destruct (McpServerConfig.type server) eqn:Htype.
  - assert (Heq : Orchestrator.healthCheck server w
                  = DockerService.isContainerRunning (McpServerConfig.name server) w).
    { unfold Orchestrator.healthCheck. rewrite Hnone, Htype.
      cbv [tryCatch bind ret]. rewrite isContainerRunning_answer.
      destruct (listedAsRunning (McpServerConfig.name server) w); reflexivity. }
    split; [exact Heq|]. rewrite Heq, isContainerRunning_answer. reflexivity.
  - unfold Orchestrator.healthCheck. rewrite Hnone, Htype. reflexivity.
Qed.

End HealthFacts.

Lemma healthCheck_without_validator_witness :
  let server := Toy.httpServer "svc" [] in
  let w := Toy.world None [] ["svc"] in
  HealthValidator.validateServerHealth server w = (Returned true, w) /\
  (Orchestrator.healthCheck server w
   = DockerService.isContainerRunning (McpServerConfig.name server) w /\
   fst (Orchestrator.healthCheck server w)
   = Returned (listedAsRunning (McpServerConfig.name server) w)).
Proof.
  exact (healthCheck_without_validator (H := Toy.toyHost)
           (Toy.httpServer "svc" []) (Toy.world None [] ["svc"]) eq_refl).
Defined.

Example healthCheck_running_container :
  fst (Orchestrator.healthCheck (Toy.httpServer "svc" []) (Toy.world None [] ["svc"]))
  = Returned true.
Proof. reflexivity. Qed.

(** C2 as stated fails: an http definition without [healthValidator] whose
    container is not running is reported unhealthy. *)
Lemma healthCheck_needs_running_container :
  let server := Toy.httpServer "svc" [] in
  McpServerConfig.healthValidator server = None /\
  fst (Orchestrator.healthCheck server (Toy.world None [] [])) = Returned false.
Proof. split; reflexivity. Qed.

(** ** Validation of STDIO servers *)

Section StdioFacts.
Context `{Host}.


(** [loadState] does not look at the daemon. *)
Lemma loadState_setDocker d log (w : World) :
  State.loadState (setDocker d log w)
  = (fst (State.loadState w), setDocker d log (snd (State.loadState w))).
Proof.
  unfoldM. destruct w as [o dir sf cf d0 iss asked]; simpl.
  repeat caseFault.
  all: try (destruct dir; simpl).
  all: repeat caseFault.
  all: try (destruct sf as [[|st]|]; simpl).
  all: repeat caseFault.
  all: reflexivity.
Qed.



(** [updateAndSaveServerState] on a loaded state file: it returns, and what
    it saves is the loaded state updated by [updateServerStatus]. *)
Lemma updateAndSaveServerState_returns serverName isOnline endpoint (w : World) loaded :
  fst (State.loadState w) = Returned (Shaped loaded) ->
  exists w',
    Orchestrator.updateAndSaveServerState serverName isOnline endpoint w
    = (Returned tt, w') /\
    oracle w' = oracle w /\ configFiles w' = configFiles w /\
    daemon w' = daemon w /\ issued w' = issued w /\
    portsAsked w' = portsAsked w /\
    (stateFile w' = stateFile w \/
     stateFile w'
     = Some (Doc (Shaped (McpStateFile.mk
                    (McpStateFile.mcps
                       (State.updateServerStatus loaded serverName isOnline endpoint))
                    (Some (now (oracle w))))))) /\
    (fault (oracle w) KExists StateDir = None ->
     fault (oracle w) KMkdir StateDir = None ->
     fault (oracle w) KWrite StateFilePath = None ->
     stateFile w'
     = Some (Doc (Shaped (McpStateFile.mk
                    (McpStateFile.mcps
                       (State.updateServerStatus loaded serverName isOnline endpoint))
                    (Some (now (oracle w))))))).
Proof.
  intros Hloaded.
  destruct (loadState_returns w) as (state & w1 & Hload & Hw1 & _ & _).
  rewrite Hload in Hloaded. simpl in Hloaded. injection Hloaded as ->.
  destruct (saveState_returns
              (State.updateServerStatus loaded serverName isOnline endpoint) w1)
    as (w2 & Hsave & Ho & Hc & Hd & Hi & Hp & Hfile & Hdone).
  exists w2.
  assert (Hsame : oracle w1 = oracle w /\ configFiles w1 = configFiles w /\
                  daemon w1 = daemon w /\ issued w1 = issued w /\
                  portsAsked w1 = portsAsked w /\ stateFile w1 = stateFile w).
  { destruct Hw1 as [-> | ->]; repeat split; reflexivity. }
  destruct Hsame as (Ho1 & Hc1 & Hd1 & Hi1 & Hp1 & Hf1).
  split.
  { unfold Orchestrator.updateAndSaveServerState, bind. rewrite Hload.
    cbv [State.asStateFile ret]. exact Hsave. }
  rewrite Ho1 in Hfile, Hdone. rewrite Hf1 in Hfile.
  repeat split; try congruence; assumption.
Qed.

(** [updateAndSaveServerState] on a loaded value without [mcps]:
    [updateServerStatus] throws, and nothing is saved. *)
Lemma updateAndSaveServerState_throws serverName isOnline endpoint (w : World) :
  fst (State.loadState w) = Returned Shapeless ->
  exists w',
    Orchestrator.updateAndSaveServerState serverName isOnline endpoint w
    = (Threw OtherError, w') /\
    onlyDir w w'.
Proof.
  intros Hloaded.
  destruct (loadState_returns w) as (state & w1 & Hload & Hw1 & _ & _).
  rewrite Hload in Hloaded. simpl in Hloaded. injection Hloaded as ->.
  exists w1. split; [|exact Hw1].
  unfold Orchestrator.updateAndSaveServerState, bind. rewrite Hload. reflexivity.
Qed.


End StdioFacts.


Example validateStdioServer_scenario :
  let server := Toy.stdioServer "svcio" (Some Toy.probe) in
  let prior := McpState.mk "svcio" "" None true None in
  let w := Toy.world (Some (Doc (Shaped (McpStateFile.mk [prior] None)))) [] [] in
  let '(result, w') := Orchestrator.validateStdioServer server w in
  result = Returned true /\
  stateFile w'
  = Some (Doc (Shaped
                 (McpStateFile.mk [McpState.mk "svcio" "command:docker:img" None false None]
                                  (Some "2025-01-01T00:00:00.000Z")))) /\
  issued w' = [["run"; "--rm"; "-e"; "TIMEOUT_MS=10000"; "img"]].
Proof. vm_compute. repeat split; reflexivity. Qed.


(** On a state file that holds [{}], the validation succeeds,
    [updateServerStatus] throws, and [validateStdioServer] returns false
    from its [catch] with the file as it was. *)
Example validateStdioServer_on_shapeless_state :
  let server := Toy.stdioServer "svcio" (Some Toy.probe) in
  let w := Toy.world (Some (Doc Shapeless)) [] [] in
  fst (HealthValidator.validateServerHealth server w) = Returned true /\
  fst (Orchestrator.validateStdioServer server w) = Returned false /\
  stateFile (snd (Orchestrator.validateStdioServer server w)) = Some (Doc Shapeless).
Proof. vm_compute. repeat split; reflexivity. Qed.

(** ** IDE configuration *)

Lemma assocGet_app {V} k (fields more : list (string * V)) :
  Json.assocGet k (fields ++ more)
  = match Json.assocGet k fields with
    | Some v => Some v
    | None => Json.assocGet k more
    end.
Proof.
  induction fields as [|[k' v'] rest IH]; simpl; [reflexivity|].
  destruct (String.eqb k' k); [reflexivity|exact IH].
Qed.

Lemma assocGet_replaceKey_eq {V} k (v : V) fields :
  Json.assocGet k fields <> None ->
  Json.assocGet k (Json.replaceKey k v fields) = Some v.
Proof.
  induction fields as [|[k' v'] rest IH]; simpl; [congruence|].
  destruct (String.eqb k' k) eqn:E; simpl.
  - now rewrite String.eqb_refl.
  - rewrite E. exact IH.
Qed.

Lemma assocGet_replaceKey_ne {V} k k' (v : V) fields :
  k <> k' -> Json.assocGet k' (Json.replaceKey k v fields) = Json.assocGet k' fields.
Proof.
  intros Hne. induction fields as [|[k0 v0] rest IH]; simpl; [reflexivity|].
  destruct (String.eqb_spec k0 k) as [->|Hk]; simpl.
  - destruct (String.eqb_spec k k'); [contradiction|reflexivity].
  - destruct (String.eqb k0 k'); [reflexivity|exact IH].
Qed.

Lemma assocGet_insertIndex_eq {V} i k (v : V) fields :
  Json.arrayIndex k = Some i ->
  Json.assocGet k (Json.insertIndex i k v fields) = Some v.
Proof.
  intros Hi. induction fields as [|[k' v'] rest IH]; simpl.
  - now rewrite String.eqb_refl.
  - destruct (Json.arrayIndex k') as [j|] eqn:Hj.
    + destruct (j <? i)%nat eqn:Hlt; simpl.
      * destruct (String.eqb_spec k' k) as [->|_]; [|exact IH].
        rewrite Hi in Hj. injection Hj as <-. rewrite Nat.ltb_irrefl in Hlt. discriminate.
      * now rewrite String.eqb_refl.
    + simpl. now rewrite String.eqb_refl.
Qed.

Lemma assocGet_insertIndex_ne {V} i k k' (v : V) fields :
  k <> k' -> Json.assocGet k' (Json.insertIndex i k v fields) = Json.assocGet k' fields.
Proof.
  intros Hne. induction fields as [|[k0 v0] rest IH]; simpl.
  - destruct (String.eqb_spec k k'); [contradiction|reflexivity].
  - destruct (Json.arrayIndex k0) as [j|]; [destruct (j <? i)%nat|]; simpl.
    + destruct (String.eqb k0 k'); [reflexivity|exact IH].
    + destruct (String.eqb_spec k k'); [contradiction|reflexivity].
    + destruct (String.eqb_spec k k'); [contradiction|reflexivity].
Qed.

Lemma assocGet_assocSet_eq {V} k (v : V) fields :
  Json.assocGet k (Json.assocSet k v fields) = Some v.
Proof.
  unfold Json.assocSet, Json.createKey.
  destruct (Json.assocGet k fields) eqn:E.
  - apply assocGet_replaceKey_eq. congruence.
  - destruct (Json.arrayIndex k) eqn:Hi.
    + now apply assocGet_insertIndex_eq.
    + rewrite assocGet_app, E. simpl. now rewrite String.eqb_refl.
Qed.

Lemma assocGet_assocSet_ne {V} k k' (v : V) fields :
  k <> k' -> Json.assocGet k' (Json.assocSet k v fields) = Json.assocGet k' fields.
Proof.
  intros Hne. unfold Json.assocSet, Json.createKey.
  destruct (Json.assocGet k fields).
  - now apply assocGet_replaceKey_ne.
  - destruct (Json.arrayIndex k).
    + now apply assocGet_insertIndex_ne.
    + rewrite assocGet_app. destruct (Json.assocGet k' fields); [reflexivity|].
      simpl. destruct (String.eqb_spec k k'); [contradiction|reflexivity].
Qed.

Section AssignFacts.
Context `{Host}.

Lemma setsPrototype_assocSet entries n (v : json) name :
  Json.setsPrototype (JObj entries) n = false ->
  Json.setsPrototype (JObj (Json.assocSet n v entries)) name
  = Json.setsPrototype (JObj entries) name.
Proof.
  unfold Json.setsPrototype. intros Hn.
  destruct (String.eqb_spec n name) as [->|Hne].
  - rewrite assocGet_assocSet_eq.
    rewrite (bool_decide_eq_true_2 (is_Some (Some v))) by eauto.
    simpl. rewrite andb_false_r. now rewrite Hn.
  - now rewrite assocGet_assocSet_ne.
Qed.

(** On a map of entries the loop of [addMcpServers] does not throw; each
    name ends with the last entry given for it, and a name without one
    keeps what it had.  The name [__proto__] is the exception where the
    engine keeps that accessor and the map has no own property of the name:
    the assignment then changes the prototype of the map and no property. *)
Lemma addEach_object servers : forall entries,
  CursorService.addEach servers (JObj entries) = Returned (JObj (assigned servers entries)) /\
  forall name,
    Json.assocGet name (assigned servers entries) =
      if Json.setsPrototype (JObj entries) name then Json.assocGet name entries
      else match lastEntry name servers with
           | Some e => Some (JObj (Json.entryFields e))
           | None => Json.assocGet name entries
           end.
Proof.
  induction servers as [|[n e] rest IH]; intros entries.
  - split; [reflexivity|]. intros name. simpl.
    now destruct (Json.setsPrototype (JObj entries) name).
  - cbn [CursorService.addEach assigned lastEntry]. unfold Json.assignMember.
    destruct (Json.setsPrototype (JObj entries) n) eqn:Hn.
    + destruct (IH entries) as (Hrun & Hget). split; [exact Hrun|].
      intros name. rewrite Hget.
      destruct (Json.setsPrototype (JObj entries) name) eqn:Hname; [reflexivity|].
      destruct (lastEntry name rest); [reflexivity|].
      destruct (String.eqb_spec n name) as [->|_]; [congruence|reflexivity].
    + destruct (IH (Json.assocSet n (JObj (Json.entryFields e)) entries)) as (Hrun & Hget).
      split; [exact Hrun|]. intros name. rewrite Hget.
      rewrite (setsPrototype_assocSet _ _ _ _ Hn).
      destruct (Json.setsPrototype (JObj entries) name) eqn:Hname.
      * apply assocGet_assocSet_ne. intros ->. congruence.
      * destruct (lastEntry name rest); [reflexivity|].
        destruct (String.eqb_spec n name) as [->|Hne].
        -- apply assocGet_assocSet_eq.
        -- now apply assocGet_assocSet_ne.
Qed.

Lemma addEach_truthy servers : forall v m,
  Json.truthy v = true ->
  CursorService.addEach servers v = Returned m -> Json.truthy m = true.
Proof.
  induction servers as [|[n e] rest IH]; intros v m Hv; simpl.
  - intros [= <-]. exact Hv.
  - destruct (Json.assignMember v n (Json.entryFields e)) as [u|] eqn:E; [|discriminate].
    apply IH. unfold Json.assignMember in E.
    destruct v; try discriminate.
    all: destruct (Json.setsPrototype _ n); [injection E as <-; exact Hv|].
    all: try discriminate.
    + destruct (Json.arrayIndex n); [injection E as <-; reflexivity|].
      destruct (String.eqb n "length"); [discriminate|injection E as <-; reflexivity].
    + injection E as <-. reflexivity.
Qed.

End AssignFacts.

Section CursorFacts.
Context `{Host}.

(** No prototype has a member named [mcpServers]: [config.mcpServers] is
    the own property of that name, or [undefined]. *)
Lemma getMember_mcpServers config :
  Json.getMember config "mcpServers"
  = match Json.getOwn config "mcpServers" with
    | Returned (Some v) => Returned (Json.Data v)
    | Returned None => Returned Json.Undefined
    | Threw e => Threw e
    end.
Proof.
  unfold Json.getMember.
  destruct (Json.getOwn config "mcpServers") as [[v|]|e]; try reflexivity.
  destruct config; try reflexivity; simpl; now rewrite andb_false_r.
Qed.

Lemma readMcpConfigFile_doc configPath (w : World) d :
  configFiles w !! configPath = Some (Doc d) ->
  fault (oracle w) KExists (ConfigFile configPath) = None ->
  fault (oracle w) KRead (ConfigFile configPath) = None ->
  CursorService.readMcpConfigFile configPath w = (Returned d, w).
Proof.
  intros Hfile F1 F2.
  cbv [CursorService.readMcpConfigFile CursorService.readConfigText
       CursorService.parseConfig tryCatch bind ret throw io fsExists].
  rewrite F1, Hfile. rewrite bool_decide_eq_true_2 by eauto. simpl.
  rewrite F2, Hfile. reflexivity.
Qed.

Lemma writeMcpConfigFile_cases configPath config (w : World) :
  (CursorService.writeMcpConfigFile configPath config w
   = (Returned true, written configPath config w) \/
   CursorService.writeMcpConfigFile configPath config w = (Returned false, w)) /\
  (fault (oracle w) KMkdir (ConfigDir configPath) <> Some OtherError ->
   fault (oracle w) KWrite (ConfigFile configPath) = None ->
   CursorService.writeMcpConfigFile configPath config w
   = (Returned true, written configPath config w)).
Proof.
  cbv [CursorService.writeMcpConfigFile CursorService.writeConfigText written
       tryCatch bind ret throw io mkdir].
  destruct (fault (oracle w) KMkdir (ConfigDir configPath)) as [[|]|]; simpl.
  all: destruct (fault (oracle w) KWrite (ConfigFile configPath)); simpl.
  all: split; [auto|intros; try congruence; auto].
Qed.

Lemma setsPrototype_mcpServers target : Json.setsPrototype target "mcpServers" = false.
Proof. unfold Json.setsPrototype. simpl. now rewrite andb_false_r. Qed.

Lemma assignMember_mcpServers fields value :
  Json.assignMember (JObj fields) "mcpServers" value
  = Returned (JObj (Json.assocSet "mcpServers" (JObj value) fields)).
Proof. unfold Json.assignMember. now rewrite setsPrototype_mcpServers. Qed.

Lemma addMcpServers_on_object configPath servers (w : World) fields :
  CursorService.readMcpConfigFile configPath w = (Returned (JObj fields), w) ->
  match CursorService.addEach servers
          (CursorService.orEmpty (Json.assocGet "mcpServers" fields)) with
  | Returned mcpServers =>
      CursorService.addMcpServers configPath servers w
      = CursorService.writeMcpConfigFile configPath
          (JObj (Json.assocSet "mcpServers" mcpServers fields)) w
  | Threw _ => CursorService.addMcpServers configPath servers w = (Returned false, w)
  end.
Proof.
  intros Hread.
  cbv [CursorService.addMcpServers tryCatch bind CursorService.lift ret].
  rewrite Hread. cbn [Json.getOwn]. cbv beta iota.
  destruct (Json.truthyOpt (Json.assocGet "mcpServers" fields)); cbv beta iota.
  2: rewrite assignMember_mcpServers; cbv beta iota.
  all: cbn [CursorService.withMcpServers].
  all: destruct (CursorService.addEach servers
                   (CursorService.orEmpty (Json.assocGet "mcpServers" fields)))
         as [m|e]; cbv beta iota; [|reflexivity].
  all: destruct (writeMcpConfigFile_cases configPath
                   (JObj (Json.assocSet "mcpServers" m fields)) w) as [[Hw|Hw] _];
       rewrite Hw; reflexivity.
Qed.

Lemma orEmpty_truthy v : Json.truthy (CursorService.orEmpty v) = true.
Proof.
  destruct v as [x|]; simpl; [|reflexivity].
  destruct (Json.truthy x) eqn:E; [exact E|reflexivity].
Qed.

Lemma orEmpty_map fields :
  mcpServersIsMap fields ->
  CursorService.orEmpty (Json.assocGet "mcpServers" fields) = JObj (priorEntries fields).
Proof.
  unfold mcpServersIsMap, priorEntries, CursorService.orEmpty.
  destruct (Json.assocGet "mcpServers" fields) as [v|]; [|reflexivity].
  destruct v; simpl; intros Hv; try reflexivity; try discriminate; now rewrite Hv.
Qed.

Lemma getMcpServers_after_read configPath (w : World) fields :
  CursorService.readMcpConfigFile configPath w = (Returned (JObj fields), w) ->
  CursorService.getMcpServers configPath w
  = (Returned (CursorService.orEmpty (Json.assocGet "mcpServers" fields)), w).
Proof.
  intros Hread.
  cbv [CursorService.getMcpServers tryCatch bind CursorService.lift ret].
  rewrite Hread. reflexivity.
Qed.

(** [addMcpServers] on a file that holds a JSON object and can be read. *)
Lemma addMcpServers_outcome configPath servers (w : World) fields :
  configFiles w !! configPath = Some (Doc (JObj fields)) ->
  fault (oracle w) KExists (ConfigFile configPath) = None ->
  fault (oracle w) KRead (ConfigFile configPath) = None ->
  exists ok w',
    CursorService.addMcpServers configPath servers w = (Returned ok, w') /\
    stateFile w' = stateFile w /\
    (forall other, other <> configPath ->
       configFiles w' !! other = configFiles w !! other) /\
    (ok = false -> w' = w) /\
    (ok = true ->
     exists fields' mcpServers,
       w' = written configPath (JObj fields') w /\
       configFiles w' !! configPath = Some (Doc (JObj fields')) /\
       (forall k, k <> "mcpServers" -> Json.assocGet k fields' = Json.assocGet k fields) /\
       Json.assocGet "mcpServers" fields' = Some mcpServers /\
       CursorService.readMcpConfigFile configPath w' = (Returned (JObj fields'), w') /\
       CursorService.getMcpServers configPath w' = (Returned mcpServers, w') /\
       (mcpServersIsMap fields ->
        mcpServers = JObj (assigned servers (priorEntries fields)))) /\
    (fault (oracle w) KMkdir (ConfigDir configPath) <> Some OtherError ->
     fault (oracle w) KWrite (ConfigFile configPath) = None ->
     mcpServersIsMap fields ->
     ok = true).
Proof.
  intros Hfile F1 F2.
  pose proof (readMcpConfigFile_doc configPath w _ Hfile F1 F2) as Hread.
  pose proof (addMcpServers_on_object configPath servers w fields Hread) as Hadd.
  destruct (CursorService.addEach servers
              (CursorService.orEmpty (Json.assocGet "mcpServers" fields)))
    as [m|e] eqn:Hloop.
  - destruct (writeMcpConfigFile_cases configPath
                (JObj (Json.assocSet "mcpServers" m fields)) w) as [[Hw|Hw] Hgo].
    + exists true, (written configPath (JObj (Json.assocSet "mcpServers" m fields)) w).
      split; [congruence|]. split; [reflexivity|].
      split; [intros other Hne; unfold written; simpl; now rewrite lookup_insert_ne|].
      split; [discriminate|]. split; [|reflexivity]. intros _.
      set (fields' := Json.assocSet "mcpServers" m fields).
      set (w' := written configPath (JObj fields') w).
      assert (Hfile' : configFiles w' !! configPath = Some (Doc (JObj fields')))
        by (unfold w', written; simpl; apply lookup_insert_eq).
      assert (Hread' : CursorService.readMcpConfigFile configPath w'
                       = (Returned (JObj fields'), w'))
        by (apply readMcpConfigFile_doc; assumption).
      exists fields', m. split; [reflexivity|]. split; [exact Hfile'|].
      split; [intros k Hk; apply assocGet_assocSet_ne; congruence|].
      split; [apply assocGet_assocSet_eq|]. split; [exact Hread'|].
      split.
      * rewrite (getMcpServers_after_read _ _ _ Hread'). unfold fields'.
        rewrite assocGet_assocSet_eq. simpl.
        rewrite (addEach_truthy _ _ _ (orEmpty_truthy _) Hloop). reflexivity.
      * intros Hmap. rewrite (orEmpty_map _ Hmap) in Hloop.
        destruct (addEach_object servers (priorEntries fields)) as (Hrun & _).
        congruence.
    + exists false, w. split; [congruence|]. split; [reflexivity|].
      split; [reflexivity|]. split; [reflexivity|]. split; [discriminate|].
      intros G1 G2 _. rewrite (Hgo G1 G2) in Hw. discriminate.
  - exists false, w. split; [exact Hadd|]. split; [reflexivity|].
    split; [reflexivity|]. split; [reflexivity|]. split; [discriminate|].
    intros _ _ Hmap. rewrite (orEmpty_map _ Hmap) in Hloop.
    destruct (addEach_object servers (priorEntries fields)) as (Hrun & _).
    congruence.
Qed.

Lemma readMcpConfigFile_value configPath (w : World) :
  CursorService.readMcpConfigFile configPath w = (Returned (configAsRead configPath w), w).
Proof.
  cbv [CursorService.readMcpConfigFile CursorService.readConfigText configAsRead
       CursorService.parseConfig tryCatch bind ret throw io fsExists].
  destruct (fault (oracle w) KExists (ConfigFile configPath)); [reflexivity|].
  destruct (configFiles w !! configPath) as [[|d]|] eqn:E; simpl.
  all: try (rewrite bool_decide_eq_true_2 by eauto; simpl).
  all: try (rewrite bool_decide_eq_false_2 by (intros [? ?]; discriminate); simpl).
  all: destruct (fault (oracle w) KRead (ConfigFile configPath)); try rewrite E; reflexivity.
Qed.

Lemma addMcpServers_cases configPath servers (w : World) :
  CursorService.addMcpServers configPath servers w = (Returned false, w) \/
  exists mcpServers,
    CursorService.addMcpServers configPath servers w
    = (Returned true,
       written configPath
         (CursorService.withMcpServers (configAsRead configPath w) mcpServers) w).
Proof.
  cbv [CursorService.addMcpServers tryCatch bind CursorService.lift ret].
  rewrite readMcpConfigFile_value.
  destruct (Json.getOwn (configAsRead configPath w) "mcpServers") as [existing|];
    [|left; reflexivity].
  assert (Hloop : forall w0 : World,
    (let (o, w') :=
       match CursorService.addEach servers (CursorService.orEmpty existing) with
       | Returned a =>
           CursorService.writeMcpConfigFile configPath
             (CursorService.withMcpServers (configAsRead configPath w) a) w0
       | Threw e => (Threw e, w0)
       end in
     match o with
     | Returned a => (Returned a, w')
     | Threw _ => (Returned false, w')
     end) = (Returned false, w0) \/
    exists m, (let (o, w') :=
       match CursorService.addEach servers (CursorService.orEmpty existing) with
       | Returned a =>
           CursorService.writeMcpConfigFile configPath
             (CursorService.withMcpServers (configAsRead configPath w) a) w0
       | Threw e => (Threw e, w0)
       end in
     match o with
     | Returned a => (Returned a, w')
     | Threw _ => (Returned false, w')
     end) = (Returned true,
             written configPath (CursorService.withMcpServers (configAsRead configPath w) m) w0)).
  { intros w0.
    destruct (CursorService.addEach servers (CursorService.orEmpty existing)) as [m|];
      [|left; reflexivity].
    destruct (writeMcpConfigFile_cases configPath
                (CursorService.withMcpServers (configAsRead configPath w) m) w0)
      as [[Hw|Hw] _]; rewrite Hw; [right; exists m; reflexivity|left; reflexivity]. }
  destruct (Json.truthyOpt existing).
  - apply Hloop.
  - destruct (Json.assignMember (configAsRead configPath w) "mcpServers" []);
      [apply Hloop|left; reflexivity].
Qed.

(** C5, as the code has it.  On an IDE file that can be read and holds a
    JSON object, [addMcpServers] returns a boolean and touches nothing but
    that file; when it returns false the world is as before.  When it
    returns true the file holds an object in which every top-level key other
    than [mcpServers] has the value it had; reading the file back yields
    that object, and [getMcpServers] yields the [mcpServers] value that was
    written.  When the old [mcpServers] was a map (or missing or falsy), the
    call returns true whenever the directory can be made and the file
    written, and the new map is the old one overwritten by the given
    entries: each name has the last entry given for it, any other name what
    it had.  (On an engine that keeps the accessor [__proto__], an entry of
    that name creates no property unless the map owns one.) *)
Theorem addMcpServers_touches_only_mcpServers configPath servers (w : World) fields :
  configFiles w !! configPath = Some (Doc (JObj fields)) ->
  fault (oracle w) KExists (ConfigFile configPath) = None ->
  fault (oracle w) KRead (ConfigFile configPath) = None ->
  exists ok w',
    CursorService.addMcpServers configPath servers w = (Returned ok, w') /\
    stateFile w' = stateFile w /\ daemon w' = daemon w /\ issued w' = issued w /\
    (forall other, other <> configPath ->
       configFiles w' !! other = configFiles w !! other) /\
    (ok = false -> w' = w) /\
    (ok = true ->
     exists fields' mcpServers,
       configFiles w' !! configPath = Some (Doc (JObj fields')) /\
       (forall k, k <> "mcpServers" -> Json.assocGet k fields' = Json.assocGet k fields) /\
       Json.assocGet "mcpServers" fields' = Some mcpServers /\
       CursorService.readMcpConfigFile configPath w' = (Returned (JObj fields'), w') /\
       CursorService.getMcpServers configPath w' = (Returned mcpServers, w') /\
       (mcpServersIsMap fields ->
        exists entries,
          mcpServers = JObj entries /\
          forall name,
            Json.assocGet name entries =
              if Json.setsPrototype (JObj (priorEntries fields)) name
              then Json.assocGet name (priorEntries fields)
              else match lastEntry name servers with
                   | Some e => Some (JObj (Json.entryFields e))
                   | None => Json.assocGet name (priorEntries fields)
                   end)) /\
    (mcpServersIsMap fields ->
     fault (oracle w) KMkdir (ConfigDir configPath) <> Some OtherError ->
     fault (oracle w) KWrite (ConfigFile configPath) = None ->
     ok = true).
Proof.
  intros Hfile F1 F2.
  destruct (addMcpServers_outcome configPath servers w fields Hfile F1 F2)
    as (ok & w' & Hrun & Hstate & Hothers & Hfalse & Htrue & Hgo).
  exists ok, w'. split; [exact Hrun|]. split; [exact Hstate|].
  assert (Hdocker : daemon w' = daemon w /\ issued w' = issued w).
  { destruct ok.
    - destruct (Htrue eq_refl) as (fields' & m & -> & _). split; reflexivity.
    - rewrite (Hfalse eq_refl). split; reflexivity. }
  destruct Hdocker as (Hd & Hi).
  split; [exact Hd|]. split; [exact Hi|]. split; [exact Hothers|].
  split; [exact Hfalse|]. split.
  - intros Hok.
    destruct (Htrue Hok) as (fields' & m & _ & Hf' & Hframe & Hm & Hread & Hget & Hmap).
    exists fields', m. repeat (split; [assumption|]).
    intros Hismap. rewrite (Hmap Hismap). eexists. split; [reflexivity|].
    intros name. apply (addEach_object servers (priorEntries fields)).
  - intros Hismap G1 G2. now apply Hgo.
Qed.

Lemma setPortsAsked_same (w : World) : setPortsAsked (portsAsked w) w = w.
Proof. now destruct w. Qed.

Lemma onlyDir_onlyAsked (w w1 : World) : onlyDir w w1 -> onlyAsked w w1.
Proof.
  intros Hdir. exists (portsAsked w). split; [now left|].
  now rewrite setPortsAsked_same.
Qed.

Lemma onlyAsked_frame (w w1 : World) :
  onlyAsked w w1 ->
  oracle w1 = oracle w /\ stateFile w1 = stateFile w /\
  configFiles w1 = configFiles w /\ daemon w1 = daemon w /\ issued w1 = issued w.
Proof. intros (n & _ & [-> | ->]); repeat split; reflexivity. Qed.

Lemma onlyAsked_same (w w1 : World) :
  onlyAsked w w1 -> portsAsked w1 = portsAsked w -> onlyDir w w1.
Proof.
  intros (n & _ & Hdir) Hsame.
  assert (n = portsAsked w) as -> by (destruct Hdir as [-> | ->]; exact Hsame).
  now rewrite setPortsAsked_same in Hdir.
Qed.

(** [transformServerConfigForCursor] returns an entry of the server's
    transport; it may create [data/] and ask for a free port. *)
Lemma transformServerConfigForCursor_entry server (w : World) :
  exists entry w1,
    Orchestrator.transformServerConfigForCursor server w = (Returned entry, w1) /\
    onlyAsked w w1 /\
    match McpServerConfig.type server with
    | http => exists url, entry = CursorHttpMcpEntry url /\ Js.startsWith url "http://" = true
    | stdio => entry = Orchestrator.stdioEntry server
    end.
Proof.
  destruct (loadState_returns w) as (state & w1 & Hload & Hw1 & _ & _).
  assert (Hdrawn : onlyAsked w (setPortsAsked (S (portsAsked w1)) w1)).
  { exists (S (portsAsked w)). split; [now right|].
    destruct Hw1 as [-> | ->]; [now left|now right]. }
  apply onlyDir_onlyAsked in Hw1.
  cbv [Orchestrator.transformServerConfigForCursor Orchestrator.entryFromState
       Orchestrator.getPortFromArgs Orchestrator.getAvailablePort State.asStateFile
       tryCatch bind ret throw ask].
  rewrite Hload. destruct state as [state|]; cbv beta iota.
  1: destruct (State.getServerState state (McpServerConfig.name server)) as [st|];
       [destruct (Js.truthyStr (McpState.endpoint st))|].
  all: destruct (McpServerConfig.type server).
  all: repeat match goal with
         | |- context [if Js.startsWith ?a ?b then _ else _] =>
             let E := fresh "Hprefix" in destruct (Js.startsWith a b) eqn:E
         | |- context [if ?b then _ else _] => destruct b
         | |- context [match State.scanPort ?a with _ => _ end] => destruct (State.scanPort a)
         | |- context [match availablePort ?o ?n with _ => _ end] =>
             destruct (availablePort o n)
         end.
  all: do 2 eexists; split; [reflexivity|split; [first [exact Hw1|exact Hdrawn]|]].
  all: try reflexivity.
  all: eexists; split; [reflexivity|]; try assumption; reflexivity.
Qed.

Lemma confirm_consent question (w : World) :
  (promptSelect (oracle w) question = Some "Yes" \/
   promptSelect (oracle w) question = None) ->
  Presentation.confirm question w = (Returned true, w).
Proof.
  cbv [Presentation.confirm tryCatch bind ret throw ask].
  intros [-> | ->]; reflexivity.
Qed.
End CursorFacts.

Lemma eqb_sound : forall a b, Json.eqb a b = true -> a = b.
Proof.
  fix IH 1. intros a b. destruct a as [| x | x | x | xs | xs];
    destruct b as [| y | y | y | ys | ys]; simpl; try discriminate.
  - reflexivity.
  - intros E. apply Bool.eqb_prop in E. congruence.
  - intros E. apply String.eqb_eq in E. congruence.
  - intros E. apply String.eqb_eq in E. congruence.
  - intros E. f_equal. revert ys E.
    induction xs as [|x xs IHxs]; intros [|y ys] E; try discriminate; [reflexivity|].
    apply andb_prop in E as [E1 E2]. f_equal; [apply IH; exact E1|apply IHxs; exact E2].
  - intros E. f_equal. revert ys E.
    induction xs as [|[k x] xs IHxs]; intros [|[k' y] ys] E; try discriminate; [reflexivity|].
    apply andb_prop in E as [E12 E3]. apply andb_prop in E12 as [E1 E2].
    apply String.eqb_eq in E1. f_equal; [f_equal; [exact E1|apply IH; exact E2]|apply IHxs; exact E3].
Qed.

Example addMcpServers_merges :
  let '(ok, w') :=
    CursorService.addMcpServers Toy.configPath
      [("svc", CursorHttpMcpEntry "http://localhost:9001/sse")] Toy.desk in
  ok = Returned true /\
  configFiles w' !! Toy.configPath
  = Some (Doc (JObj [("theme", JStr "dark");
                     ("mcpServers",
                      JObj [("other", JObj [("url", JStr "http://localhost:7000/sse")]);
                            ("svc", JObj [("url", JStr "http://localhost:9001/sse")])])])).
Proof. vm_compute. split; reflexivity. Qed.

Example addMcpServers_on_unparsable_file :
  let w := Toy.world None [(Toy.configPath, Garbled)] [] in
  let '(ok, w') :=
    CursorService.addMcpServers Toy.configPath
      [("svc", CursorHttpMcpEntry "http://localhost:9001/sse")] w in
  ok = Returned true /\
  configFiles w' !! Toy.configPath
  = Some (Doc (JObj [("mcpServers",
                      JObj [("svc", JObj [("url", JStr "http://localhost:9001/sse")])])])).
Proof. vm_compute. split; reflexivity. Qed.

Example addMcpServers_on_text_member :
  let fields := [("theme", JStr "dark"); ("mcpServers", JStr "none")] in
  let w := Toy.world None [(Toy.configPath, Doc (JObj fields))] [] in
  CursorService.addMcpServers Toy.configPath
    [("svc", CursorHttpMcpEntry "http://localhost:9001/sse")] w
  = (Returned false, w).
Proof. vm_compute. reflexivity. Qed.

(** C3, at an input where the code departs from it.  On the desk the
    computed entry for [svc] is not in the IDE file and the user answers
    yes: [updateCursorConfigForServer] writes the entry and returns true,
    and the state file is as before, [manageCursorConfig] of [svc] still
    unset.  Nothing in the orchestrator calls
    [updateServerCursorConfigPreference], which would record it. *)
Theorem updateCursorConfigForServer_leaves_consent_unrecorded :
  let server := Toy.httpServer "svc" [] in
  let '(result, w') := Orchestrator.updateCursorConfigForServer server false Toy.desk in
  Presentation.confirm (Orchestrator.question server false Toy.configPath) Toy.desk
  = (Returned true, Toy.desk) /\
  result = Returned true /\
  configFiles w' !! Toy.configPath
  = Some (Doc (JObj [("theme", JStr "dark");
                     ("mcpServers",
                      JObj [("other", JObj [("url", JStr "http://localhost:7000/sse")]);
                            ("svc", JObj [("url", JStr "http://localhost:9001/sse")])])])) /\
  stateFile w' = Some (Doc (Shaped Toy.svcState)) /\
  McpState.manageCursorConfig <$> State.getServerState Toy.svcState "svc" = Some None /\
  McpState.manageCursorConfig
    <$> State.getServerState
          (State.updateServerCursorConfigPreference (H := Toy.toyHost)
             Toy.svcState "svc" true) "svc"
  = Some (Some true).
Proof. vm_compute. repeat split; reflexivity. Qed.

(** C5 as stated fails.  The IDE file exists and holds an object with the
    key [theme]; reading it throws.  [readMcpConfigFile] catches the error
    and answers the empty object, and the write, which goes through,
    replaces the document: [theme] is gone. *)
Lemma addMcpServers_after_failed_read :
  let w := Toy.worldWith Toy.unreadable None
             [(Toy.configPath, Doc (JObj Toy.ideFields))] [] in
  exists w' after,
    configFiles w !! Toy.configPath = Some (Doc (JObj Toy.ideFields)) /\
    CursorService.readMcpConfigFile Toy.configPath w = (Returned (JObj []), w) /\
    CursorService.addMcpServers Toy.configPath
      [("svc", CursorHttpMcpEntry "http://localhost:9001/sse")] w
    = (Returned true, w') /\
    configFiles w' !! Toy.configPath = Some (Doc (JObj after)) /\
    after = [("mcpServers",
              JObj [("svc", JObj [("url", JStr "http://localhost:9001/sse")])])] /\
    Json.assocGet "theme" Toy.ideFields = Some (JStr "dark") /\
    Json.assocGet "theme" after = None /\
    ~ (forall k, k <> "mcpServers" ->
         Json.assocGet k after = Json.assocGet k Toy.ideFields).
Proof.
  do 2 eexists. split; [reflexivity|]. split; [reflexivity|].
  split; [vm_compute; reflexivity|]. split; [reflexivity|]. split; [reflexivity|].
  split; [reflexivity|]. split; [reflexivity|].
  intros Hframe. specialize (Hframe "theme" ltac:(discriminate)). discriminate.
Qed.

Lemma addMcpServers_touches_only_mcpServers_witness :
  let servers := [("svc", CursorHttpMcpEntry "http://localhost:9001/sse")] in
  exists ok w',
    CursorService.addMcpServers (H := Toy.toyHost) Toy.configPath servers Toy.desk
    = (Returned ok, w') /\
    stateFile w' = stateFile Toy.desk /\ daemon w' = daemon Toy.desk /\
    issued w' = issued Toy.desk /\
    (forall other, other <> Toy.configPath ->
       configFiles w' !! other = configFiles Toy.desk !! other) /\
    (ok = false -> w' = Toy.desk) /\
    (ok = true ->
     exists fields' mcpServers,
       configFiles w' !! Toy.configPath = Some (Doc (JObj fields')) /\
       (forall k, k <> "mcpServers" ->
          Json.assocGet k fields' = Json.assocGet k Toy.ideFields) /\
       Json.assocGet "mcpServers" fields' = Some mcpServers /\
       CursorService.readMcpConfigFile Toy.configPath w' = (Returned (JObj fields'), w') /\
       CursorService.getMcpServers Toy.configPath w' = (Returned mcpServers, w') /\
       (mcpServersIsMap Toy.ideFields ->
        exists entries,
          mcpServers = JObj entries /\
          forall name,
            Json.assocGet name entries =
              if Json.setsPrototype (H := Toy.toyHost)
                   (JObj (priorEntries Toy.ideFields)) name
              then Json.assocGet name (priorEntries Toy.ideFields)
              else match lastEntry name servers with
                   | Some e => Some (JObj (Json.entryFields e))
                   | None => Json.assocGet name (priorEntries Toy.ideFields)
                   end)) /\
    (mcpServersIsMap Toy.ideFields ->
     fault (oracle Toy.desk) KMkdir (ConfigDir Toy.configPath) <> Some OtherError ->
     fault (oracle Toy.desk) KWrite (ConfigFile Toy.configPath) = None ->
     ok = true).
Proof.
  apply (addMcpServers_touches_only_mcpServers (H := Toy.toyHost) Toy.configPath
           [("svc", CursorHttpMcpEntry "http://localhost:9001/sse")] Toy.desk
           Toy.ideFields);
    reflexivity.
Defined.

(** * Further properties *)

(** ** The state store *)

Section StoreLaws.
Context `{Host}.

Lemma addOrUpdate_entries (serverState : McpState.t) (mcps : list McpState.t) :
  let named n := fun mcp => String.eqb (McpState.name mcp) n in
  let newMcps :=
    match State.findIndex (named (McpState.name serverState)) mcps with
    | Some i => <[i := serverState]> mcps
    | None => mcps ++ [serverState]
    end in
  List.find (named (McpState.name serverState)) newMcps = Some serverState /\
  (forall other, other <> McpState.name serverState ->
     List.find (named other) newMcps = List.find (named other) mcps) /\
  length newMcps =
    (if existsb (named (McpState.name serverState)) mcps
     then length mcps else S (length mcps)).
Proof.
  intros named. induction mcps as [|mcp mcps IH]; simpl.
  - unfold named at 1. rewrite String.eqb_refl. split; [reflexivity|].
    split; [|reflexivity]. intros other Hne. unfold named.
    destruct (String.eqb_spec (McpState.name serverState) other); [congruence|reflexivity].
  - destruct (named (McpState.name serverState) mcp) eqn:Hhit; simpl.
    + unfold named at 1. rewrite String.eqb_refl. split; [reflexivity|].
      split; [|reflexivity]. intros other Hne. unfold named in *.
      apply String.eqb_eq in Hhit.
      destruct (String.eqb_spec (McpState.name serverState) other); [congruence|].
      destruct (String.eqb_spec (McpState.name mcp) other); [congruence|reflexivity].
    + destruct IH as (IH1 & IH2 & IH3).
      destruct (State.findIndex (named (McpState.name serverState)) mcps) as [i|];
        simpl in *; rewrite Hhit.
      * split; [exact IH1|]. split; [|rewrite IH3; destruct (existsb _ mcps); reflexivity].
        intros other Hne. rewrite (IH2 other Hne). reflexivity.
      * split; [exact IH1|]. split; [|rewrite IH3; destruct (existsb _ mcps); reflexivity].
        intros other Hne. rewrite (IH2 other Hne). reflexivity.
Qed.

(** X1.  [addOrUpdateServerState] stores the given entry under its name:
    looking that name up afterwards yields exactly the entry, every other
    name is looked up as before, and the list grows by one entry only when
    the name was not there. *)
Theorem addOrUpdateServerState_lookup now state serverState :
  let out := State.addOrUpdateServerState now state serverState in
  State.getServerState out (McpState.name serverState) = Some serverState /\
  (forall other, other <> McpState.name serverState ->
     State.getServerState out other = State.getServerState state other) /\
  length (McpStateFile.mcps out) =
    (if State.hasServer state (McpState.name serverState)
     then length (McpStateFile.mcps state)
     else S (length (McpStateFile.mcps state))).
Proof.
  exact (addOrUpdate_entries serverState (McpStateFile.mcps state)).
Qed.
End StoreLaws.

Lemma find_app {A} (p : A -> bool) (l l' : list A) :
  List.find p (l ++ l') =
    match List.find p l with
    | Some x => Some x
    | None => List.find p l'
    end.
Proof. induction l as [|a l IH]; simpl; [reflexivity|]. destruct (p a); auto. Qed.

Section StoreLaws2.
Context `{Host}.

Lemma hasServer_getServerState state serverName :
  State.hasServer state serverName =
    match State.getServerState state serverName with Some _ => true | None => false end.
Proof.
  unfold State.hasServer, State.getServerState.
  induction (McpStateFile.mcps state) as [|mcp mcps IH]; simpl; [reflexivity|].
  destruct (String.eqb (McpState.name mcp) serverName); simpl; [reflexivity|exact IH].
Qed.

Lemma find_map_named (f : McpState.t -> McpState.t) (n serverName : string)
    (mcps : list McpState.t) :
  (forall mcp, McpState.name (f mcp) = McpState.name mcp) ->
  List.find (fun mcp => String.eqb (McpState.name mcp) serverName)
            (map (fun mcp => if String.eqb (McpState.name mcp) n then f mcp else mcp) mcps)
  = (fun mcp => if String.eqb (McpState.name mcp) n then f mcp else mcp)
      <$> List.find (fun mcp => String.eqb (McpState.name mcp) serverName) mcps.
Proof.
  intros Hname. induction mcps as [|mcp mcps IH]; simpl; [reflexivity|].
  assert (Hsame : McpState.name (if String.eqb (McpState.name mcp) n then f mcp else mcp)
                  = McpState.name mcp)
    by (destruct (String.eqb (McpState.name mcp) n); [apply Hname|reflexivity]).
  rewrite Hsame. destruct (String.eqb (McpState.name mcp) serverName); [reflexivity|exact IH].
Qed.

(** X2.  [updateServerCursorConfigPreference] records the preference: the
    entry found afterwards under the server's name carries it.  When the
    server had an entry, that entry's endpoint, [envFile] and [online] flag
    are kept; when it had none, a minimal entry is created with the empty
    endpoint and [online] false.  Every other name is looked up as before. *)
Theorem updateServerCursorConfigPreference_records state serverName manageCursorConfig :
  let out := State.updateServerCursorConfigPreference state serverName manageCursorConfig in
  (exists entry,
     State.getServerState out serverName = Some entry /\
     McpState.name entry = serverName /\
     McpState.manageCursorConfig entry = Some manageCursorConfig /\
     match State.getServerState state serverName with
     | Some prior =>
         McpState.endpoint entry = McpState.endpoint prior /\
         McpState.envFile entry = McpState.envFile prior /\
         McpState.online entry = McpState.online prior
     | None =>
         McpState.endpoint entry = "" /\
         McpState.envFile entry = Some (Config.getEnvFilePath serverName) /\
         McpState.online entry = false /\
         length (McpStateFile.mcps out) = S (length (McpStateFile.mcps state))
     end) /\
  (forall other, other <> serverName ->
     State.getServerState out other = State.getServerState state other) /\
  McpStateFile.updatedOn out = McpStateFile.updatedOn state.
Proof.
  intros out. subst out. unfold State.updateServerCursorConfigPreference.
  rewrite hasServer_getServerState.
  destruct (State.getServerState state serverName) as [prior|] eqn:Hprior.
  -     set (f := fun mcp => McpState.mk (McpState.name mcp) (McpState.endpoint mcp)
                           (McpState.envFile mcp) (McpState.online mcp)
                           (Some manageCursorConfig)).
    assert (Hf : forall mcp, McpState.name (f mcp) = McpState.name mcp) by reflexivity.
    split; [|split; [|reflexivity]].
    + unfold State.getServerState at 1. simpl.
      rewrite (find_map_named f serverName serverName _ Hf).
      unfold State.getServerState in Hprior. rewrite Hprior. simpl.
      pose proof (find_some _ _ Hprior) as [_ Hn]. simpl in Hn. rewrite Hn.
      eexists. split; [reflexivity|]. simpl.
      apply String.eqb_eq in Hn. repeat split; auto.
    + intros other Hne. unfold State.getServerState. simpl.
      rewrite (find_map_named f serverName other _ Hf).
      destruct (List.find _ (McpStateFile.mcps state)) as [mcp|] eqn:Hfound; [|reflexivity].
      simpl. pose proof (find_some _ _ Hfound) as [_ Hn]. simpl in Hn.
      apply String.eqb_eq in Hn.
      destruct (String.eqb_spec (McpState.name mcp) serverName); [congruence|reflexivity].
  - unfold State.getServerState in *. simpl.
    split; [|split; [|reflexivity]].
    + eexists. split.
      * rewrite find_app, Hprior. simpl. rewrite String.eqb_refl. reflexivity.
      * simpl. repeat split; try reflexivity. rewrite length_app. simpl. lia.
    + intros other Hne. rewrite find_app. simpl.
      destruct (String.eqb_spec serverName other); [congruence|].
      destruct (List.find (fun mcp => String.eqb (McpState.name mcp) other)
                 (McpStateFile.mcps state)); reflexivity.
Qed.

End StoreLaws2.

Section Reconciliation.
Context `{Host}.

Lemma defaultEndpoint_nonempty server : Js.truthyStr (State.defaultEndpoint server) = true.
Proof. unfold State.defaultEndpoint. destruct (McpServerConfig.type server); reflexivity. Qed.

Lemma syncEntry_endpoint_nonempty state server :
  Js.truthyStr (McpState.endpoint (State.syncEntry state server)) = true.
Proof.
  unfold State.syncEntry. simpl.
  destruct (State.getServerState state (McpServerConfig.name server)) as [prior|].
  - destruct (Js.truthyStr (McpState.endpoint prior)) eqn:E;
      [exact E|apply defaultEndpoint_nonempty].
  - apply defaultEndpoint_nonempty.
Qed.

(** X3.  After reconciliation no entry has an empty endpoint, whatever the
    prior state held: an empty or missing prior endpoint is replaced by the
    default one, and the default is never empty. *)
Theorem syncStateWithConfig_endpoints_nonempty now state servers entry :
  In entry (McpStateFile.mcps (State.syncStateWithConfig now state servers)) ->
  McpState.endpoint entry <> "".
Proof.
  rewrite sync_mcps. intros Hin. apply in_map_iff in Hin as (server & <- & _).
  pose proof (syncEntry_endpoint_nonempty state server) as Hne.
  intros E. rewrite E in Hne. discriminate.
Qed.



Lemma updateServerStatus_getServerState_at state serverName isOnline endpoint other :
  State.getServerState (State.updateServerStatus state serverName isOnline endpoint) other
  = (fun mcp =>
       if String.eqb (McpState.name mcp) serverName
       then McpState.mk (McpState.name mcp)
              (match endpoint with
               | Some e => if Js.truthyStr e then e else McpState.endpoint mcp
               | None => McpState.endpoint mcp
               end)
              (McpState.envFile mcp) isOnline (McpState.manageCursorConfig mcp)
       else mcp) <$> State.getServerState state other.
Proof.
  unfold State.getServerState. simpl.
  exact (find_map_named
           (fun mcp => McpState.mk (McpState.name mcp)
              (match endpoint with
               | Some e => if Js.truthyStr e then e else McpState.endpoint mcp
               | None => McpState.endpoint mcp
               end)
              (McpState.envFile mcp) isOnline (McpState.manageCursorConfig mcp))
           serverName other (McpStateFile.mcps state) (fun _ => eq_refl)).
Qed.

(** X5.  What [getServerState] finds after [updateServerStatus]: under the
    updated name, the entry that was found before with the new [online] flag
    and, when a non-empty endpoint is given, the new endpoint; under any
    other name, the entry that was found before.  A name that was not found
    is still not found. *)
Theorem updateServerStatus_then_getServerState state serverName isOnline endpoint :
  let out := State.updateServerStatus state serverName isOnline endpoint in
  (forall other, other <> serverName ->
     State.getServerState out other = State.getServerState state other) /\
  match State.getServerState state serverName with
  | Some prior =>
      State.getServerState out serverName
      = Some (McpState.mk serverName
                (match endpoint with
                 | Some e => if String.eqb e "" then McpState.endpoint prior else e
                 | None => McpState.endpoint prior
                 end)
                (McpState.envFile prior) isOnline (McpState.manageCursorConfig prior))
  | None => State.getServerState out serverName = None
  end.
Proof.
  intros out. subst out. split.
  - intros other Hne. rewrite updateServerStatus_getServerState_at.
    destruct (State.getServerState state other) as [mcp|] eqn:Hfound; [|reflexivity].
    simpl. pose proof (find_some _ _ Hfound) as [_ Hn]. simpl in Hn.
    apply String.eqb_eq in Hn.
    destruct (String.eqb_spec (McpState.name mcp) serverName); [congruence|reflexivity].
  - rewrite updateServerStatus_getServerState_at.
    destruct (State.getServerState state serverName) as [prior|] eqn:Hfound; [|reflexivity].
    simpl. pose proof (find_some _ _ Hfound) as [_ Hn]. simpl in Hn. rewrite Hn.
    apply String.eqb_eq in Hn. rewrite Hn.
    destruct endpoint as [[|c e]|]; reflexivity.
Qed.

End Reconciliation.

Lemma syncStateWithConfig_endpoints_nonempty_witness :
  let prior := McpStateFile.mk [McpState.mk "svc" "" None true None] None in
  McpState.endpoint (State.syncEntry (H := Toy.toyHost) prior (Toy.httpServer "svc" [])) <> "".
Proof.
  exact (syncStateWithConfig_endpoints_nonempty (H := Toy.toyHost) "2025-01-01T00:00:00.000Z"
           (McpStateFile.mk [McpState.mk "svc" "" None true None] None)
           [Toy.httpServer "svc" []]
           (State.syncEntry (McpStateFile.mk [McpState.mk "svc" "" None true None] None)
              (Toy.httpServer "svc" []))
           (or_introl eq_refl)).
Defined.


Section Persistence.
Context `{Host}.

(** X6.  Saving then loading round-trips the entries: when the file-system
    calls on [data/] and [data/state.json] go through, [loadState] after
    [saveState state] returns the entries of [state], with [updatedOn] set
    to the time of the save. *)
Theorem saveState_then_loadState state (w : World) :
  fault (oracle w) KExists StateDir = None ->
  fault (oracle w) KMkdir StateDir = None ->
  fault (oracle w) KWrite StateFilePath = None ->
  fault (oracle w) KExists StateFilePath = None ->
  fault (oracle w) KRead StateFilePath = None ->
  exists w1 w2,
    State.saveState state w = (Returned tt, w1) /\
    State.loadState w1
    = (Returned (Shaped (McpStateFile.mk (McpStateFile.mcps state)
                           (Some (now (oracle w))))), w2) /\
    stateFile w2 = stateFile w1.
Proof.
  intros F1 F2 F3 F4 F5.
  unfoldM. destruct w as [o dir sf cf d iss asked]; simpl in *.
  rewrite F1. destruct dir; simpl.
  all: repeat (rewrite ?F1, ?F2, ?F3, ?F4, ?F5; simpl).
  all: do 2 eexists; split; [reflexivity|]; simpl.
  all: repeat (rewrite ?F1, ?F2, ?F3, ?F4, ?F5; simpl).
  all: split; reflexivity.
Qed.

End Persistence.

Lemma saveState_then_loadState_witness :
  exists w1 w2,
    State.saveState (H := Toy.toyHost) Toy.svcState (Toy.world None [] []) = (Returned tt, w1) /\
    State.loadState w1
    = (Returned (Shaped (McpStateFile.mk (McpStateFile.mcps Toy.svcState)
                           (Some "2025-01-01T00:00:00.000Z"))), w2) /\
    stateFile w2 = stateFile w1.
Proof.
  exact (saveState_then_loadState (H := Toy.toyHost) Toy.svcState (Toy.world None [] [])
           eq_refl eq_refl eq_refl eq_refl eq_refl).
Defined.

(** ** The Docker adapter *)

Section DockerLaws.
Context `{Host}.

(** X7.  [stopAndRemoveContainer] never throws and touches no file.  It
    always runs the existence probe first; after it come no command, [stop]
    alone, or [stop] then [rm]: [rm] is never issued without [stop] before
    it.  It returns true only when the probe was all it ran or when both
    [stop] and [rm] were run. *)
Theorem stopAndRemoveContainer_commands containerName (w : World) :
  exists ok w' rest,
    DockerService.stopAndRemoveContainer containerName w = (Returned ok, w') /\
    stateFile w' = stateFile w /\ configFiles w' = configFiles w /\
    oracle w' = oracle w /\ stateDirExists w' = stateDirExists w /\
    issued w' = issued w ++ DockerService.checkCommand containerName :: rest /\
    (rest = [] \/ rest = [["stop"; containerName]] \/
     rest = [["stop"; containerName]; ["rm"; containerName]]) /\
    (ok = true -> rest = [] \/ rest = [["stop"; containerName]; ["rm"; containerName]]).
Proof.
  cbv [DockerService.stopAndRemoveContainer tryCatch bind runDocker ret].
  destruct (docker (DockerService.checkCommand containerName) (daemon w)) as [[out|] d0];
    simpl.
  2: { do 2 eexists. exists []. repeat split; auto; discriminate. }
  destruct (String.eqb (Js.trim (stdout out)) ""); simpl.
  { do 2 eexists. exists []. repeat split; auto. }
  destruct (docker ["stop"; containerName] d0) as [[stopped|] d1]; simpl.
  2: { do 2 eexists. exists [["stop"; containerName]].
       split; [reflexivity|]. simpl. rewrite <- app_assoc. repeat split; auto; discriminate. }
  destruct (negb (code stopped =? 0)%Z); simpl.
  { do 2 eexists. exists [["stop"; containerName]].
    split; [reflexivity|]. simpl. rewrite <- app_assoc. repeat split; auto; discriminate. }
  destruct (docker ["rm"; containerName] d1) as [[removed|] d2]; simpl.
  2: { do 2 eexists. exists [["stop"; containerName]; ["rm"; containerName]].
       split; [reflexivity|]. simpl. rewrite <- !app_assoc. repeat split; auto. }
  destruct (negb (code removed =? 0)%Z); simpl.
  all: do 2 eexists; exists [["stop"; containerName]; ["rm"; containerName]].
  all: split; [reflexivity|]; simpl; rewrite <- !app_assoc; repeat split; auto.
Qed.

Lemma fold_ports (mappings : list (Z * Z)) (acc : list string) :
  exists more,
    fold_left
      (fun acc portMapping =>
         acc ++ ["-p"; Js.numberToString (fst portMapping) +:+ ":"
                       +:+ Js.numberToString (snd portMapping)])
      mappings acc = acc ++ more.
Proof.
  revert acc. induction mappings as [|m mappings IH]; intros acc; simpl.
  - exists []. now rewrite app_nil_r.
  - destruct (IH (acc ++ ["-p"; Js.numberToString (fst m) +:+ ":"
                                +:+ Js.numberToString (snd m)])) as (more & ->).
    eexists. rewrite <- app_assoc. reflexivity.
Qed.

Lemma runContainerArgs_shape options :
  exists before after,
    DockerService.runContainerArgs options
    = "run" :: before ++ "--name" :: DockerService.containerName options :: after
        ++ DockerService.imageName options :: DockerService.args options.
Proof.
  unfold DockerService.runContainerArgs.
  set (head := match DockerService.detached options with
               | Some true => ["run"] ++ ["-d"]
               | _ => ["run"]
               end).
  assert (Hhead : exists before, head = "run" :: before)
    by (subst head; destruct (DockerService.detached options) as [[|]|]; eexists; reflexivity).
  destruct Hhead as (before & ->).
  set (named := ("run" :: before) ++ ["--name"; DockerService.containerName options]).
  assert (Hports : exists more,
            match DockerService.ports options with
            | Some mappings =>
                fold_left
                  (fun acc portMapping =>
                     acc ++ ["-p"; Js.numberToString (fst portMapping) +:+ ":"
                                   +:+ Js.numberToString (snd portMapping)])
                  mappings named
            | None => named
            end = named ++ more).
  { destruct (DockerService.ports options) as [mappings|].
    - apply fold_ports.
    - exists []. now rewrite app_nil_r. }
  destruct Hports as (more & ->).
  assert (Henv : exists more',
            match DockerService.envFile options with
            | Some f => if Js.truthyStr f then (named ++ more) ++ ["--env-file"; f]
                        else named ++ more
            | None => named ++ more
            end = named ++ more').
  { destruct (DockerService.envFile options) as [f|];
      [destruct (Js.truthyStr f)|]; eexists; rewrite <- ?app_assoc; try reflexivity.
    all: now rewrite app_nil_r. }
  destruct Henv as (more' & ->).
  exists before, more'. subst named. simpl. rewrite <- !app_assoc. reflexivity.
Qed.

(** X8.  [runContainer] never throws, touches no file and runs a single
    [docker] command.  That command is [run], then options among which
    [--name <containerName>], then the image immediately followed by the
    server's arguments in their order.  It reports success exactly when the
    command could be spawned and exited with code 0. *)
Theorem runContainer_command options (w : World) :
  exists result w' before after,
    DockerService.runContainer options w = (Returned result, w') /\
    stateFile w' = stateFile w /\ configFiles w' = configFiles w /\
    issued w' = issued w ++ [DockerService.runContainerArgs options] /\
    DockerService.runContainerArgs options
    = "run" :: before ++ "--name" :: DockerService.containerName options :: after
        ++ DockerService.imageName options :: DockerService.args options /\
    (DockerService.success result = true <->
     exists out,
       fst (docker (DockerService.runContainerArgs options) (daemon w)) = Some out /\
       code out = 0%Z).
Proof.
  destruct (runContainerArgs_shape options) as (before & after & Hshape).
  cbv [DockerService.runContainer tryCatch bind runDocker ret].
  destruct (docker (DockerService.runContainerArgs options) (daemon w)) as [[out|] d];
    simpl.
  - destruct (Z.eqb_spec (code out) 0) as [E|E]; simpl.
    + do 2 eexists. exists before, after. repeat split; auto. intros _. eauto.
    + do 2 eexists. exists before, after. repeat split; auto; try discriminate.
      intros (o & [= <-] & Hc). contradiction.
  - do 2 eexists. exists before, after. repeat split; auto; try discriminate.
    intros (o & Ho & _). discriminate.
Qed.

End DockerLaws.

(** ** IDE configuration: removal *)

Lemma assocGet_assocDel_eq {V} k (fields : list (string * V)) :
  Json.assocGet k (Json.assocDel k fields) = None.
Proof.
  induction fields as [|[k' v] rest IH]; simpl; [reflexivity|].
  destruct (String.eqb k' k) eqn:E; simpl; [exact IH|]. now rewrite E.
Qed.

Lemma assocGet_assocDel_ne {V} k k' (fields : list (string * V)) :
  k <> k' -> Json.assocGet k' (Json.assocDel k fields) = Json.assocGet k' fields.
Proof.
  intros Hne. induction fields as [|[k0 v] rest IH]; simpl; [reflexivity|].
  destruct (String.eqb_spec k0 k) as [->|Hk]; simpl.
  - destruct (String.eqb_spec k k'); [contradiction|exact IH].
  - destruct (String.eqb k0 k'); [reflexivity|exact IH].
Qed.

Section RemovalLaws.
Context `{Host}.

Lemma present_assocDel_ne a name entries :
  a <> name -> present (Json.assocDel a entries) name = present entries name.
Proof.
  intros Hne. unfold present, Json.getMember. cbn [Json.getOwn Json.inherits].
  now rewrite assocGet_assocDel_ne.
Qed.

Lemma removeEach_object serverNames : forall entries removed,
  exists entries',
    CursorService.removeEach serverNames (JObj entries) removed
    = Returned (JObj entries', removed || anyPresent serverNames entries) /\
    forall name,
      Json.assocGet name entries' =
        (if listed name serverNames && present entries name
         then None else Json.assocGet name entries).
Proof.
  induction serverNames as [|a rest IH]; intros entries removed.
  - exists entries. simpl. rewrite orb_false_r. split; [reflexivity|]. intros; reflexivity.
  - cbn [CursorService.removeEach]. unfold anyPresent. cbn [existsb].
    fold (anyPresent rest entries).
    assert (Hm : exists m, Json.getMember (JObj entries) a = Returned m).
    { unfold Json.getMember. cbn [Json.getOwn].
      destruct (Json.assocGet a entries); eauto. }
    destruct Hm as (m & Hm).
    assert (Hpresent : present entries a = Json.truthyMember m)
      by (unfold present; now rewrite Hm).
    rewrite Hm, Hpresent.
    destruct (Json.truthyMember m) eqn:Hhit.
    + cbn [Json.deleteMember].
      destruct (IH (Json.assocDel a entries) true) as (entries' & Hrun & Hget).
      exists entries'. split.
      { rewrite Hrun. simpl. now rewrite orb_true_r. }
      intros name. rewrite Hget. unfold listed. cbn [existsb].
      destruct (String.eqb_spec name a) as [->|Hne]; cbn [orb andb].
      * rewrite assocGet_assocDel_eq, Hpresent.
        now destruct (existsb (String.eqb a) rest && present (Json.assocDel a entries) a).
      * rewrite assocGet_assocDel_ne, present_assocDel_ne by congruence. reflexivity.
    + destruct (IH entries removed) as (entries' & Hrun & Hget).
      exists entries'. split; [rewrite Hrun; reflexivity|].
      intros name. rewrite Hget. unfold listed. cbn [existsb].
      destruct (String.eqb_spec name a) as [->|Hne]; cbn [orb andb]; [|reflexivity].
      rewrite Hpresent, andb_false_r. reflexivity.
Qed.

Lemma fsExists_config configPath (w : World) :
  fault (oracle w) KExists (ConfigFile configPath) = None ->
  fsExists (ConfigFile configPath) w
  = (Returned (bool_decide (is_Some (configFiles w !! configPath))), w).
Proof. intros F. cbv [fsExists io]. rewrite F. reflexivity. Qed.

Lemma removeMcpServers_outcome configPath serverNames (w : World) fields :
  configFiles w !! configPath = Some (Doc (JObj fields)) ->
  fault (oracle w) KExists (ConfigFile configPath) = None ->
  fault (oracle w) KRead (ConfigFile configPath) = None ->
  mcpServersIsMap fields ->
  exists ok w',
    CursorService.removeMcpServers configPath serverNames w = (Returned ok, w') /\
    stateFile w' = stateFile w /\
    (forall other, other <> configPath ->
       configFiles w' !! other = configFiles w !! other) /\
    (anyToRemove serverNames fields = false -> ok = true /\ w' = w) /\
    (ok = false -> w' = w) /\
    (anyToRemove serverNames fields = true -> ok = true ->
     exists fields' entries',
       configFiles w' !! configPath = Some (Doc (JObj fields')) /\
       (forall k, k <> "mcpServers" -> Json.assocGet k fields' = Json.assocGet k fields) /\
       Json.assocGet "mcpServers" fields' = Some (JObj entries') /\
       forall name,
         Json.assocGet name entries' =
           (if listed name serverNames && present (priorEntries fields) name
            then None else Json.assocGet name (priorEntries fields))) /\
    (fault (oracle w) KMkdir (ConfigDir configPath) <> Some OtherError ->
     fault (oracle w) KWrite (ConfigFile configPath) = None ->
     ok = true).
Proof.
  intros Hfile F1 F2 Hmap.
  pose proof (readMcpConfigFile_doc configPath w _ Hfile F1 F2) as Hread.
  cbv [CursorService.removeMcpServers tryCatch bind CursorService.lift ret].
  rewrite (fsExists_config _ _ F1), Hfile.
  rewrite bool_decide_eq_true_2 by eauto. simpl. rewrite Hread. simpl.
  unfold anyToRemove.
  destruct (Json.truthyOpt (Json.assocGet "mcpServers" fields)) eqn:Htruthy; simpl.
  2: { exists true, w. split; [reflexivity|]. split; [reflexivity|].
       split; [reflexivity|]. split; [auto|]. split; [discriminate|].
       split; [discriminate|reflexivity]. }
  rewrite (orEmpty_map _ Hmap).
  destruct (removeEach_object serverNames (priorEntries fields) false)
    as (entries' & Hloop & Hget).
  rewrite Hloop. simpl.
  destruct (anyPresent serverNames (priorEntries fields)) eqn:Hany.
  - destruct (writeMcpConfigFile_cases configPath
                (JObj (Json.assocSet "mcpServers" (JObj entries') fields)) w)
      as [[Hw|Hw] Hgo]; rewrite Hw.
    + eexists true, _. split; [reflexivity|]. split; [reflexivity|].
      split; [intros other Hne; unfold written; simpl; now rewrite lookup_insert_ne|].
      split; [discriminate|]. split; [discriminate|]. split; [|reflexivity].
      intros _ _. exists (Json.assocSet "mcpServers" (JObj entries') fields), entries'.
      split; [unfold written; simpl; apply lookup_insert_eq|].
      split; [intros k Hk; apply assocGet_assocSet_ne; congruence|].
      split; [apply assocGet_assocSet_eq|exact Hget].
    + exists false, w. split; [reflexivity|]. split; [reflexivity|].
      split; [reflexivity|]. split; [discriminate|]. split; [reflexivity|].
      split; [discriminate|]. intros G1 G2. rewrite (Hgo G1 G2) in Hw. discriminate.
  - exists true, w. split; [reflexivity|]. split; [reflexivity|].
    split; [reflexivity|]. split; [auto|]. split; [discriminate|].
    split; [discriminate|reflexivity].
Qed.


End RemovalLaws.


Section RemovalLaws2.
Context `{Host}.

Lemma removeMcpServers_cases configPath serverNames (w : World) :
  CursorService.removeMcpServers configPath serverNames w = (Returned true, w) \/
  (exists config,
     CursorService.removeMcpServers configPath serverNames w
     = CursorService.writeMcpConfigFile configPath config w /\
     is_Some (configFiles w !! configPath)).
Proof.
  cbv [CursorService.removeMcpServers tryCatch bind CursorService.lift ret fsExists io].
  destruct (fault (oracle w) KExists (ConfigFile configPath)); [now left|].
  cbv beta iota.
  destruct (bool_decide (is_Some (configFiles w !! configPath))) eqn:Hpresent;
    simpl; [|now left].
  apply bool_decide_eq_true_1 in Hpresent.
  rewrite readMcpConfigFile_value. cbv beta iota.
  destruct (Json.getOwn (configAsRead configPath w) "mcpServers") as [existing|e];
    [|now left].
  cbv beta iota.
  destruct (Json.truthyOpt existing); simpl; [|now left].
  destruct (CursorService.removeEach serverNames (CursorService.orEmpty existing) false)
    as [[mcpServers [|]]|e]; [|now left|now left].
  right.
  exists (CursorService.withMcpServers (configAsRead configPath w) mcpServers).
  split; [|exact Hpresent].
  destruct (writeMcpConfigFile_cases configPath
              (CursorService.withMcpServers (configAsRead configPath w) mcpServers) w)
    as [[Hw|Hw] _]; rewrite Hw; reflexivity.
Qed.

(** X10.  [removeMcpServers] never throws, in any world, and touches no
    file but the one at the given path.  It answers false only when it went
    on to write the file and the write failed, and then nothing has changed;
    when there is no file at the path it answers true and changes nothing. *)
Theorem removeMcpServers_never_raises configPath serverNames (w : World) :
  exists ok w',
    CursorService.removeMcpServers configPath serverNames w = (Returned ok, w') /\
    stateFile w' = stateFile w /\
    daemon w' = daemon w /\
    issued w' = issued w /\
    (forall other, other <> configPath ->
       configFiles w' !! other = configFiles w !! other) /\
    (ok = false ->
     w' = w /\
     (fault (oracle w) KMkdir (ConfigDir configPath) = Some OtherError \/
      fault (oracle w) KWrite (ConfigFile configPath) <> None)) /\
    (configFiles w !! configPath = None -> ok = true /\ w' = w).
Proof.
  destruct (removeMcpServers_cases configPath serverNames w)
    as [Hrun|(config & Hrun & Hsome)]; rewrite Hrun.
  - exists true, w. repeat split; auto; discriminate.
  - destruct (writeMcpConfigFile_cases configPath config w) as [[Hw|Hw] Hgo]; rewrite Hw.
    + eexists true, _. split; [reflexivity|].
      split; [reflexivity|]. split; [reflexivity|]. split; [reflexivity|].
      split; [intros other Hne; unfold written; simpl; now rewrite lookup_insert_ne|].
      split; [discriminate|].
      intros Hnone. rewrite Hnone in Hsome. now destruct Hsome.
    + exists false, w. split; [reflexivity|].
      split; [reflexivity|]. split; [reflexivity|]. split; [reflexivity|].
      split; [reflexivity|]. split.
      * intros _. split; [reflexivity|].
        destruct (fault (oracle w) KMkdir (ConfigDir configPath)) as [[|]|] eqn:F1;
          [right|now left|right].
        all: intros F2; rewrite Hgo in Hw; congruence.
      * intros Hnone. rewrite Hnone in Hsome. now destruct Hsome.
Qed.

Lemma addMcpServers_oracle configPath servers (w : World) :
  oracle (snd (CursorService.addMcpServers configPath servers w)) = oracle w.
Proof.
  destruct (addMcpServers_cases configPath servers w) as [Hrun|[m Hrun]];
    rewrite Hrun; reflexivity.
Qed.

(** X11.  Adding an entry under a name and then removing that name brings
    the map of servers back to what it was without that name: on an IDE file
    that holds a readable JSON object whose [mcpServers] is a map, and with
    writes going through, both calls answer true, the name has no entry
    afterwards, and every other entry and every other top-level key is as
    it was before the two calls. *)
Theorem addMcpServers_then_removeMcpServers configPath name entry (w : World) fields :
  configFiles w !! configPath = Some (Doc (JObj fields)) ->
  fault (oracle w) KExists (ConfigFile configPath) = None ->
  fault (oracle w) KRead (ConfigFile configPath) = None ->
  fault (oracle w) KMkdir (ConfigDir configPath) <> Some OtherError ->
  fault (oracle w) KWrite (ConfigFile configPath) = None ->
  mcpServersIsMap fields ->
  exists w1 w2 fields2 entries2,
    CursorService.addMcpServers configPath [(name, entry)] w = (Returned true, w1) /\
    CursorService.removeMcpServers configPath [name] w1 = (Returned true, w2) /\
    configFiles w2 !! configPath = Some (Doc (JObj fields2)) /\
    (forall k, k <> "mcpServers" -> Json.assocGet k fields2 = Json.assocGet k fields) /\
    Json.assocGet "mcpServers" fields2 = Some (JObj entries2) /\
    Json.assocGet name entries2 = None /\
    (forall other, other <> name ->
       Json.assocGet other entries2 = Json.assocGet other (priorEntries fields)).
Proof.
  intros Hfile F1 F2 F3 F4 Hmap.
  pose proof (addMcpServers_oracle configPath [(name, entry)] w) as Horacle.
  destruct (addMcpServers_outcome configPath [(name, entry)] w fields Hfile F1 F2)
    as (ok & w1 & Hadd & _ & _ & _ & Hgood & Hgo).
  rewrite Hadd in Horacle. simpl in Horacle.
  pose proof (Hgo F3 F4 Hmap) as ->.
  destruct (Hgood eq_refl)
    as (fields1 & mcpServers & _ & Hfile1 & Hkeys1 & Hmember1 & _ & _ & Hentries).
  pose proof (Hentries Hmap) as ->.
  destruct (addEach_object [(name, entry)] (priorEntries fields)) as (_ & Hlaw).
  set (entries1 := assigned [(name, entry)] (priorEntries fields)) in *.
  assert (Hget1 : forall other, other <> name ->
            Json.assocGet other entries1 = Json.assocGet other (priorEntries fields)).
  { intros other Hne. rewrite Hlaw. simpl.
    destruct (Json.setsPrototype (JObj (priorEntries fields)) other); [reflexivity|].
    destruct (String.eqb_spec name other); [congruence|reflexivity]. }
  assert (Hpresent : present entries1 name = true).
  { unfold present, Json.getMember. cbn [Json.getOwn]. rewrite Hlaw. simpl.
    destruct (Json.setsPrototype (JObj (priorEntries fields)) name) eqn:Hproto.
    - unfold Json.setsPrototype in Hproto.
      apply andb_prop in Hproto as [Hproto Hown].
      apply andb_prop in Hproto as [Haccessor Hname].
      destruct (Json.assocGet name (priorEntries fields)).
      + rewrite bool_decide_eq_true_2 in Hown by eauto. discriminate.
      + unfold Json.inherits. now rewrite Haccessor, Hname.
    - now rewrite String.eqb_refl. }
  assert (Hmap1 : mcpServersIsMap fields1) by (unfold mcpServersIsMap; now rewrite Hmember1).
  assert (Hprior1 : priorEntries fields1 = entries1)
    by (unfold priorEntries; now rewrite Hmember1).
  destruct (removeMcpServers_outcome configPath [name] w1 fields1 Hfile1)
    as (ok2 & w2 & Hremove & _ & _ & _ & _ & Hsome & Hgo2);
    [now rewrite Horacle|now rewrite Horacle|exact Hmap1|].
  rewrite Horacle in Hgo2. pose proof (Hgo2 F3 F4) as ->.
  rewrite Hprior1 in Hsome.
  destruct Hsome as (fields2 & entries2 & Hfile2 & Hkeys2 & Hmember2 & Hget2);
    [unfold anyToRemove, anyPresent; rewrite Hmember1, Hprior1; simpl;
     now rewrite Hpresent|reflexivity|].
  exists w1, w2, fields2, entries2.
  split; [exact Hadd|]. split; [exact Hremove|]. split; [exact Hfile2|].
  split; [intros k Hk; now rewrite Hkeys2, Hkeys1|].
  split; [exact Hmember2|]. split.
  - rewrite Hget2. unfold listed. simpl. now rewrite String.eqb_refl, Hpresent.
  - intros other Hne. rewrite Hget2. unfold listed. simpl.
    destruct (String.eqb_spec other name) as [|_]; [contradiction|]. simpl.
    now apply Hget1.
Qed.

End RemovalLaws2.

Lemma addMcpServers_then_removeMcpServers_witness :
  exists w1 w2 fields2 entries2,
    CursorService.addMcpServers (H := Toy.toyHost) Toy.configPath
      [("svc", CursorHttpMcpEntry "http://localhost:9001/sse")] Toy.desk
    = (Returned true, w1) /\
    CursorService.removeMcpServers Toy.configPath ["svc"] w1 = (Returned true, w2) /\
    configFiles w2 !! Toy.configPath = Some (Doc (JObj fields2)) /\
    (forall k, k <> "mcpServers" ->
       Json.assocGet k fields2 = Json.assocGet k Toy.ideFields) /\
    Json.assocGet "mcpServers" fields2 = Some (JObj entries2) /\
    Json.assocGet "svc" entries2 = None /\
    (forall other, other <> "svc" ->
       Json.assocGet other entries2 = Json.assocGet other (priorEntries Toy.ideFields)).
Proof.
  exact (addMcpServers_then_removeMcpServers (H := Toy.toyHost) Toy.configPath "svc"
           (CursorHttpMcpEntry "http://localhost:9001/sse") Toy.desk Toy.ideFields
           eq_refl eq_refl eq_refl ltac:(discriminate) eq_refl I).
Defined.

(** ** The orchestrator *)

Section OrchestratorLaws.
Context `{Host}.

Lemma getMcpServers_returns configPath (w : World) :
  exists mcpServers,
    CursorService.getMcpServers configPath w = (Returned mcpServers, w) /\
    Json.truthy mcpServers = true.
Proof.
  cbv [CursorService.getMcpServers tryCatch bind CursorService.lift ret].
  rewrite readMcpConfigFile_value. cbv beta iota.
  destruct (Json.getOwn (configAsRead configPath w) "mcpServers") as [existing|e].
  - eexists. split; [reflexivity|apply orEmpty_truthy].
  - exists (JObj []). split; reflexivity.
Qed.

Lemma getMember_truthy target k :
  Json.truthy target = true -> exists member, Json.getMember target k = Returned member.
Proof.
  unfold Json.getMember, Json.getOwn.
  destruct target; simpl; try discriminate; intros _.
  all: repeat match goal with
         | |- context [match Json.arrayIndex ?i with _ => _ end] =>
             destruct (Json.arrayIndex i)
         | |- context [if String.eqb ?a ?b then _ else _] => destruct (String.eqb a b)
         | |- context [match ?l !! ?i with _ => _ end] => destruct (l !! i)
         | |- context [match String.get ?i ?t with _ => _ end] => destruct (String.get i t)
         | |- context [match Json.assocGet ?i ?f with _ => _ end] =>
             destruct (Json.assocGet i f)
         end; eauto.
Qed.

Lemma confirm_returns question (w : World) :
  exists answer, Presentation.confirm question w = (Returned answer, w).
Proof.
  cbv [Presentation.confirm tryCatch bind ask ret throw].
  destruct (promptSelect (oracle w) question); eauto.
Qed.

(** X12.  [transformServerConfigForCursor] never throws and changes
    neither the state file, nor an IDE file, nor Docker.  For an http server
    the entry is a URL that starts with [http://]; for a stdio server it is
    the command [docker run -i --rm --env-file <env file> <image>] followed
    by the server's arguments, whatever the state file records. *)
Theorem transformServerConfigForCursor_shape server (w : World) :
  exists entry w',
    Orchestrator.transformServerConfigForCursor server w = (Returned entry, w') /\
    stateFile w' = stateFile w /\ configFiles w' = configFiles w /\
    daemon w' = daemon w /\ issued w' = issued w /\
    match McpServerConfig.type server with
    | http => exists url, entry = CursorHttpMcpEntry url /\ Js.startsWith url "http://" = true
    | stdio =>
        entry = CursorStdioMcpEntry "docker"
                  (["run"; "-i"; "--rm"; "--env-file";
                    Config.getEnvFilePath (McpServerConfig.name server);
                    McpServerConfig.image server] ++ McpServerConfig.args server)
    end.
Proof.
  destruct (transformServerConfigForCursor_entry server w)
    as (entry & w' & Hrun & Hdir & Hshape).
  exists entry, w'. split; [exact Hrun|].
  destruct (onlyAsked_frame w w' Hdir) as (_ & Hs & Hc & Hd & Hi).
  repeat split; try assumption.
Qed.

(** What [updateCursorConfigForServer] may change: whether [data/] exists
    (the state file is loaded on the way), the count of ports asked for, and
    the file at the configured path. *)
Lemma updateCursorConfigForServer_returns server forceUpdate (w : World) :
  exists ok w1 w',
    Orchestrator.updateCursorConfigForServer server forceUpdate w = (Returned ok, w') /\
    onlyAsked w w1 /\
    (w' = w1 \/
     exists mcpConfigPath config,
       configuredPath w = Some mcpConfigPath /\ w' = written mcpConfigPath config w1) /\
    (appConfig (oracle w) = None -> ok = false) /\
    (appConfig (oracle w) <> None -> configuredPath w = None -> ok = true /\ w' = w).
Proof.
  assert (Hself : onlyAsked w w) by (apply onlyDir_onlyAsked; now left).
  unfold configuredPath.
  cbv [Orchestrator.updateCursorConfigForServer Orchestrator.getAppConfig
       tryCatch bind ret throw ask CursorService.lift].
  destruct (appConfig (oracle w)) as [config|].
  2: { destruct (transformServerConfigForCursor_entry server w)
         as (entry & w1 & Hrun & Hdir & _).
       rewrite Hrun. exists false, w1, w1. repeat split; auto. congruence. }
  cbv beta iota.
  destruct (Json.assocGet "CURSOR_MCP_CONFIG_PATH" config) as [mcpConfigPath|].
  2: { exists true, w, w. repeat split; auto; discriminate. }
  destruct (Js.truthyStr mcpConfigPath); simpl.
  2: { exists true, w, w. repeat split; auto; discriminate. }
  destruct (transformServerConfigForCursor_entry server w)
    as (entry & w1 & Hrun & Hdir & _).
  rewrite Hrun. cbv beta iota.
  destruct (getMcpServers_returns mcpConfigPath w1) as (currentServers & Hservers & Htruthy).
  rewrite Hservers. cbv beta iota.
  destruct (getMember_truthy currentServers (McpServerConfig.name server) Htruthy)
    as (currentConfig & ->).
  cbv beta iota.
  match goal with |- context [if ?b then _ else _] => destruct b end.
  { exists true, w1, w1. repeat split; auto; discriminate. }
  assert (Hadd : exists ok w',
            CursorService.addMcpServers mcpConfigPath
              [(McpServerConfig.name server, entry)] w1 = (Returned ok, w') /\
            (w' = w1 \/ exists config, w' = written mcpConfigPath config w1)).
  { destruct (addMcpServers_cases mcpConfigPath [(McpServerConfig.name server, entry)] w1)
      as [Hadd|[mcpServers Hadd]]; rewrite Hadd; eauto 6. }
  destruct Hadd as (ok & w' & Hadd & Hw').
  destruct forceUpdate.
  - cbv beta iota. rewrite Hadd. exists ok, w1, w'.
    split; [reflexivity|]. split; [exact Hdir|]. split.
    + destruct Hw' as [->|[doc ->]]; [now left|right; eauto].
    + split; discriminate.
  - destruct (confirm_returns
                (Orchestrator.question server (Json.truthyMember currentConfig)
                   mcpConfigPath) w1)
      as ([|] & ->); cbv beta iota.
    + rewrite Hadd. exists ok, w1, w'.
      split; [reflexivity|]. split; [exact Hdir|]. split.
      * destruct Hw' as [->|[doc ->]]; [now left|right; eauto].
      * split; discriminate.
    + exists true, w1, w1. repeat split; auto; discriminate.
Qed.

(** X13.  [updateCursorConfigForServer] never throws, whatever the world
    and whether forced or not.  It changes neither the state file nor
    Docker, and among the IDE files at most the one the configuration
    names.  When the configuration cannot be loaded it answers false; when
    the configuration names no IDE file it answers true and changes
    nothing. *)
Theorem updateCursorConfigForServer_never_raises server forceUpdate (w : World) :
  exists ok w',
    Orchestrator.updateCursorConfigForServer server forceUpdate w = (Returned ok, w') /\
    stateFile w' = stateFile w /\ daemon w' = daemon w /\ issued w' = issued w /\
    (forall other, configuredPath w <> Some other ->
       configFiles w' !! other = configFiles w !! other) /\
    (appConfig (oracle w) = None -> ok = false) /\
    (appConfig (oracle w) <> None -> configuredPath w = None -> ok = true /\ w' = w).
Proof.
  destruct (updateCursorConfigForServer_returns server forceUpdate w)
    as (ok & w1 & w' & Hrun & Hdir & Hw' & Hnone & Hunset).
  exists ok, w'. split; [exact Hrun|].
  destruct (onlyAsked_frame w w1 Hdir) as (_ & Hs & Hc & Hd & Hi).
  assert (Hframe : stateFile w' = stateFile w /\ daemon w' = daemon w /\
                   issued w' = issued w /\
                   forall other, configuredPath w <> Some other ->
                     configFiles w' !! other = configFiles w !! other).
  { destruct Hw' as [->|(p & doc & Hp & ->)]; simpl.
    all: repeat split; auto.
    - intros other _. now rewrite Hc.
    - intros other Hne. rewrite lookup_insert_ne by congruence. now rewrite Hc. }
  destruct Hframe as (? & ? & ? & ?). repeat split; auto.
  all: now apply Hunset.
Qed.

Lemma loadState_settled (w : World) files :
  State.loadState (setConfigFiles files (snd (State.loadState w)))
  = (fst (State.loadState w), setConfigFiles files (snd (State.loadState w))).
Proof.
  unfoldM. destruct w as [o dir sf cf d iss asked]; simpl in *.
  destruct (fault o KExists StateDir) eqn:F1; simpl;
    destruct (fault o KMkdir StateDir) eqn:F2; simpl;
    destruct (fault o KExists StateFilePath) eqn:F3; simpl;
    destruct (fault o KRead StateFilePath) eqn:F4; simpl;
    destruct dir; simpl; destruct sf as [[|st]|]; simpl.
  all: repeat (first [rewrite F1 | rewrite F2 | rewrite F3 | rewrite F4]; simpl).
  all: reflexivity.
Qed.

(** A transformation that asked for no free port gives the same entry when
    it is run again, whatever became of the IDE files. *)
Lemma transformServerConfigForCursor_settled server (w : World) files :
  portsAsked (snd (Orchestrator.transformServerConfigForCursor server w)) = portsAsked w ->
  Orchestrator.transformServerConfigForCursor server
    (setConfigFiles files (snd (Orchestrator.transformServerConfigForCursor server w)))
  = (fst (Orchestrator.transformServerConfigForCursor server w),
     setConfigFiles files (snd (Orchestrator.transformServerConfigForCursor server w))).
Proof.
  pose proof (loadState_settled w files) as Hsettled.
  destruct (loadState_returns w) as (state & w1 & Hload & Hw1 & _ & _).
  rewrite Hload in Hsettled. simpl in Hsettled.
  assert (Hasked : portsAsked w1 = portsAsked w)
    by (destruct Hw1 as [->| ->]; reflexivity).
  cbv [Orchestrator.transformServerConfigForCursor Orchestrator.entryFromState
       Orchestrator.getPortFromArgs Orchestrator.getAvailablePort State.asStateFile
       tryCatch bind ret throw ask].
  rewrite Hload. cbv beta iota.
  destruct state as [state|]; cbv beta iota.
  1: destruct (State.getServerState state (McpServerConfig.name server)) as [st|] eqn:Hentry;
       [destruct (Js.truthyStr (McpState.endpoint st)) eqn:Htruthy|].
  all: destruct (McpServerConfig.type server).
  all: repeat match goal with
         | |- context [if Js.startsWith ?a ?b then _ else _] =>
             let E := fresh "Hprefix" in destruct (Js.startsWith a b) eqn:E
         end.
  all: destruct (State.scanPort (McpServerConfig.args server)) as [p|] eqn:Hscan.
  all: try destruct (p =? 0)%Z eqn:Hzero.
  all: try destruct (availablePort (oracle w1) (portsAsked w1)) as [q|] eqn:Hport.
  all: try destruct (q =? 0)%Z eqn:Hqzero.
  all: cbn [fst snd portsAsked setPortsAsked].
  all: intros Hsame;
       try (rewrite Hasked in Hsame; symmetry in Hsame; now apply n_Sn in Hsame).
  all: rewrite Hsettled; cbv beta iota.
  all: repeat first
         [ rewrite Hentry | rewrite Htruthy | rewrite Hprefix | rewrite Hzero
         | progress cbv beta iota ].
  all: reflexivity.
Qed.

(** The course of [updateCursorConfigForServer] once the configuration
    names an IDE file. *)
Lemma updateCursorConfigForServer_anatomy server forceUpdate (w : World) mcpConfigPath :
  configuredPath w = Some mcpConfigPath ->
  exists entry w0 currentServers currentConfig,
    Orchestrator.transformServerConfigForCursor server w = (Returned entry, w0) /\
    onlyAsked w w0 /\
    CursorService.getMcpServers mcpConfigPath w0 = (Returned currentServers, w0) /\
    Json.getMember currentServers (McpServerConfig.name server) = Returned currentConfig /\
    Orchestrator.updateCursorConfigForServer server forceUpdate w =
      (if upToDate currentConfig entry then (Returned true, w0)
       else if forceUpdate
                 || consents (Orchestrator.question server
                                (Json.truthyMember currentConfig) mcpConfigPath) w
            then CursorService.addMcpServers mcpConfigPath
                   [(McpServerConfig.name server, entry)] w0
            else (Returned true, w0)).
Proof.
  unfold configuredPath. intros Hpath.
  destruct (appConfig (oracle w)) as [config|] eqn:Hconfig; [|discriminate].
  destruct (Json.assocGet "CURSOR_MCP_CONFIG_PATH" config) as [p|] eqn:Hname; [|discriminate].
  destruct (Js.truthyStr p) eqn:Hset; [|discriminate].
  injection Hpath as ->.
  destruct (transformServerConfigForCursor_entry server w)
    as (entry & w0 & Hrun & Hdir & _).
  destruct (getMcpServers_returns mcpConfigPath w0) as (currentServers & Hservers & Htruthy).
  destruct (getMember_truthy currentServers (McpServerConfig.name server) Htruthy)
    as (currentConfig & Hmember).
  exists entry, w0, currentServers, currentConfig.
  split; [exact Hrun|]. split; [exact Hdir|]. split; [exact Hservers|].
  split; [exact Hmember|].
  destruct (onlyAsked_frame w w0 Hdir) as (Horacle & _).
  cbv [Orchestrator.updateCursorConfigForServer Orchestrator.getAppConfig
       tryCatch bind ret throw ask CursorService.lift].
  rewrite Hconfig. cbv beta iota. rewrite Hname, Hset. cbn [negb]. cbv beta iota.
  rewrite Hrun. cbv beta iota. rewrite Hservers. cbv beta iota.
  rewrite Hmember. cbv beta iota.
  rewrite negb_involutive. fold (upToDate currentConfig entry).
  destruct (upToDate currentConfig entry); [reflexivity|].
  assert (Hadd : exists ok w',
            CursorService.addMcpServers mcpConfigPath
              [(McpServerConfig.name server, entry)] w0 = (Returned ok, w')).
  { destruct (addMcpServers_cases mcpConfigPath [(McpServerConfig.name server, entry)] w0)
      as [Hadd|[mcpServers Hadd]]; rewrite Hadd; eauto. }
  destruct Hadd as (ok & w' & Hadd).
  destruct forceUpdate; cbn [orb]; cbv beta iota.
  - rewrite Hadd. reflexivity.
  - unfold consents. cbv [Presentation.confirm tryCatch bind ask ret throw].
    rewrite Horacle.
    destruct (promptSelect (oracle w) _) as [response|]; cbv beta iota.
    + destruct (String.eqb response "Yes"); [rewrite Hadd|]; reflexivity.
    + rewrite Hadd. reflexivity.
Qed.

Lemma eqb_refl : forall a, Json.eqb a a = true.
Proof.
  fix IH 1. intros [| b | n | s | items | fields]; simpl.
  - reflexivity.
  - now destruct b.
  - apply String.eqb_refl.
  - apply String.eqb_refl.
  - induction items as [|x items IHitems]; [reflexivity|].
    rewrite (IH x). exact IHitems.
  - induction fields as [|[k x] fields IHfields]; [reflexivity|].
    rewrite String.eqb_refl, (IH x). exact IHfields.
Qed.

(** X14.  When the user declines, nothing is written: with an IDE file
    configured and a user who answers anything but Yes,
    [updateCursorConfigForServer] without force returns true and leaves
    every IDE file and the state file as they were. *)
Theorem updateCursorConfigForServer_declined server (w : World) mcpConfigPath :
  configuredPath w = Some mcpConfigPath ->
  (forall question, consents question w = false) ->
  exists w',
    Orchestrator.updateCursorConfigForServer server false w = (Returned true, w') /\
    configFiles w' = configFiles w /\ stateFile w' = stateFile w.
Proof.
  intros Hpath Hno.
  destruct (updateCursorConfigForServer_anatomy server false w mcpConfigPath Hpath)
    as (entry & w0 & currentServers & currentConfig & _ & Hdir & _ & _ & Hrun).
  rewrite Hno in Hrun. simpl in Hrun.
  exists w0. split.
  - rewrite Hrun. now destruct (upToDate currentConfig entry).
  - destruct (onlyAsked_frame w w0 Hdir) as (_ & Hs & Hc & _). now split.
Qed.

Lemma setsPrototype_other target k :
  k <> "__proto__" -> Json.setsPrototype target k = false.
Proof.
  intros Hk. unfold Json.setsPrototype.
  destruct (String.eqb_spec k "__proto__"); [contradiction|].
  now rewrite andb_false_r.
Qed.

(** X15.  Updating the IDE file is idempotent, as long as the entry does
    not hang on a free port.  Let the configuration name the IDE file, let
    that file hold a readable JSON object whose [mcpServers] is a map, and
    let the server not be named [__proto__].  After a forced
    [updateCursorConfigForServer] that returned true without asking for a
    free port, a second call, forced or not, returns true and changes
    nothing at all: the entry it computes is the one it finds, so it neither
    writes nor asks.  The first call returns true whenever the write goes
    through. *)
Theorem updateCursorConfigForServer_idempotent server (w : World) mcpConfigPath fields :
  configuredPath w = Some mcpConfigPath ->
  configFiles w !! mcpConfigPath = Some (Doc (JObj fields)) ->
  fault (oracle w) KExists (ConfigFile mcpConfigPath) = None ->
  fault (oracle w) KRead (ConfigFile mcpConfigPath) = None ->
  mcpServersIsMap fields ->
  McpServerConfig.name server <> "__proto__" ->
  exists ok w1,
    Orchestrator.updateCursorConfigForServer server true w = (Returned ok, w1) /\
    (ok = true -> portsAsked w1 = portsAsked w ->
     forall forceUpdate,
       Orchestrator.updateCursorConfigForServer server forceUpdate w1 = (Returned true, w1)) /\
    (fault (oracle w) KMkdir (ConfigDir mcpConfigPath) <> Some OtherError ->
     fault (oracle w) KWrite (ConfigFile mcpConfigPath) = None ->
     ok = true).
Proof.
  intros Hpath Hfile F1 F2 Hmap Hname.
  destruct (updateCursorConfigForServer_anatomy server true w mcpConfigPath Hpath)
    as (entry & w0 & currentServers & currentConfig & Htr & Hdir & Hservers & Hmember & Hrun).
  destruct (onlyAsked_frame w w0 Hdir) as (Ho & _ & Hc & _).
  assert (Hpath0 : forall files, configuredPath (setConfigFiles files w0) = Some mcpConfigPath).
  { intros files. unfold configuredPath in *. simpl. now rewrite Ho. }
  assert (Hsettled : portsAsked w0 = portsAsked w -> forall files,
            Orchestrator.transformServerConfigForCursor server (setConfigFiles files w0)
            = (Returned entry, setConfigFiles files w0)).
  { intros Hasked files.
    pose proof (transformServerConfigForCursor_settled server w files) as E.
    rewrite Htr in E. now apply E. }
  assert (Hagain : portsAsked w0 = portsAsked w -> forall files forceUpdate servers,
            CursorService.getMcpServers mcpConfigPath (setConfigFiles files w0)
            = (Returned servers, setConfigFiles files w0) ->
            Json.getMember servers (McpServerConfig.name server)
            = Returned (Json.Data (JObj (Json.entryFields entry))) ->
            Orchestrator.updateCursorConfigForServer server forceUpdate
              (setConfigFiles files w0)
            = (Returned true, setConfigFiles files w0)).
  { intros Hasked files forceUpdate servers Hget Hfound.
    destruct (updateCursorConfigForServer_anatomy server forceUpdate
                (setConfigFiles files w0) mcpConfigPath (Hpath0 files))
      as (entry' & w0' & servers' & current' & Htr' & _ & Hservers' & Hmember' & Hrun').
    rewrite (Hsettled Hasked) in Htr'. injection Htr' as <- <-.
    rewrite Hget in Hservers'. injection Hservers' as <-.
    rewrite Hfound in Hmember'. injection Hmember' as <-.
    rewrite Hrun'. unfold upToDate.
    cbn [Json.truthyMember Json.sameText Json.truthy andb].
    rewrite eqb_refl. reflexivity. }
  assert (Hself : setConfigFiles (configFiles w0) w0 = w0) by (now destruct w0).
  destruct (upToDate currentConfig entry) eqn:Hup.
  - exists true, w0. split; [exact Hrun|]. split; [|reflexivity].
    intros _ Hasked forceUpdate.
    destruct currentConfig as [current| |]; try discriminate.
    unfold upToDate in Hup. apply andb_true_iff in Hup as [_ Heq].
    apply eqb_sound in Heq. subst current.
    specialize (Hagain Hasked (configFiles w0) forceUpdate currentServers).
    rewrite Hself in Hagain. now apply Hagain.
  - simpl in Hrun.
    assert (Hfile0 : configFiles w0 !! mcpConfigPath = Some (Doc (JObj fields)))
      by (now rewrite Hc).
    destruct (addMcpServers_outcome mcpConfigPath
                [(McpServerConfig.name server, entry)] w0 fields Hfile0)
      as (ok & w1 & Hadd & _ & _ & _ & Htrue & Hgo); [now rewrite Ho|now rewrite Ho|].
    exists ok, w1. split; [now rewrite Hrun|]. split.
    + intros ->. intros Hasked forceUpdate.
      destruct (Htrue eq_refl) as (fields' & mcpServers & Hw1 & _ & _ & _ & _ & Hget1 & Hentries).
      pose proof (Hentries Hmap) as ->.
      subst w1. unfold written in *. simpl in Hasked.
      apply (Hagain Hasked _ forceUpdate _ Hget1).
      unfold Json.getMember. cbn [Json.getOwn].
      destruct (addEach_object [(McpServerConfig.name server, entry)] (priorEntries fields))
        as (_ & Hlaw).
      rewrite Hlaw, (setsPrototype_other _ _ Hname). simpl.
      now rewrite String.eqb_refl.
    + intros G1 G2. apply Hgo; try rewrite Ho; assumption.
Qed.

End OrchestratorLaws.

Lemma updateCursorConfigForServer_declined_witness :
  let w := Toy.worldWith Toy.declining (Some (Doc (Shaped Toy.svcState)))
             [(Toy.configPath, Doc (JObj Toy.ideFields))] ["svc"] in
  exists w',
    Orchestrator.updateCursorConfigForServer (H := Toy.toyHost)
      (Toy.httpServer "svc" []) false w = (Returned true, w') /\
    configFiles w' = configFiles w /\ stateFile w' = stateFile w.
Proof.
  exact (updateCursorConfigForServer_declined (H := Toy.toyHost) (Toy.httpServer "svc" [])
           (Toy.worldWith Toy.declining (Some (Doc (Shaped Toy.svcState)))
              [(Toy.configPath, Doc (JObj Toy.ideFields))] ["svc"])
           Toy.configPath eq_refl (fun _ => eq_refl)).
Defined.

Lemma updateCursorConfigForServer_idempotent_witness :
  exists ok w1,
    Orchestrator.updateCursorConfigForServer (H := Toy.toyHost)
      (Toy.httpServer "svc" []) true Toy.desk = (Returned ok, w1) /\
    (ok = true -> portsAsked w1 = portsAsked Toy.desk ->
     forall forceUpdate,
       Orchestrator.updateCursorConfigForServer (Toy.httpServer "svc" []) forceUpdate w1
       = (Returned true, w1)) /\
    (fault (oracle Toy.desk) KMkdir (ConfigDir Toy.configPath) <> Some OtherError ->
     fault (oracle Toy.desk) KWrite (ConfigFile Toy.configPath) = None ->
     ok = true).
Proof.
  apply (updateCursorConfigForServer_idempotent (H := Toy.toyHost) (Toy.httpServer "svc" [])
           Toy.desk Toy.configPath Toy.ideFields eq_refl eq_refl eq_refl eq_refl I).
  simpl. discriminate.
Defined.

(** On the desk, the forced update writes the entry of [svc]; the second
    call finds it and leaves the world as it is. *)
Example updateCursorConfigForServer_twice :
  let server := Toy.httpServer "svc" [] in
  let '(first, w1) := Orchestrator.updateCursorConfigForServer server true Toy.desk in
  let '(second, w2) := Orchestrator.updateCursorConfigForServer server false w1 in
  first = Returned true /\ second = Returned true /\
  configFiles w1 !! Toy.configPath
  = Some (Doc (JObj [("theme", JStr "dark");
                     ("mcpServers",
                      JObj [("other", JObj [("url", JStr "http://localhost:7000/sse")]);
                            ("svc", JObj [("url", JStr "http://localhost:9001/sse")])])])) /\
  configFiles w2 !! Toy.configPath = configFiles w1 !! Toy.configPath.
Proof. vm_compute. repeat split; reflexivity. Qed.

(** Without a recorded endpoint and without [--port], each call asks for a
    free port of its own: the second forced update finds the URL of the
    first, computes another one, and writes again. *)
Example updateCursorConfigForServer_asks_for_a_port_each_time :
  let server := Toy.httpServer "svc" [] in
  let w := Toy.world None [(Toy.configPath, Doc (JObj Toy.ideFields))] [] in
  let '(first, w1) := Orchestrator.updateCursorConfigForServer server true w in
  let '(second, w2) := Orchestrator.updateCursorConfigForServer server true w1 in
  first = Returned true /\ second = Returned true /\
  Json.assocGet "svc" (priorEntries
    match configFiles w1 !! Toy.configPath with Some (Doc (JObj f)) => f | _ => [] end)
  = Some (JObj [("url", JStr "http://localhost:9500/sse")]) /\
  Json.assocGet "svc" (priorEntries
    match configFiles w2 !! Toy.configPath with Some (Doc (JObj f)) => f | _ => [] end)
  = Some (JObj [("url", JStr "http://localhost:9501/sse")]) /\
  portsAsked w = 0%nat /\ portsAsked w1 = 1%nat /\ portsAsked w2 = 2%nat.
Proof. vm_compute. repeat split; reflexivity. Qed.

(** ** What never consults the user *)

Section BlindFacts.
Context `{Host}.

Lemma blind_ret {A} (a : A) : Blind (ret a).
Proof. intros reply w. reflexivity. Qed.

Lemma blind_throw {A} e : Blind (throw (A := A) e).
Proof. intros reply w. reflexivity. Qed.

Lemma blind_lift {A} (r : Outcome A) : Blind (CursorService.lift r).
Proof. intros reply w. reflexivity. Qed.

Lemma blind_bind {A B} (m : M A) (k : A -> M B) :
  Blind m -> (forall a, Blind (k a)) -> Blind (bind m k).
Proof.
  intros Hm Hk reply w. unfold bind. rewrite Hm.
  destruct (m w) as [[a|e] w1]; simpl; [apply Hk|reflexivity].
Qed.

Lemma blind_tryCatch {A} (m : M A) (handler : Exn -> M A) :
  Blind m -> (forall e, Blind (handler e)) -> Blind (tryCatch m handler).
Proof.
  intros Hm Hh reply w. unfold tryCatch. rewrite Hm.
  destruct (m w) as [[a|e] w1]; simpl; [reflexivity|apply Hh].
Qed.

Lemma blind_io {A} kind target (act : M A) : Blind act -> Blind (io kind target act).
Proof.
  intros Hact reply w. unfold io. simpl.
  destruct (fault (oracle w) kind target); [reflexivity|apply Hact].
Qed.

Lemma blind_fsExists target : Blind (fsExists target).
Proof. apply blind_io. intros reply w. reflexivity. Qed.

Lemma blind_mkdir target : Blind (mkdir target).
Proof. apply blind_io. intros reply w. now destruct target. Qed.

Lemma blind_runDocker args : Blind (runDocker args).
Proof.
  intros reply w. unfold runDocker. simpl.
  destruct (docker args (daemon w)) as [[out|] d]; reflexivity.
Qed.

Lemma blind_isPortOpen answers host port : Blind (HealthValidator.isPortOpen answers host port).
Proof. apply blind_ret. Qed.

Lemma blind_asStateFile loaded : Blind (State.asStateFile loaded).
Proof. destruct loaded; intros reply w; reflexivity. Qed.

Lemma blind_getAvailablePort : Blind Orchestrator.getAvailablePort.
Proof.
  intros reply w. unfold Orchestrator.getAvailablePort. simpl.
  destruct (availablePort (oracle w) (portsAsked w)); reflexivity.
Qed.

End BlindFacts.

Create HintDb blind.

#[local] Hint Resolve blind_ret blind_throw blind_lift blind_fsExists blind_mkdir
  blind_runDocker blind_isPortOpen blind_asStateFile blind_getAvailablePort : blind.

(** Splits a goal [Blind m] along the structure of [m]. *)
Ltac blind :=
  repeat first
    [ apply blind_bind; [|intros ?]
    | apply blind_tryCatch; [|intros ?]
    | apply blind_io
    | solve [auto with blind]
    | solve [intros ? ?; reflexivity]
    | match goal with
      | |- Blind (match ?x with _ => _ end) => destruct x
      | |- Blind (let '(_, _) := ?x in _) => destruct x
      end ].

Section BlindPrograms.
Context `{Host}.
Local Open Scope m_scope.

Lemma blind_loadState : Blind State.loadState.
Proof.
  unfold State.loadState, State.ensureStateDir, State.readStateFile, State.parseState,
    State.freshState.
  blind.
  intros reply w. simpl. destruct (stateFile w); reflexivity.
Qed.

Lemma blind_saveState state : Blind (State.saveState state).
Proof.
  unfold State.saveState, State.ensureStateDir, State.writeStateFile. blind.
Qed.

Lemma blind_updateAndSaveServerState serverName isOnline endpoint :
  Blind (Orchestrator.updateAndSaveServerState serverName isOnline endpoint).
Proof.
  unfold Orchestrator.updateAndSaveServerState.
  apply blind_bind; [apply blind_loadState|intros loaded].
  apply blind_bind; [apply blind_asStateFile|intros; apply blind_saveState].
Qed.

Lemma blind_transform server : Blind (Orchestrator.transformServerConfigForCursor server).
Proof.
  unfold Orchestrator.transformServerConfigForCursor, Orchestrator.entryFromState,
    Orchestrator.getPortFromArgs.
  apply blind_bind.
  - apply blind_tryCatch; [|intros; apply blind_ret].
    apply blind_bind; [apply blind_loadState|intros loaded].
    apply blind_bind; [apply blind_asStateFile|intros state]. blind.
  - intros fromState. blind.
Qed.

Lemma blind_readMcpConfigFile configPath : Blind (CursorService.readMcpConfigFile configPath).
Proof.
  unfold CursorService.readMcpConfigFile, CursorService.readConfigText,
    CursorService.parseConfig.
  blind.
  intros reply w. simpl. destruct (configFiles w !! configPath); reflexivity.
Qed.

Lemma blind_writeMcpConfigFile configPath config :
  Blind (CursorService.writeMcpConfigFile configPath config).
Proof.
  unfold CursorService.writeMcpConfigFile, CursorService.writeConfigText. blind.
Qed.

Lemma blind_getMcpServers configPath : Blind (CursorService.getMcpServers configPath).
Proof.
  unfold CursorService.getMcpServers.
  apply blind_tryCatch; [|intros; apply blind_ret].
  apply blind_bind; [apply blind_readMcpConfigFile|intros config]. blind.
Qed.

Lemma blind_addMcpServers configPath servers :
  Blind (CursorService.addMcpServers configPath servers).
Proof.
  unfold CursorService.addMcpServers.
  apply blind_tryCatch; [|intros; apply blind_ret].
  apply blind_bind; [apply blind_readMcpConfigFile|intros config].
  apply blind_bind; [apply blind_lift|intros existing].
  apply blind_bind; [destruct (Json.truthyOpt existing); blind|intros _].
  apply blind_bind; [apply blind_lift|intros mcpServers].
  apply blind_writeMcpConfigFile.
Qed.

Lemma blind_updateCursorConfigForServer server :
  Blind (Orchestrator.updateCursorConfigForServer server true).
Proof.
  unfold Orchestrator.updateCursorConfigForServer, Orchestrator.getAppConfig.
  apply blind_tryCatch.
  - apply blind_bind; [blind|intros appCfg].
    destruct (Json.assocGet "CURSOR_MCP_CONFIG_PATH" appCfg) as [mcpConfigPath|];
      [|apply blind_ret].
    destruct (negb (Js.truthyStr mcpConfigPath)); [apply blind_ret|].
    apply blind_bind; [apply blind_transform|intros transformedConfig].
    apply blind_bind; [apply blind_getMcpServers|intros currentServers].
    apply blind_bind; [apply blind_lift|intros currentConfig].
    match goal with |- Blind (if ?b then _ else _) => destruct b end; [apply blind_ret|].
    apply blind_bind; [apply blind_ret|intros [|]];
      [apply blind_addMcpServers|apply blind_ret].
  - intros _. apply blind_bind; [|intros; apply blind_ret].
    apply blind_tryCatch; [|intros; apply blind_ret].
    apply blind_bind; [apply blind_transform|intros; apply blind_ret].
Qed.

Lemma blind_stopAndRemoveContainer containerName :
  Blind (DockerService.stopAndRemoveContainer containerName).
Proof. unfold DockerService.stopAndRemoveContainer. blind. Qed.

Lemma blind_stopServer server : Blind (Orchestrator.stopServer server).
Proof.
  unfold Orchestrator.stopServer.
  apply blind_tryCatch; [|intros; apply blind_ret].
  destruct (McpServerConfig.type server); [|apply blind_ret].
  apply blind_bind; [apply blind_stopAndRemoveContainer|intros success].
  destruct (negb success); [apply blind_ret|].
  apply blind_bind; [apply blind_updateAndSaveServerState|intros _].
  apply blind_bind; [apply blind_updateCursorConfigForServer|intros _].
  apply blind_ret.
Qed.

(** X16.  A forced update never asks: [updateCursorConfigForServer] with
    [forceUpdate] set, and [stopServer], which calls it so, run the same
    whatever the user would reply to any question: same result, same files,
    same [docker] commands. *)
Theorem forced_update_never_prompts server reply (w : World) :
  Orchestrator.updateCursorConfigForServer server true (rePrompt reply w)
  = (fst (Orchestrator.updateCursorConfigForServer server true w),
     rePrompt reply (snd (Orchestrator.updateCursorConfigForServer server true w))) /\
  Orchestrator.stopServer server (rePrompt reply w)
  = (fst (Orchestrator.stopServer server w),
     rePrompt reply (snd (Orchestrator.stopServer server w))).
Proof.
  split; [apply blind_updateCursorConfigForServer|apply blind_stopServer].
Qed.

End BlindPrograms.

Section StopAndCheck.
Context `{Host}.


Lemma stopAndRemoveContainer_returns containerName (w : World) :
  exists ok d log,
    DockerService.stopAndRemoveContainer containerName w
    = (Returned ok, setDocker d log w).
Proof.
  cbv [DockerService.stopAndRemoveContainer tryCatch bind runDocker ret].
  destruct (docker (DockerService.checkCommand containerName) (daemon w)) as [[out|] d0];
    simpl; [|eauto].
  destruct (String.eqb (Js.trim (stdout out)) ""); simpl; [eauto|].
  destruct (docker ["stop"; containerName] d0) as [[stopped|] d1]; simpl;
    [|do 3 eexists; reflexivity].
  destruct (negb (code stopped =? 0)%Z); simpl; [do 3 eexists; reflexivity|].
  destruct (docker ["rm"; containerName] d1) as [[removed|] d2]; simpl;
    [|do 3 eexists; reflexivity].
  destruct (negb (code removed =? 0)%Z); simpl; do 3 eexists; reflexivity.
Qed.

Lemma quiet_refl (w : World) : Quiet [] w w.
Proof. repeat split; try reflexivity. now rewrite app_nil_r. Qed.

Lemma quiet_trans log1 log2 (w w1 w2 : World) :
  Quiet log1 w w1 -> Quiet log2 w1 w2 -> Quiet (log1 ++ log2) w w2.
Proof.
  intros (Ho1 & Hs1 & Hc1 & Hi1) (Ho2 & Hs2 & Hc2 & Hi2).
  repeat split; try congruence. rewrite Hi2, Hi1. now rewrite app_assoc.
Qed.

Lemma quiet_setDocker d log (w : World) : Quiet log w (setDocker d (issued w ++ log) w).
Proof. repeat split; reflexivity. Qed.

Lemma quiet_onlyDir (w w' : World) : onlyDir w w' -> Quiet [] w w'.
Proof. intros [->| ->]; repeat split; try reflexivity; simpl; now rewrite app_nil_r. Qed.

(** X17.  [stopServer] never throws.  For a stdio server it returns true
    and does nothing.  For an http server whose container
    [stopAndRemoveContainer] could not remove it returns false, and nothing
    but Docker has changed.  After the container was removed: when the
    state that is loaded is a state file, the state is saved with the
    server marked offline (its endpoint kept), then the IDE file is updated
    by a forced [updateCursorConfigForServer], which leaves the saved state
    as it is, and the result is true; when [data/state.json] holds a value
    without [mcps], [updateServerStatus] throws, and the result is false
    with the state file and the IDE files as they were. *)
Theorem stopServer_outcome server (w : World) :
  match McpServerConfig.type server with
  | stdio => Orchestrator.stopServer server w = (Returned true, w)
  | http =>
      exists removed wd,
        DockerService.stopAndRemoveContainer (McpServerConfig.name server) w
        = (Returned removed, wd) /\
        if removed then
          (forall loaded,
             fst (State.loadState w) = Returned (Shaped loaded) ->
             exists w2,
               Orchestrator.updateAndSaveServerState (McpServerConfig.name server)
                 false None wd
               = (Returned tt, w2) /\
               Orchestrator.stopServer server w
               = (Returned true,
                  snd (Orchestrator.updateCursorConfigForServer server true w2)) /\
               stateFile (snd (Orchestrator.updateCursorConfigForServer server true w2))
               = stateFile w2 /\
               (fault (oracle w) KExists StateDir = None ->
                fault (oracle w) KMkdir StateDir = None ->
                fault (oracle w) KWrite StateFilePath = None ->
                stateFile w2
                = Some (Doc (Shaped (McpStateFile.mk
                               (McpStateFile.mcps
                                  (State.updateServerStatus loaded
                                     (McpServerConfig.name server) false None))
                               (Some (now (oracle w)))))))) /\
          (fst (State.loadState w) = Returned Shapeless ->
           exists w',
             Orchestrator.stopServer server w = (Returned false, w') /\
             onlyDir wd w')
        else
          Orchestrator.stopServer server w = (Returned false, wd) /\
          stateFile wd = stateFile w /\ configFiles wd = configFiles w
  end.
Proof.
  destruct (McpServerConfig.type server) eqn:Htype.
  2: { unfold Orchestrator.stopServer. rewrite Htype. reflexivity. }
  destruct (stopAndRemoveContainer_returns (McpServerConfig.name server) w)
    as (removed & d & log & Hstop).
  exists removed, (setDocker d log w). split; [exact Hstop|].
  unfold Orchestrator.stopServer. rewrite Htype.
  cbv [tryCatch bind ret]. rewrite Hstop.
  destruct removed; simpl; [|repeat split].
  split.
  - intros loaded Hload.
    assert (Hload' : fst (State.loadState (setDocker d log w)) = Returned (Shaped loaded))
      by (rewrite loadState_setDocker; exact Hload).
    destruct (updateAndSaveServerState_returns (McpServerConfig.name server) false None
                (setDocker d log w) loaded Hload')
      as (w2 & Hsave & _ & _ & _ & _ & _ & _ & Hdone).
    exists w2. split; [exact Hsave|]. rewrite Hsave.
    destruct (updateCursorConfigForServer_returns server true w2)
      as (ok & w3 & w4 & Hupdate & Hdir & Hw4 & _).
    rewrite Hupdate. simpl. split; [reflexivity|]. split; [|exact Hdone].
    destruct (onlyAsked_frame w2 w3 Hdir) as (_ & Hs & _).
    destruct Hw4 as [->|(p & doc & _ & ->)]; exact Hs.
  - intros Hload.
    assert (Hload' : fst (State.loadState (setDocker d log w)) = Returned Shapeless)
      by (rewrite loadState_setDocker; exact Hload).
    destruct (updateAndSaveServerState_throws (McpServerConfig.name server) false None
                (setDocker d log w) Hload')
      as (w' & Hsave & Hdir).
    exists w'. rewrite Hsave. split; [reflexivity|exact Hdir].
Qed.

(** [validateServerHealth] returns; it writes no file, and runs a [docker]
    command for a stdio server only. *)
Lemma validateServerHealth_returns server (w : World) :
  exists ok w' log,
    HealthValidator.validateServerHealth server w = (Returned ok, w') /\
    Quiet log w w' /\
    (McpServerConfig.type server = http -> log = [] /\ daemon w' = daemon w).
Proof.
  cbv [HealthValidator.validateServerHealth].
  destruct (McpServerConfig.healthValidator server) as [validator|].
  2: { exists true, w, []. split; [reflexivity|]. split; [apply quiet_refl|auto]. }
  destruct (McpServerConfig.type server) eqn:Htype.
  - cbv [HealthValidator.validateHttpHealth HealthValidator.recordedPort
         State.asStateFile tryCatch bind ret throw ask].
    rewrite Htype.
    destruct (loadState_returns w) as (state & w1 & Hload & Hw1 & _).
    rewrite Hload.
    destruct state; cbv beta iota; eexists _, w1, [].
    all: split; [reflexivity|]; split; [now apply quiet_onlyDir|].
    all: intros _; split; [reflexivity|]; destruct Hw1 as [->| ->]; reflexivity.
  - cbv [HealthValidator.validateStdioHealth tryCatch bind runDocker ret ask].
    rewrite Htype.
    destruct (docker (HealthValidator.stdioCommand server validator) (daemon w))
      as [[out|] d]; [destruct (negb (code out =? 0)%Z)|].
    all: do 3 eexists; split; [reflexivity|]; split; [apply quiet_setDocker|].
    all: discriminate.
Qed.

(** X18.  [healthCheck] never throws and changes neither the state file
    nor any IDE file.  For a stdio server its verdict is the one of
    [validateServerHealth]; for an http server it is false unless the
    container is listed as running, and then it is the verdict of
    [validateServerHealth], run after the listing. *)
Theorem healthCheck_verdict server (w : World) :
  let w1 := snd (DockerService.isContainerRunning (McpServerConfig.name server) w) in
  Orchestrator.healthCheck server w
  = match McpServerConfig.type server with
    | stdio => HealthValidator.validateServerHealth server w
    | http =>
        if listedAsRunning (McpServerConfig.name server) w
        then HealthValidator.validateServerHealth server w1
        else (Returned false, w1)
    end /\
  exists ok w',
    Orchestrator.healthCheck server w = (Returned ok, w') /\
    stateFile w' = stateFile w /\ configFiles w' = configFiles w.
Proof.
  intros w1.
  assert (Hrun : Orchestrator.healthCheck server w
                 = match McpServerConfig.type server with
                   | stdio => HealthValidator.validateServerHealth server w
                   | http =>
                       if listedAsRunning (McpServerConfig.name server) w
                       then HealthValidator.validateServerHealth server w1
                       else (Returned false, w1)
                   end).
  { subst w1. unfold Orchestrator.healthCheck. cbv [tryCatch bind ret].
    destruct (McpServerConfig.type server) eqn:Htype.
    - rewrite isContainerRunning_answer. simpl.
      destruct (listedAsRunning (McpServerConfig.name server) w); simpl; [|reflexivity].
      match goal with
      | |- context [HealthValidator.validateServerHealth server ?x] =>
          destruct (validateServerHealth_returns server x) as (ok & w' & lg & Hv & _);
          pose proof (validateServerHealth_vacuous server x) as Hvac
      end.
      destruct (McpServerConfig.healthValidator server).
      + rewrite Hv. reflexivity.
      + rewrite (Hvac eq_refl). reflexivity.
    - simpl.
      destruct (validateServerHealth_returns server w) as (ok & w' & lg & Hv & _).
      pose proof (validateServerHealth_vacuous server w) as Hvac.
      destruct (McpServerConfig.healthValidator server).
      + rewrite Hv. reflexivity.
      + rewrite (Hvac eq_refl). reflexivity. }
  split; [exact Hrun|]. rewrite Hrun. subst w1.
  destruct (McpServerConfig.type server).
  - rewrite isContainerRunning_answer. simpl.
    destruct (listedAsRunning (McpServerConfig.name server) w).
    + match goal with
      | |- context [HealthValidator.validateServerHealth server ?x] =>
          destruct (validateServerHealth_returns server x)
            as (ok & w' & lg & Hv & (_ & Hs & Hc & _) & _)
      end.
      rewrite Hv. exists ok, w'. split; [reflexivity|].
      rewrite Hs, Hc. split; reflexivity.
    + do 2 eexists. split; [reflexivity|]. split; reflexivity.
  - destruct (validateServerHealth_returns server w)
      as (ok & w' & lg & Hv & (_ & Hs & Hc & _) & _).
    rewrite Hv. exists ok, w'. split; [reflexivity|]. now split.
Qed.

End StopAndCheck.

(** ** Ports: written into endpoints and read back *)

Lemma digitOf_pretty_N_char (x : N) :
  (x < 10)%N -> Js.digitOf (pretty_N_char x) = Some (Z.of_N x).
Proof.
  intros Hx.
  assert (x = 0 \/ x = 1 \/ x = 2 \/ x = 3 \/ x = 4 \/ x = 5 \/ x = 6 \/ x = 7
          \/ x = 8 \/ x = 9)%N as Hcases by lia.
  repeat destruct Hcases as [->|Hcases]; try subst x; reflexivity.
Qed.

(** Reading the digits of a printed number gives the number back. *)
Lemma digitsRun_pretty_N_go (x : N) : forall s tail,
  (0 < x)%N ->
  Js.digitsRun None (pretty_N_go x s +:+ tail)
  = Js.digitsRun (Some (Z.of_N x)) (s +:+ tail).
Proof.
  induction (N.lt_wf_0 x) as [x _ IH]. intros s tail Hx.
  rewrite pretty_N_go_step by exact Hx.
  assert (Hdigit := digitOf_pretty_N_char (x `mod` 10)%N
                      (N.mod_lt x 10 ltac:(discriminate))).
  destruct (N.eq_dec (x `div` 10)%N 0%N) as [Hsmall|Hbig].
  - rewrite Hsmall, pretty_N_go_0. simpl. rewrite Hdigit. simpl.
    f_equal. f_equal. apply N.div_small_iff in Hsmall; [|discriminate].
    rewrite N.mod_small by exact Hsmall. reflexivity.
  - rewrite IH; [|apply N.div_lt; [exact Hx|reflexivity]|now apply N.neq_0_lt_0].
    simpl. rewrite Hdigit. simpl. f_equal. f_equal.
    rewrite (N.div_mod x 10) at 3 by discriminate. lia.
Qed.

Lemma spanDigits_pretty_N_go (x : N) : forall s tail,
  HealthValidator.spanDigits (s +:+ tail) = (s, tail) ->
  HealthValidator.spanDigits (pretty_N_go x s +:+ tail) = (pretty_N_go x s, tail).
Proof.
  induction (N.lt_wf_0 x) as [x _ IH]. intros s tail Hs.
  destruct (N.eq_dec x 0%N) as [->|Hx]; [now rewrite pretty_N_go_0|].
  assert (Hpos : (0 < x)%N) by now apply N.neq_0_lt_0.
  rewrite pretty_N_go_step by exact Hpos.
  apply IH; [apply N.div_lt; [exact Hpos|reflexivity]|].
  simpl. rewrite (digitOf_pretty_N_char (x `mod` 10)%N
                    (N.mod_lt x 10 ltac:(discriminate))).
  now rewrite Hs.
Qed.

Lemma pretty_N_go_head (x : N) : forall s,
  (0 < x)%N ->
  exists c rest, pretty_N_go x s = String c rest /\ Js.digitOf c <> None.
Proof.
  induction (N.lt_wf_0 x) as [x _ IH]. intros s Hx.
  rewrite pretty_N_go_step by exact Hx.
  destruct (N.eq_dec (x `div` 10)%N 0%N) as [Hsmall|Hbig].
  - rewrite Hsmall, pretty_N_go_0. do 2 eexists. split; [reflexivity|].
    rewrite (digitOf_pretty_N_char (x `mod` 10)%N (N.mod_lt x 10 ltac:(discriminate))).
    discriminate.
  - apply IH; [apply N.div_lt; [exact Hx|reflexivity]|now apply N.neq_0_lt_0].
Qed.

Lemma parseInt_digit_head c rest :
  Js.digitOf c <> None ->
  Js.parseInt (String c rest) = Js.digitsRun None (String c rest).
Proof.
  intros Hdigit.
  destruct c as [[] [] [] [] [] [] [] []];
    try (exfalso; apply Hdigit; reflexivity); reflexivity.
Qed.

(** The text of a port number that is not negative, as
    [Js.numberToString] prints it, followed by a slash. *)
Lemma port_text (port : Z) tail :
  (0 <= port)%Z ->
  Js.startsWith tail "/" = true ->
  HealthValidator.spanDigits (Js.numberToString port +:+ tail)
  = (Js.numberToString port, tail) /\
  Js.truthyStr (Js.numberToString port) = true /\
  Js.parseInt (Js.numberToString port) = Some port.
Proof.
  intros Hport Htail.
  assert (Hstop : HealthValidator.spanDigits ("" +:+ tail) = ("", tail)).
  { destruct tail as [|c tail]; [discriminate|].
    unfold Js.startsWith in Htail. cbn [String.prefix] in Htail.
    destruct (Ascii.ascii_dec "/" c) as [<-|]; [reflexivity|discriminate]. }
  unfold Js.numberToString, pretty, pretty_Z.
  destruct port as [|p|p]; [| |lia].
  - split; [|split; reflexivity].
    simpl. simpl in Hstop. now rewrite Hstop.
  - unfold pretty, pretty_positive, pretty, pretty_N.
    destruct (decide (N.pos p = 0%N)) as [|_]; [discriminate|].
    destruct (pretty_N_go_head (N.pos p) "" ltac:(lia)) as (c & rest & Hhead & Hdigit).
    split; [apply (spanDigits_pretty_N_go (N.pos p) "" tail Hstop)|].
    split; [now rewrite Hhead|].
    rewrite Hhead, (parseInt_digit_head c rest Hdigit), <- Hhead.
    pose proof (digitsRun_pretty_N_go (N.pos p) "" "" ltac:(lia)) as Hrun.
    assert (Hnil : forall s, s +:+ "" = s)
      by (induction s as [|a s IHs];
          [reflexivity|change (String a (s +:+ "") = String a s); now f_equal]).
    rewrite Hnil in Hrun. rewrite Hrun. reflexivity.
Qed.

Lemma matchPort_localhost (port : Z) :
  (0 <= port)%Z ->
  HealthValidator.matchPort ("http://localhost:" +:+ Js.numberToString port +:+ "/sse")
  = Some (Js.numberToString port).
Proof.
  intros Hport.
  destruct (port_text port "/sse" Hport eq_refl) as (Hspan & Htruthy & _).
  remember (Js.numberToString port) as text.
  change ("http://localhost:" +:+ text +:+ "/sse")
    with (String "h" (String "t" (String "t" (String "p" (String ":" (String "/" (String "/" (String "l" (String "o" (String "c" (String "a" (String "l" (String "h" (String "o" (String "s" (String "t" (String ":" (text +:+ "/sse")))))))))))))))))).
  cbn. rewrite Hspan, Htruthy. reflexivity.
Qed.

Section PortLaws.
Context `{Host}.

Lemma loadState_reads (w : World) state :
  stateFile w = Some (Doc state) ->
  fault (oracle w) KExists StateDir = None ->
  fault (oracle w) KMkdir StateDir = None ->
  fault (oracle w) KExists StateFilePath = None ->
  fault (oracle w) KRead StateFilePath = None ->
  exists w', State.loadState w = (Returned state, w') /\ onlyDir w w'.
Proof.
  intros Hfile F1 F2 F3 F4.
  unfoldM. destruct w as [o dir sf cf d iss asked]; simpl in *. subst sf.
  rewrite F1. destruct dir; simpl.
  all: repeat (first [rewrite F1 | rewrite F2 | rewrite F3 | rewrite F4]; simpl).
  all: eexists; (split; [reflexivity|]).
  all: first [left; reflexivity | right; reflexivity].
Qed.

Lemma portFromState_recorded state serverName entry (port : Z) :
  State.getServerState state serverName = Some entry ->
  McpState.endpoint entry = "http://localhost:" +:+ Js.numberToString port +:+ "/sse" ->
  (0 <= port)%Z ->
  HealthValidator.portFromState state serverName = Some port.
Proof.
  intros Hentry Hendpoint Hport.
  unfold HealthValidator.portFromState. rewrite Hentry, Hendpoint.
  rewrite (matchPort_localhost port Hport).
  destruct (port_text port "/sse" Hport eq_refl) as (_ & _ & Hparse).
  rewrite Hparse. reflexivity.
Qed.

(** X19.  The port a server was started on is the port it is checked on.
    Let the state file have an entry for the server and the file-system
    calls on it go through.  After [handleHttpServerSuccess server port]
    with a positive port, [loadState] finds the server online at
    [http://localhost:<port>/sse], and both the port [validateHttpHealth]
    derives from that state and the one [isServerRunning] derives are
    [port], whatever the server's arguments say. *)
Theorem handleHttpServerSuccess_port_read_back server (port : Z) (w : World) loaded prior :
  (0 < port)%Z ->
  fault (oracle w) KExists StateDir = None ->
  fault (oracle w) KMkdir StateDir = None ->
  fault (oracle w) KWrite StateFilePath = None ->
  fault (oracle w) KExists StateFilePath = None ->
  fault (oracle w) KRead StateFilePath = None ->
  fst (State.loadState w) = Returned (Shaped loaded) ->
  State.getServerState loaded (McpServerConfig.name server) = Some prior ->
  exists w1 state1 w2 entry,
    Orchestrator.handleHttpServerSuccess server port w = (Returned true, w1) /\
    State.loadState w1 = (Returned (Shaped state1), w2) /\
    State.getServerState state1 (McpServerConfig.name server) = Some entry /\
    McpState.online entry = true /\
    McpState.endpoint entry = "http://localhost:" +:+ Js.numberToString port +:+ "/sse" /\
    HealthValidator.portFromState state1 (McpServerConfig.name server) = Some port /\
    HealthValidator.recordedPort server w1 = (Returned (Some port), w2) /\
    HealthValidator.healthPort
      (HealthValidator.portFromState state1 (McpServerConfig.name server)) server = port.
Proof.
  intros Hport F1 F2 F3 F4 F5 Hload Hprior.
  set (endpoint := "http://localhost:" +:+ Js.numberToString port +:+ "/sse").
  destruct (updateAndSaveServerState_returns (McpServerConfig.name server) true
              (Some endpoint) w loaded Hload)
    as (w1 & Hsave & Ho & _ & _ & _ & _ & _ & Hdone).
  specialize (Hdone F1 F2 F3).
  destruct (loadState_reads w1 _ Hdone) as (w2 & Hload1 & _); try (rewrite Ho; assumption).
  set (state1 := McpStateFile.mk _ _) in *.
  assert (Hentry : State.getServerState state1 (McpServerConfig.name server)
                   = Some (McpState.mk (McpState.name prior) endpoint
                             (McpState.envFile prior) true
                             (McpState.manageCursorConfig prior))).
  { change (State.getServerState state1 (McpServerConfig.name server))
      with (State.getServerState
              (State.updateServerStatus loaded (McpServerConfig.name server) true
                 (Some endpoint)) (McpServerConfig.name server)).
    rewrite updateServerStatus_getServerState_at, Hprior. simpl.
    pose proof (find_some _ _ Hprior) as [_ Hn]. simpl in Hn. rewrite Hn.
    reflexivity. }
  assert (Hfrom : HealthValidator.portFromState state1 (McpServerConfig.name server)
                  = Some port)
    by (apply (portFromState_recorded _ _ _ port Hentry); [reflexivity|lia]).
  exists w1, state1, w2. eexists.
  split.
  { unfold Orchestrator.handleHttpServerSuccess. cbv [bind ret].
    fold endpoint. rewrite Hsave. reflexivity. }
  split; [exact Hload1|]. split; [exact Hentry|].
  split; [reflexivity|]. split; [reflexivity|]. split; [exact Hfrom|].
  split.
  { cbv [HealthValidator.recordedPort State.asStateFile tryCatch bind ret].
    rewrite Hload1, Hfrom. reflexivity. }
  unfold HealthValidator.healthPort. rewrite Hfrom.
  destruct (Z.eqb_spec port 0); [lia|reflexivity].
Qed.

(** X20.  [isServerRunning] for an http server whose container is not
    listed as running probes the port recorded in the state file: when the
    loaded state has the server at [http://localhost:<port>/sse], the
    answer is whether that port answers on localhost, whatever the server's
    arguments say. *)
Theorem isServerRunning_probes_recorded_port answers server (w : World) loaded entry
    (port : Z) :
  McpServerConfig.type server = http ->
  listedAsRunning (McpServerConfig.name server) w = false ->
  fst (State.loadState w) = Returned (Shaped loaded) ->
  State.getServerState loaded (McpServerConfig.name server) = Some entry ->
  McpState.endpoint entry = "http://localhost:" +:+ Js.numberToString port +:+ "/sse" ->
  (0 <= port)%Z ->
  exists w',
    Orchestrator.isServerRunning answers server w
    = (Returned (answers "localhost" port), w') /\
    stateFile w' = stateFile w /\ configFiles w' = configFiles w.
Proof.
  intros Htype Hlisted Hload Hentry Hendpoint Hport.
  unfold Orchestrator.isServerRunning. rewrite Htype.
  cbv [tryCatch bind ret State.asStateFile HealthValidator.isPortOpen].
  rewrite isContainerRunning_answer, Hlisted. cbv beta iota.
  rewrite loadState_setDocker.
  destruct (loadState_returns w) as (state & w1 & Hrun & Hdir & _).
  rewrite Hrun in *. simpl in Hload. injection Hload as ->. simpl.
  rewrite (portFromState_recorded _ _ _ port Hentry Hendpoint Hport).
  eexists. split; [reflexivity|].
  destruct Hdir as [->| ->]; split; reflexivity.
Qed.

End PortLaws.

Lemma handleHttpServerSuccess_port_read_back_witness :
  let server := Toy.httpServer "svc" ["--port"; "7777"] in
  exists w1 state1 w2 entry,
    Orchestrator.handleHttpServerSuccess (H := Toy.toyHost) server 9100 Toy.desk
    = (Returned true, w1) /\
    State.loadState w1 = (Returned (Shaped state1), w2) /\
    State.getServerState state1 "svc" = Some entry /\
    McpState.online entry = true /\
    McpState.endpoint entry = "http://localhost:9100/sse" /\
    HealthValidator.portFromState state1 "svc" = Some 9100%Z /\
    HealthValidator.recordedPort server w1 = (Returned (Some 9100%Z), w2) /\
    HealthValidator.healthPort (HealthValidator.portFromState state1 "svc") server
    = 9100%Z.
Proof.
  exact (handleHttpServerSuccess_port_read_back (H := Toy.toyHost)
           (Toy.httpServer "svc" ["--port"; "7777"]) 9100 Toy.desk Toy.svcState
           (McpState.mk "svc" "http://localhost:9001/sse" None true None)
           eq_refl eq_refl eq_refl eq_refl eq_refl eq_refl eq_refl eq_refl).
Defined.

Lemma isServerRunning_probes_recorded_port_witness :
  let answers := fun (_ : string) (port : Z) => (port =? 9001)%Z in
  let w := Toy.world (Some (Doc (Shaped Toy.svcState))) [] [] in
  exists w',
    Orchestrator.isServerRunning (H := Toy.toyHost) answers
      (Toy.httpServer "svc" ["--port"; "7777"]) w
    = (Returned true, w') /\
    stateFile w' = stateFile w /\ configFiles w' = configFiles w.
Proof.
  exact (isServerRunning_probes_recorded_port (H := Toy.toyHost)
           (fun (_ : string) (port : Z) => (port =? 9001)%Z)
           (Toy.httpServer "svc" ["--port"; "7777"])
           (Toy.world (Some (Doc (Shaped Toy.svcState))) [] [])
           Toy.svcState (McpState.mk "svc" "http://localhost:9001/sse" None true None)
           9001 eq_refl eq_refl eq_refl eq_refl eq_refl ltac:(discriminate)).
Defined.

(** X21.  The port of a list of arguments, as the three loops over
    [args] compute it (in [getPortFromArgs], [validateHttpHealth] and
    [isServerRunning]): the value of the first [--port] whose next argument
    parses as an integer.  A [--port] followed by something that does not
    parse is skipped, and so is one in last position. *)
Theorem scanPort_first_parsable args :
  match State.scanPort args with
  | Some port =>
      exists i value,
        args !! i = Some "--port" /\ args !! S i = Some value /\
        Js.parseInt value = Some port /\
        forall j other, (j < i)%nat ->
          args !! j = Some "--port" -> args !! S j = Some other ->
          Js.parseInt other = None
  | None =>
      forall j other,
        args !! j = Some "--port" -> args !! S j = Some other ->
        Js.parseInt other = None
  end.
Proof.
  induction args as [|a rest IH]; [intros j other Hj; discriminate|].
  destruct rest as [|b rest'].
  { simpl. intros [|j] other Hj Hnext; discriminate. }
  change (State.scanPort (a :: b :: rest'))
    with (if String.eqb a "--port" then
            match Js.parseInt b with
            | Some parsedPort => Some parsedPort
            | None => State.scanPort (b :: rest')
            end
          else State.scanPort (b :: rest')).
  destruct (String.eqb_spec a "--port") as [->|Hne].
  - destruct (Js.parseInt b) as [port|] eqn:Hparse.
    + exists 0%nat, b. repeat split; try reflexivity; [exact Hparse|]. intros j other Hj. lia.
    + destruct (State.scanPort (b :: rest')) as [port|].
      * destruct IH as (i & value & Hi & Hnext & Hvalue & Hfirst).
        exists (S i), value. repeat split; try assumption.
        intros [|j] other Hj Hflag Hother.
        -- simpl in Hother. injection Hother as <-. exact Hparse.
        -- apply (Hfirst j other); [lia|exact Hflag|exact Hother].
      * intros [|j] other Hflag Hother.
        -- simpl in Hother. injection Hother as <-. exact Hparse.
        -- apply (IH j other); assumption.
  - destruct (State.scanPort (b :: rest')) as [port|].
    + destruct IH as (i & value & Hi & Hnext & Hvalue & Hfirst).
      exists (S i), value. repeat split; try assumption.
      intros [|j] other Hj Hflag Hother.
      * simpl in Hflag. congruence.
      * apply (Hfirst j other); [lia|exact Hflag|exact Hother].
    + intros [|j] other Hflag Hother.
      * simpl in Hflag. congruence.
      * apply (IH j other); assumption.
Qed.

(** ** Starting an HTTP server *)

Section StartLaws.
Context `{Host}.

Lemma quiet_asked n (w : World) : Quiet [] w (setPortsAsked n w).
Proof. repeat split; try reflexivity. simpl. now rewrite app_nil_r. Qed.

Lemma isContainerRunning_quiet containerName (w : World) :
  exists running w',
    DockerService.isContainerRunning containerName w = (Returned running, w') /\
    Quiet [DockerService.runningCommand containerName] w w'.
Proof.
  rewrite isContainerRunning_answer. do 2 eexists. split; [reflexivity|].
  apply quiet_setDocker.
Qed.

Lemma stopAndRemoveContainer_quiet containerName (w : World) :
  exists ok w' rest,
    DockerService.stopAndRemoveContainer containerName w = (Returned ok, w') /\
    Quiet (DockerService.checkCommand containerName :: rest) w w' /\
    stateDirExists w' = stateDirExists w /\
    (rest = [] \/ rest = [["stop"; containerName]] \/
     rest = [["stop"; containerName]; ["rm"; containerName]]) /\
    (ok = true -> rest = [] \/ rest = [["stop"; containerName]; ["rm"; containerName]]).
Proof.
  cbv [DockerService.stopAndRemoveContainer tryCatch bind runDocker ret].
  destruct (docker (DockerService.checkCommand containerName) (daemon w)) as [[out|] d0];
    simpl.
  2: { do 2 eexists. exists []. split; [reflexivity|]. split; [apply quiet_setDocker|].
       repeat split; auto; discriminate. }
  destruct (String.eqb (Js.trim (stdout out)) ""); simpl.
  { do 2 eexists. exists []. split; [reflexivity|]. split; [apply quiet_setDocker|].
    repeat split; auto. }
  destruct (docker ["stop"; containerName] d0) as [[stopped|] d1]; simpl.
  2: { do 2 eexists. exists [["stop"; containerName]]. split; [reflexivity|].
       split; [unfold Quiet; simpl; rewrite <- app_assoc; repeat split|].
       repeat split; auto; discriminate. }
  destruct (negb (code stopped =? 0)%Z); simpl.
  { do 2 eexists. exists [["stop"; containerName]]. split; [reflexivity|].
    split; [unfold Quiet; simpl; rewrite <- app_assoc; repeat split|].
    repeat split; auto; discriminate. }
  destruct (docker ["rm"; containerName] d1) as [[removed|] d2]; simpl.
  2: { do 2 eexists. exists [["stop"; containerName]; ["rm"; containerName]].
       split; [reflexivity|].
       split; [unfold Quiet; simpl; rewrite <- !app_assoc; repeat split|].
       repeat split; auto. }
  destruct (negb (code removed =? 0)%Z); simpl.
  all: do 2 eexists; exists [["stop"; containerName]; ["rm"; containerName]].
  all: split; [reflexivity|].
  all: (split; [unfold Quiet; simpl; rewrite <- !app_assoc; repeat split|]).
  all: repeat split; auto.
Qed.

Lemma runContainer_quiet options (w : World) :
  exists result w',
    DockerService.runContainer options w = (Returned result, w') /\
    Quiet [DockerService.runContainerArgs options] w w'.
Proof.
  cbv [DockerService.runContainer tryCatch bind runDocker ret].
  destruct (docker (DockerService.runContainerArgs options) (daemon w)) as [[out|] d]; simpl.
  - destruct (negb (code out =? 0)%Z); do 2 eexists; (split; [reflexivity|]);
      apply quiet_setDocker.
  - do 2 eexists. split; [reflexivity|]. apply quiet_setDocker.
Qed.

Lemma printDockerLogs_quiet containerName (w : World) :
  exists w',
    DockerService.printDockerLogs containerName w = (Returned tt, w') /\
    Quiet [["logs"; containerName]] w w'.
Proof.
  cbv [DockerService.printDockerLogs DockerService.getContainerLogs
       tryCatch bind runDocker ret].
  destruct (docker ["logs"; containerName] (daemon w)) as [[out|] d]; simpl.
  - destruct (negb (code out =? 0)%Z); eexists; (split; [reflexivity|]);
      apply quiet_setDocker.
  - eexists. split; [reflexivity|]. apply quiet_setDocker.
Qed.

Lemma waitForPort_returns probes port remaining : forall attempt (w : World),
  exists available,
    Orchestrator.waitForPort probes port attempt remaining w = (Returned available, w).
Proof.
  induction remaining as [|remaining IH]; intros attempt w; simpl.
  - now exists false.
  - cbv [bind HealthValidator.isPortOpen ret].
    destruct (probes attempt "localhost" port); [now exists true|apply IH].
Qed.

Lemma validateServerHealth_quiet server (w : World) :
  McpServerConfig.type server = http ->
  exists healthy w',
    HealthValidator.validateServerHealth server w = (Returned healthy, w') /\
    Quiet [] w w'.
Proof.
  intros Htype.
  destruct (validateServerHealth_returns server w)
    as (healthy & w' & log & Hrun & Hq & Hhttp).
  destruct (Hhttp Htype) as (-> & _).
  exists healthy, w'. split; [exact Hrun|exact Hq].
Qed.

(** [updateAndSaveServerState] saves the loaded state file with the status,
    or throws on a state file without [mcps]. *)
Lemma updateAndSaveServerState_cases serverName isOnline endpoint (w : World) :
  (exists loaded w',
     fst (State.loadState w) = Returned (Shaped loaded) /\
     Orchestrator.updateAndSaveServerState serverName isOnline endpoint w
     = (Returned tt, w') /\
     oracle w' = oracle w /\ configFiles w' = configFiles w /\ issued w' = issued w /\
     (canSave (oracle w) ->
      stateFile w' = savedStatus (oracle w) loaded serverName isOnline endpoint)) \/
  (exists w',
     stateFile w = Some (Doc Shapeless) /\
     Orchestrator.updateAndSaveServerState serverName isOnline endpoint w
     = (Threw OtherError, w') /\
     oracle w' = oracle w /\ configFiles w' = configFiles w /\ issued w' = issued w).
Proof.
  destruct (loadState_returns w) as (state & w1 & Hload & Hw1 & Hcases & _).
  destruct state as [loaded|].
  - left.
    assert (Hloaded : fst (State.loadState w) = Returned (Shaped loaded))
      by (now rewrite Hload).
    destruct (updateAndSaveServerState_returns serverName isOnline endpoint w loaded Hloaded)
      as (w' & Hrun & Ho & Hc & _ & Hi & _ & _ & Hdone).
    exists loaded, w'. repeat split; try assumption.
    intros (F1 & F2 & F3). now apply Hdone.
  - right.
    assert (Hloaded : fst (State.loadState w) = Returned Shapeless)
      by (now rewrite Hload).
    destruct (updateAndSaveServerState_throws serverName isOnline endpoint w Hloaded)
      as (w' & Hrun & Hdir).
    exists w'. split; [destruct Hcases as [?|?]; [discriminate|assumption]|].
    split; [exact Hrun|]. destruct Hdir as [->| ->]; repeat split.
Qed.

(** What [handleHttpServerFailure] does: the logs, the removal, then the
    state saved with the server offline, unless that throws. *)
Lemma handleHttpServerFailure_runs server (w : World) :
  exists result w' rest,
    Orchestrator.handleHttpServerFailure server w = (result, w') /\
    oracle w' = oracle w /\ configFiles w' = configFiles w /\
    issued w' = issued w ++ ["logs"; McpServerConfig.name server]
                  :: DockerService.checkCommand (McpServerConfig.name server) :: rest /\
    (forall cmd, In cmd rest -> hd_error cmd <> Some "run") /\
    (result = Returned false \/
     result = Threw OtherError /\ stateFile w = Some (Doc Shapeless)).
Proof.
  cbv [Orchestrator.handleHttpServerFailure bind ret].
  destruct (printDockerLogs_quiet (McpServerConfig.name server) w)
    as (w1 & -> & Ho1 & Hs1 & Hc1 & Hi1).
  destruct (stopAndRemoveContainer_quiet (McpServerConfig.name server) w1)
    as (ok & w2 & rest & -> & (Ho2 & Hs2 & Hc2 & Hi2) & _ & Hrest & _).
  assert (Hnorun : forall cmd, In cmd rest -> hd_error cmd <> Some "run").
  { intros cmd Hin.
    destruct Hrest as [->|[->| ->]]; simpl in Hin;
      repeat destruct Hin as [<-|Hin]; try discriminate; contradiction. }
  destruct (updateAndSaveServerState_cases (McpServerConfig.name server) false None w2)
    as [(loaded & w3 & _ & -> & Ho3 & Hc3 & Hi3 & _)
       |(w3 & Hshapeless & -> & Ho3 & Hc3 & Hi3)].
  - exists (Returned false), w3, rest. split; [reflexivity|].
    split; [congruence|]. split; [congruence|]. split.
    + rewrite Hi3, Hi2, Hi1, <- app_assoc. reflexivity.
    + split; [exact Hnorun|now left].
  - exists (Threw OtherError), w3, rest. split; [reflexivity|].
    split; [congruence|]. split; [congruence|]. split.
    + rewrite Hi3, Hi2, Hi1, <- app_assoc. reflexivity.
    + split; [exact Hnorun|right; split; [reflexivity|congruence]].
Qed.

(** What [handleHttpServerSuccess] does: the state saved with the server
    online at the port, unless that throws. *)
Lemma handleHttpServerSuccess_runs server port (w : World) :
  let endpoint := "http://localhost:" +:+ Js.numberToString port +:+ "/sse" in
  (exists loaded w',
     fst (State.loadState w) = Returned (Shaped loaded) /\
     Orchestrator.handleHttpServerSuccess server port w = (Returned true, w') /\
     oracle w' = oracle w /\ configFiles w' = configFiles w /\ issued w' = issued w /\
     (canSave (oracle w) ->
      stateFile w'
      = savedStatus (oracle w) loaded (McpServerConfig.name server) true (Some endpoint))) \/
  (exists w',
     stateFile w = Some (Doc Shapeless) /\
     Orchestrator.handleHttpServerSuccess server port w = (Threw OtherError, w') /\
     oracle w' = oracle w /\ configFiles w' = configFiles w /\ issued w' = issued w).
Proof.
  intros endpoint.
  cbv [Orchestrator.handleHttpServerSuccess bind ret]. fold endpoint.
  destruct (updateAndSaveServerState_cases (McpServerConfig.name server) true
              (Some endpoint) w)
    as [(loaded & w1 & Hload & -> & Hrest)|(w1 & Hshapeless & -> & Hrest)].
  - left. exists loaded, w1. split; [exact Hload|]. split; [reflexivity|exact Hrest].
  - right. exists w1. split; [exact Hshapeless|]. split; [reflexivity|exact Hrest].
Qed.

Lemma only_run (before after : list (list string)) x cmd :
  (forall c, In c before -> hd_error c <> Some "run") ->
  (forall c, In c after -> hd_error c <> Some "run") ->
  In cmd (before ++ x :: after) -> hd_error cmd = Some "run" -> cmd = x.
Proof.
  intros Hbefore Hafter Hin Hrun.
  apply in_app_or in Hin as [Hin|[Hin|Hin]]; [|now symmetry|].
  - now destruct (Hbefore cmd Hin).
  - now destruct (Hafter cmd Hin).
Qed.

Lemma runContainerArgs_head options :
  hd_error (DockerService.runContainerArgs options) = Some "run".
Proof.
  destruct (runContainerArgs_shape options) as (before & after & ->). reflexivity.
Qed.

(** After a health check that passed, [handleHttpServerSuccess] ends the
    launch. *)
Lemma launched_healthy server port (w w1 w2 : World) log :
  McpServerConfig.type server = http ->
  Quiet log w w1 ->
  HealthValidator.validateServerHealth server w1 = (Returned true, w2) ->
  exists result w',
    Orchestrator.handleHttpServerSuccess server port w2 = (result, w') /\
    Launched server port w result w' log.
Proof.
  intros Htype Hq Hv.
  destruct (validateServerHealth_quiet server w1 Htype) as (healthy & w2' & Hv' & Hq2).
  rewrite Hv in Hv'. injection Hv' as <- <-.
  pose proof (quiet_trans _ _ _ _ _ Hq Hq2) as Hq12. rewrite app_nil_r in Hq12.
  destruct Hq12 as (Ho2 & Hs2 & Hc2 & Hi2).
  destruct (handleHttpServerSuccess_runs server port w2)
    as [(loaded & w3 & Hload & Hs & Ho & Hc & Hi & Hsaved)
       |(w3 & Hshapeless & Hs & Ho & Hc & Hi)].
  - exists (Returned true), w3. split; [exact Hs|].
    split; [congruence|]. split; [congruence|]. split; [congruence|].
    exists w1, w2, loaded. split; [exact Hq|]. split; [exact Hv|].
    split; [exact Hload|]. split; [exact Hs|].
    rewrite <- Ho2. exact Hsaved.
  - exists (Threw OtherError), w3. split; [exact Hs|].
    split; [congruence|]. split; [congruence|]. split; [congruence|].
    cbn. congruence.
Qed.

Lemma launched_unhealthy server port (w w1 w2 : World) log :
  McpServerConfig.type server = http ->
  Quiet log w w1 ->
  HealthValidator.validateServerHealth server w1 = (Returned false, w2) ->
  (forall cmd, In cmd log -> hd_error cmd <> Some "run") ->
  Launched server port w (Returned false) w2 log.
Proof.
  intros Htype Hq Hv Hnorun.
  destruct (validateServerHealth_quiet server w1 Htype) as (healthy & w2' & Hv' & Hq2).
  rewrite Hv in Hv'. injection Hv' as <- <-.
  pose proof (quiet_trans _ _ _ _ _ Hq Hq2) as Hq12. rewrite app_nil_r in Hq12.
  destruct Hq12 as (Ho2 & _ & Hc2 & Hi2).
  split; [exact Ho2|]. split; [exact Hc2|]. split; [exact Hi2|].
  intros cmd Hin Hrun. now destruct (Hnorun cmd Hin).
Qed.

Lemma launched_failed server port (w w1 : World) before run :
  Quiet (before ++ [run]) w w1 ->
  (forall cmd, In cmd before -> hd_error cmd <> Some "run") ->
  exists result w' log,
    Orchestrator.handleHttpServerFailure server w1 = (result, w') /\
    Launched server port w result w' log.
Proof.
  intros (Ho1 & Hs1 & Hc1 & Hi1) Hnorun.
  set (name := McpServerConfig.name server).
  destruct (handleHttpServerFailure_runs server w1)
    as (result & w2 & rest & Hf & Ho2 & Hc2 & Hi2 & Hrest & Hresult).
  exists result, w2,
    (before ++ run :: ["logs"; name] :: DockerService.checkCommand name :: rest).
  split; [exact Hf|]. split; [congruence|]. split; [congruence|]. split.
  { rewrite Hi2, Hi1, <- !app_assoc. reflexivity. }
  destruct Hresult as [->|(-> & Hshapeless)]; [|cbn; congruence].
  intros cmd Hin Hrun.
  assert (cmd = run) as ->.
  { apply (only_run before
             (["logs"; name] :: DockerService.checkCommand name :: rest) run cmd);
      try assumption.
    intros c [<-|[<-|Hc]]; try discriminate. now apply Hrest. }
  exists before, rest. reflexivity.
Qed.

(** The course of [startHttpServer] once the port is known. *)
Lemma launchHttpServer_anatomy probes server port (w : World) :
  McpServerConfig.type server = http ->
  exists result w' log,
    Orchestrator.launchHttpServer probes server port w = (result, w') /\
    Launched server port w result w' log.
Proof.
  intros Htype.
  set (name := McpServerConfig.name server).
  cbv [Orchestrator.launchHttpServer Orchestrator.checkServerHealth bind ret
       HealthValidator.isPortOpen].
  fold name.
  destruct (probes 0%nat "localhost" port); cbv beta iota.
  { destruct (validateServerHealth_quiet server w Htype) as (healthy & w1 & Hv & _).
    rewrite Hv. cbv beta iota. destruct healthy.
    - destruct (launched_healthy server port w w w1 [] Htype (quiet_refl w) Hv)
        as (result & w' & Hs & HL).
      exists result, w', []. split; [exact Hs|exact HL].
    - exists (Returned false), w1, []. split; [reflexivity|].
      apply (launched_unhealthy server port w w w1 [] Htype (quiet_refl w) Hv).
      intros cmd []. }
  destruct (isContainerRunning_quiet name w) as (running & w1 & Hps & Hq1).
  rewrite Hps. cbv beta iota.
  destruct running.
  { destruct (validateServerHealth_quiet server w1 Htype) as (healthy & w2 & Hv & _).
    rewrite Hv. cbv beta iota. destruct healthy.
    - destruct (launched_healthy server port w w1 w2 _ Htype Hq1 Hv)
        as (result & w' & Hs & HL).
      exists result, w', [DockerService.runningCommand name]. split; [exact Hs|exact HL].
    - exists (Returned false), w2, [DockerService.runningCommand name].
      split; [reflexivity|].
      apply (launched_unhealthy server port w w1 w2 _ Htype Hq1 Hv).
      intros cmd [<-|[]]. discriminate. }
  destruct (stopAndRemoveContainer_quiet name w1)
    as (ok & w2 & rest & Hstop & Hq2 & _ & Hrest & _).
  rewrite Hstop. cbv beta iota.
  match goal with
  | |- context [DockerService.runContainer ?options w2] =>
      set (containerConfig := options);
      destruct (runContainer_quiet containerConfig w2) as (result & w3 & Hlaunch & Hq3)
  end.
  rewrite Hlaunch. cbv beta iota.
  set (before := DockerService.runningCommand name
                   :: DockerService.checkCommand name :: rest).
  assert (Hq : Quiet (before ++ [DockerService.runContainerArgs containerConfig]) w w3)
    by exact (quiet_trans _ _ _ _ _ (quiet_trans _ _ _ _ _ Hq1 Hq2) Hq3).
  assert (Hnorun : forall cmd, In cmd before -> hd_error cmd <> Some "run").
  { intros cmd [<-|[<-|Hin]]; try discriminate.
    destruct Hrest as [->|[->| ->]]; simpl in Hin;
      repeat destruct Hin as [<-|Hin]; try discriminate; contradiction. }
  assert (Hfailure : forall w4 : World,
            Quiet [] w3 w4 ->
            exists outcome w' log,
              Orchestrator.handleHttpServerFailure server w4 = (outcome, w') /\
              Launched server port w outcome w' log).
  { intros w4 Hq4.
    pose proof (quiet_trans _ _ _ _ _ Hq Hq4) as Hq'. rewrite app_nil_r in Hq'.
    exact (launched_failed server port w w4 before _ Hq' Hnorun). }
  destruct (DockerService.success result); cbn [negb]; cbv beta iota.
  2: { apply Hfailure, quiet_refl. }
  destruct (waitForPort_returns probes port 10 1 w3) as (available & Hwait).
  rewrite Hwait. cbv beta iota.
  destruct available; cbn [negb]; cbv beta iota.
  2: { apply Hfailure, quiet_refl. }
  destruct (validateServerHealth_quiet server w3 Htype) as (healthy & w4 & Hv & Hq4).
  rewrite Hv. cbv beta iota.
  destruct healthy; cbn [negb]; cbv beta iota.
  2: { apply Hfailure, Hq4. }
  destruct (launched_healthy server port w w3 w4 _ Htype Hq Hv) as (outcome & w' & Hs & HL).
  exists outcome, w', (before ++ [DockerService.runContainerArgs containerConfig]).
  split; [exact Hs|exact HL].
Qed.

Lemma getPortFromArgs_returns args (w : World) :
  Orchestrator.getPortFromArgs args true w
  = match State.scanPort args with
    | Some port => (Returned (Some port), w)
    | None => (Returned (availablePort (oracle w) (portsAsked w)),
               setPortsAsked (S (portsAsked w)) w)
    end.
Proof.
  cbv [Orchestrator.getPortFromArgs Orchestrator.getAvailablePort
       tryCatch bind ret throw ask].
  destruct (State.scanPort args); [reflexivity|].
  destruct (availablePort (oracle w) (portsAsked w)); reflexivity.
Qed.

(** The course of [startHttpServer]: either it gives up before launching,
    or it completes the arguments and launches; an exception of the launch
    is answered by false. *)
Lemma startHttpServer_anatomy probes server (w : World) :
  (exists w0,
     Orchestrator.startHttpServer probes server w = (Returned (false, server), w0) /\
     Quiet [] w w0 /\ (McpServerConfig.type server = stdio -> w0 = w)) \/
  exists port result w0 w' log,
    let completed :=
      if Orchestrator.portSpecifiedInArgs (McpServerConfig.args server) then server
      else Orchestrator.withArgs server
             (McpServerConfig.args server ++ ["--port"; Js.numberToString port]) in
    McpServerConfig.type server = http /\
    port <> 0%Z /\
    match State.scanPort (McpServerConfig.args server) with
    | Some fromArgs => port = fromArgs
    | None => availablePort (oracle w) (portsAsked w) = Some port
    end /\
    Quiet [] w w0 /\
    Orchestrator.launchHttpServer probes completed port w0 = (result, w') /\
    Launched completed port w0 result w' log /\
    Orchestrator.startHttpServer probes server w
    = (Returned (match result with Returned started => started | Threw _ => false end,
                 completed), w').
Proof.
  unfold Orchestrator.startHttpServer.
  destruct (McpServerConfig.type server) eqn:Htype.
  2: { left. exists w. split; [reflexivity|]. split; [apply quiet_refl|reflexivity]. }
  cbv [tryCatch bind]. rewrite getPortFromArgs_returns.
  set (w0 := match State.scanPort (McpServerConfig.args server) with
             | Some _ => w
             | None => setPortsAsked (S (portsAsked w)) w
             end).
  set (chosen := match State.scanPort (McpServerConfig.args server) with
                 | Some port => Some port
                 | None => availablePort (oracle w) (portsAsked w)
                 end).
  assert (Hq0 : Quiet [] w w0).
  { subst w0. destruct (State.scanPort (McpServerConfig.args server));
      [apply quiet_refl|apply quiet_asked]. }
  assert (Hsplit : match State.scanPort (McpServerConfig.args server) with
                   | Some port => (Returned (Some port), w)
                   | None => (Returned (availablePort (oracle w) (portsAsked w)),
                              setPortsAsked (S (portsAsked w)) w)
                   end = (Returned chosen, w0)).
  { subst chosen w0. now destruct (State.scanPort (McpServerConfig.args server)). }
  rewrite Hsplit. cbv beta iota.
  assert (Hchosen : forall port, chosen = Some port ->
            match State.scanPort (McpServerConfig.args server) with
            | Some fromArgs => port = fromArgs
            | None => availablePort (oracle w) (portsAsked w) = Some port
            end).
  { subst chosen. intros port.
    destruct (State.scanPort (McpServerConfig.args server)); congruence. }
  clearbody chosen w0.
  destruct chosen as [port|].
  2: { left. exists w0. split; [reflexivity|]. split; [exact Hq0|discriminate]. }
  destruct (Z.eqb_spec port 0) as [|Hport].
  { left. exists w0. split; [reflexivity|]. split; [exact Hq0|discriminate]. }
  right. cbv beta iota zeta.
  match goal with
  | |- context [Orchestrator.launchHttpServer probes ?c port w0] => set (completed := c)
  end.
  assert (Htype' : McpServerConfig.type completed = http).
  { subst completed.
    destruct (Orchestrator.portSpecifiedInArgs (McpServerConfig.args server));
      [exact Htype|exact Htype]. }
  destruct (launchHttpServer_anatomy probes completed port w0 Htype')
    as (result & w' & log & Hrun & HL).
  exists port, result, w0, w', log. cbv zeta. fold completed.
  split; [reflexivity|]. split; [exact Hport|]. split; [now apply Hchosen|].
  split; [exact Hq0|]. split; [exact Hrun|]. split; [exact HL|].
  cbv [ret]. rewrite Hrun. destruct result; reflexivity.
Qed.

(** X22.  [startHttpServer] never throws and never touches an IDE file.
    For a stdio server it returns false and does nothing.  The server
    object it leaves is the one it was given, except that when no [--port]
    stands in the arguments before the last position, [--port <port>] may
    have been appended for the port it chose. *)
Theorem startHttpServer_never_raises probes server (w : World) :
  exists started server' w' log,
    Orchestrator.startHttpServer probes server w = (Returned (started, server'), w') /\
    oracle w' = oracle w /\ configFiles w' = configFiles w /\
    issued w' = issued w ++ log /\
    (server' = server \/
     Orchestrator.portSpecifiedInArgs (McpServerConfig.args server) = false /\
     exists port,
       server' = Orchestrator.withArgs server
                   (McpServerConfig.args server ++ ["--port"; Js.numberToString port])) /\
    (McpServerConfig.type server = stdio -> started = false /\ server' = server /\ w' = w).
Proof.
  destruct (startHttpServer_anatomy probes server w)
    as [(w0 & Hrun & (Ho & _ & Hc & Hi) & Hstdio)
       |(port & result & w0 & w' & log & Htype & _ & _ & (Ho0 & _ & Hc0 & Hi0)
         & _ & HL & Hrun)].
  - exists false, server, w0, []. split; [exact Hrun|].
    repeat split; auto.
  - cbv zeta in Hrun, HL. destruct HL as (Ho & Hc & Hi & _).
    eexists _, _, w', log. split; [exact Hrun|].
    split; [congruence|]. split; [congruence|]. split.
    { rewrite Hi, Hi0, app_nil_r. reflexivity. }
    split.
    + destruct (Orchestrator.portSpecifiedInArgs (McpServerConfig.args server));
        [now left|right; split; [reflexivity|now exists port]].
    + intros Hstdio. congruence.
Qed.

(** X23.  [startHttpServer] reports success only for a server that passed
    its health check, and what it records then is what the state file had:
    when it returns true, the port is not zero and is the one of the
    arguments (or, without one, the free port the host offered);
    [validateServerHealth] answered true for the server with its completed
    arguments, in a world that differs from the initial one by [docker]
    commands, the creation of [data/] and the call for a free port only;
    the state loaded after that was a state file; and the last step was
    [handleHttpServerSuccess] for that port.  When the three file-system
    calls of [saveState] go through, the state file then holds the loaded
    state updated by [updateServerStatus]: every entry of the server's name
    online at [http://localhost:<port>/sse], no entry added. *)
Theorem startHttpServer_true_means_healthy probes server (w : World) :
  exists started server' w',
    Orchestrator.startHttpServer probes server w = (Returned (started, server'), w') /\
    (started = true ->
     exists port log wh ws loaded,
       McpServerConfig.type server = http /\
       port <> 0%Z /\
       match State.scanPort (McpServerConfig.args server) with
       | Some fromArgs => port = fromArgs
       | None => availablePort (oracle w) (portsAsked w) = Some port
       end /\
       Quiet log w wh /\
       HealthValidator.validateServerHealth server' wh = (Returned true, ws) /\
       fst (State.loadState ws) = Returned (Shaped loaded) /\
       Orchestrator.handleHttpServerSuccess server' port ws = (Returned true, w') /\
       (canSave (oracle w) ->
        stateFile w'
        = savedStatus (oracle w) loaded (McpServerConfig.name server) true
            (Some ("http://localhost:" +:+ Js.numberToString port +:+ "/sse")) /\
        (State.getServerState loaded (McpServerConfig.name server) = None ->
         stateFile w'
         = Some (Doc (Shaped (McpStateFile.mk (McpStateFile.mcps loaded)
                                (Some (now (oracle w))))))))).
Proof.
  destruct (startHttpServer_anatomy probes server w)
    as [(w0 & Hrun & _)
       |(port & result & w0 & w' & log & Htype & Hport & Hchosen & Hq0 & _ & HL & Hrun)].
  - exists false, server, w0. split; [exact Hrun|discriminate].
  - cbv zeta in Hrun, HL. destruct HL as (_ & _ & _ & Hresult).
    eexists _, _, w'. split; [exact Hrun|].
    intros Hstarted. destruct result as [[|]|e]; try discriminate.
    destruct Hresult as (wh & ws & loaded & Hq & Hv & Hload & Hs & Hsaved).
    exists port, log, wh, ws, loaded.
    split; [exact Htype|]. split; [exact Hport|]. split; [exact Hchosen|].
    split; [exact (quiet_trans _ _ _ _ _ Hq0 Hq)|]. split; [exact Hv|].
    split; [exact Hload|]. split; [exact Hs|].
    destruct Hq0 as (Ho0 & _).
    assert (Hname : McpServerConfig.name
                      (if Orchestrator.portSpecifiedInArgs (McpServerConfig.args server)
                       then server
                       else Orchestrator.withArgs server
                              (McpServerConfig.args server
                                 ++ ["--port"; Js.numberToString port]))
                    = McpServerConfig.name server)
      by (now destruct (Orchestrator.portSpecifiedInArgs (McpServerConfig.args server))).
    rewrite Hname, Ho0 in Hsaved.
    intros Hcan. split; [exact (Hsaved Hcan)|].
    intros Hnone. rewrite (Hsaved Hcan). unfold savedStatus. do 4 f_equal.
    apply (updateServerStatus_unknown_entries _ _ _ _ Hnone).
Qed.


End StartLaws.

Lemma parseInt_numberToString (port : Z) : Js.parseInt (Js.numberToString port) = Some port.
Proof.
  destruct (Z.le_gt_cases 0 port) as [Hport|Hport].
  - now destruct (port_text port "/" Hport eq_refl) as (_ & _ & Hparse).
  - destruct port as [|p|p]; try lia.
    destruct (port_text (Z.pos p) "/" ltac:(lia) eq_refl) as (_ & _ & Hparse).
    unfold Js.numberToString, pretty, pretty_Z in *.
    change (Js.parseInt ("-" +:+ pretty p)) with (Z.opp <$> Js.digitsRun None (pretty p)).
    unfold pretty, pretty_positive, pretty, pretty_N in *.
    destruct (decide (N.pos p = 0%N)) as [|_]; [discriminate|].
    destruct (pretty_N_go_head (N.pos p) "" ltac:(lia)) as (c & rest & Hhead & Hdigit).
    rewrite Hhead, (parseInt_digit_head c rest Hdigit) in Hparse.
    rewrite Hhead, Hparse. reflexivity.
Qed.

(** X25.  The arguments completed by [startHttpServer] name the port:
    when no [--port] stands in [args] before the last position, appending
    [--port <port>] gives arguments whose port, as the loops over the
    arguments compute it, is [port], and in which [--port] is now found, so
    that nothing is appended a second time. *)
Theorem completed_args_name_the_port args (port : Z) :
  Orchestrator.portSpecifiedInArgs args = false ->
  State.scanPort (args ++ ["--port"; Js.numberToString port]) = Some port /\
  Orchestrator.portSpecifiedInArgs (args ++ ["--port"; Js.numberToString port]) = true.
Proof.
  induction args as [|a rest IH]; intros Hnone.
  - simpl. rewrite parseInt_numberToString. split; reflexivity.
  - destruct rest as [|b rest'].
    + change (State.scanPort ([a] ++ ["--port"; Js.numberToString port]))
        with (if String.eqb a "--port" then
                match Js.parseInt "--port" with
                | Some parsedPort => Some parsedPort
                | None => State.scanPort ["--port"; Js.numberToString port]
                end
              else State.scanPort ["--port"; Js.numberToString port]).
      change (Js.parseInt "--port") with (@None Z).
      simpl. rewrite parseInt_numberToString.
      split; [now destruct (String.eqb a "--port")|apply orb_true_r].
    + simpl in Hnone. apply orb_false_iff in Hnone as [Ha Hrest].
      specialize (IH Hrest).
      change (State.scanPort ((a :: b :: rest') ++ ["--port"; Js.numberToString port]))
        with (if String.eqb a "--port" then
                match Js.parseInt b with
                | Some parsedPort => Some parsedPort
                | None => State.scanPort ((b :: rest') ++ ["--port"; Js.numberToString port])
                end
              else State.scanPort ((b :: rest') ++ ["--port"; Js.numberToString port])).
      rewrite Ha. split; [apply IH|].
      change (Orchestrator.portSpecifiedInArgs
                ((a :: b :: rest') ++ ["--port"; Js.numberToString port]))
        with (String.eqb a "--port"
              || Orchestrator.portSpecifiedInArgs
                   ((b :: rest') ++ ["--port"; Js.numberToString port])).
      rewrite Ha. apply IH.
Qed.

Lemma completed_args_name_the_port_witness :
  State.scanPort (["--verbose"; "--port"] ++ ["--port"; Js.numberToString 9500])
  = Some 9500%Z /\
  Orchestrator.portSpecifiedInArgs
    (["--verbose"; "--port"] ++ ["--port"; Js.numberToString 9500]) = true.
Proof.
  exact (completed_args_name_the_port ["--verbose"; "--port"] 9500 eq_refl).
Defined.

(** ** The start of an HTTP server, run *)

(** A server without [--port] whose container is already running: the free
    port is taken, the arguments are completed, the health check passes and
    the state records the server online at that port. *)
Example startHttpServer_records_the_port :
  let '(result, w') :=
    Orchestrator.startHttpServer (fun _ _ _ => false) (Toy.httpServer "svc" []) Toy.desk in
  result = Returned (true, Toy.httpServer "svc" ["--port"; "9500"]) /\
  issued w' = [DockerService.runningCommand "svc"] /\
  stateFile w'
  = Some (Doc (Shaped (McpStateFile.mk
                         [McpState.mk "svc" "http://localhost:9500/sse" None true None]
                         (Some "2025-01-01T00:00:00.000Z")))).
Proof. vm_compute. repeat split; reflexivity. Qed.

(** The same start for a server the state file has no entry of: the result
    is true, and the state that is saved has no entry for the server. *)
Example startHttpServer_records_nothing_without_entry :
  let '(result, w') :=
    Orchestrator.startHttpServer (fun _ _ _ => false) (Toy.httpServer "svc" [])
      (Toy.world None [] ["svc"]) in
  result = Returned (true, Toy.httpServer "svc" ["--port"; "9500"]) /\
  stateFile w'
  = Some (Doc (Shaped (McpStateFile.mk [] (Some "2025-01-01T00:00:00.000Z")))).
Proof. vm_compute. repeat split; reflexivity. Qed.


(** A server whose port never answers: after [docker run] come the logs
    and the removal, and the state records the server offline. *)
Example startHttpServer_cleans_up :
  let '(result, w') :=
    Orchestrator.startHttpServer (fun _ _ _ => false)
      (Toy.httpServer "svc" ["--port"; "8123"])
      (Toy.world (Some (Doc (Shaped Toy.svcState))) [] []) in
  result = Returned (false, Toy.httpServer "svc" ["--port"; "8123"]) /\
  issued w'
  = [DockerService.runningCommand "svc";
     DockerService.checkCommand "svc";
     ["run"; "-d"; "--name"; "svc"; "-p"; "8123:8123"; "--env-file";
      "/workspace/servers/config/svc.env"; "img"; "--port"; "8123"];
     ["logs"; "svc"];
     DockerService.checkCommand "svc"; ["stop"; "svc"]; ["rm"; "svc"]] /\
  daemon w' = [] /\
  stateFile w'
  = Some (Doc (Shaped (McpStateFile.mk
                         [McpState.mk "svc" "http://localhost:9001/sse" None false None]
                         (Some "2025-01-01T00:00:00.000Z")))).
Proof. vm_compute. repeat split; reflexivity. Qed.

(** On a state file that holds [{}], a launch that went well ends in the
    exception of [updateServerStatus]: [startHttpServer] returns false from
    its [catch], and the container it started is left running, with
    [docker run] as the last command. *)
Example startHttpServer_on_shapeless_state :
  let '(result, w') :=
    Orchestrator.startHttpServer (fun attempt _ _ => (0 <? attempt)%nat)
      (Toy.httpServer "svc" ["--port"; "8123"])
      (Toy.world (Some (Doc Shapeless)) [] []) in
  result = Returned (false, Toy.httpServer "svc" ["--port"; "8123"]) /\
  issued w'
  = [DockerService.runningCommand "svc";
     DockerService.checkCommand "svc";
     ["run"; "-d"; "--name"; "svc"; "-p"; "8123:8123"; "--env-file";
      "/workspace/servers/config/svc.env"; "img"; "--port"; "8123"]] /\
  daemon w' = ["svc"] /\
  stateFile w' = Some (Doc Shapeless).
Proof. vm_compute. repeat split; reflexivity. Qed.

(** ** Stopping a server and the IDE file *)

Section StopWrites.
Context `{Host}.



End StopWrites.


(** On a state file that holds [{}], the container is stopped and removed,
    [updateServerStatus] throws, and [stopServer] returns false without
    having touched the IDE file. *)
Example stopServer_on_shapeless_state :
  let w := Toy.world (Some (Doc Shapeless)) [(Toy.configPath, Doc (JObj Toy.ideFields))]
             ["svc"] in
  let '(result, w') := Orchestrator.stopServer (Toy.httpServer "svc" []) w in
  result = Returned false /\
  daemon w' = [] /\
  issued w' = [DockerService.checkCommand "svc"; ["stop"; "svc"]; ["rm"; "svc"]] /\
  stateFile w' = Some (Doc Shapeless) /\
  configFiles w' = configFiles w.
Proof. vm_compute. repeat split; reflexivity. Qed.

(** On the desk, where the IDE file has no entry for [svc]: the container
    is stopped and removed, the state records [svc] offline, and the IDE
    file now lists [svc]. *)
Example stopServer_on_the_desk :
  let '(result, w') := Orchestrator.stopServer (Toy.httpServer "svc" []) Toy.desk in
  result = Returned true /\
  daemon w' = [] /\
  issued w' = [DockerService.checkCommand "svc"; ["stop"; "svc"]; ["rm"; "svc"]] /\
  stateFile w'
  = Some (Doc (Shaped (McpStateFile.mk
                         [McpState.mk "svc" "http://localhost:9001/sse" None false None]
                         (Some "2025-01-01T00:00:00.000Z")))) /\
  configFiles w' !! Toy.configPath
  = Some (Doc (JObj [("theme", JStr "dark");
                     ("mcpServers",
                      JObj [("other", JObj [("url", JStr "http://localhost:7000/sse")]);
                            ("svc", JObj [("url", JStr "http://localhost:9001/sse")])])])).
Proof. vm_compute. repeat split; reflexivity. Qed.

(** ** The list of enabled servers *)

Lemma split_nonempty sep s : Js.split sep s <> [].
Proof.
  destruct s as [|c rest]; simpl; [discriminate|].
  destruct (Ascii.eqb c sep); [discriminate|].
  destruct (Js.split sep rest); discriminate.
Qed.

Lemma split_item item rest :
  commaFree item = true ->
  Js.split "," (item +:+ String "," rest) = item :: Js.split "," rest.
Proof.
  induction item as [|c item IH]; intros Hfree.
  - reflexivity.
  - unfold commaFree in Hfree. simpl in Hfree.
    apply andb_true_iff in Hfree as [Hc Hfree].
    change (String c item +:+ String "," rest) with (String c (item +:+ String "," rest)).
    cbn [Js.split]. destruct (Ascii.eqb c ","); [discriminate|].
    rewrite (IH Hfree). reflexivity.
Qed.

Lemma split_last item :
  commaFree item = true -> Js.split "," item = [item].
Proof.
  induction item as [|c item IH]; intros Hfree; [reflexivity|].
  unfold commaFree in Hfree. simpl in Hfree.
  apply andb_true_iff in Hfree as [Hc Hfree].
  cbn [Js.split]. destruct (Ascii.eqb c ","); [discriminate|].
  rewrite (IH Hfree). reflexivity.
Qed.

(** Splitting at the commas undoes joining with commas. *)
Lemma split_concat items :
  items <> [] ->
  Forall (fun item => commaFree item = true) items ->
  Js.split "," (String.concat "," items) = items.
Proof.
  induction items as [|item rest IH]; intros Hne Hfree; [contradiction|].
  apply Forall_cons in Hfree as [Hitem Hrest].
  destruct rest as [|next rest'].
  - simpl. now apply split_last.
  - change (String.concat "," (item :: next :: rest'))
      with (item +:+ String "," (String.concat "," (next :: rest'))).
    rewrite (split_item _ _ Hitem), IH; [reflexivity|discriminate|exact Hrest].
Qed.

Lemma existsb_filter_trimmed (name : string) items :
  existsb (String.eqb name)
    (List.filter (fun server => (0 <? String.length server)%nat) (map Js.trim items))
  = negb (String.eqb name "") && existsb (fun item => String.eqb (Js.trim item) name) items.
Proof.
  induction items as [|item rest IH]; cbn [map List.filter existsb].
  - now rewrite andb_false_r.
  - destruct (Js.trim item) as [|c t] eqn:Htrim.
    + change (0 <? String.length "")%nat with false. cbv iota. rewrite IH.
      destruct (String.eqb_spec name "") as [->|Hname]; [reflexivity|].
      destruct (String.eqb_spec "" name) as [E|_]; [now destruct Hname|reflexivity].
    + change (0 <? String.length (String c t))%nat with true. cbv iota.
      cbn [existsb]. rewrite IH.
      destruct (String.eqb_spec name (String c t)) as [->|Hname].
      * rewrite String.eqb_refl. reflexivity.
      * destruct (String.eqb_spec (String c t) name) as [E|_]; [now destruct Hname|].
        reflexivity.
Qed.

(** X27.  [ENABLED_SERVERS] enables the servers it lists.  When
    [main.env] gives [ENABLED_SERVERS] as items joined by commas, of which
    one at least is not blank, [filterEnabledServers] keeps, in their
    order, exactly the servers whose name is one of the items, white space
    around an item not counting. *)
Theorem filterEnabledServers_keeps_listed (env : gmap string string) items configs :
  Forall (fun item => commaFree item = true) items ->
  Exists (fun item => Js.trim item <> "") items ->
  env !! "ENABLED_SERVERS" = Some (String.concat "," items) ->
  ServerConfigs.filterEnabledServers (Returned (Some env)) configs
  = List.filter (named items) configs.
Proof.
  intros Hfree Hsome Henv.
  assert (Hne : items <> []) by (intros ->; inversion Hsome).
  unfold ServerConfigs.filterEnabledServers. rewrite Henv.
  rewrite (split_concat items Hne Hfree).
  assert (Htruthy : Js.truthyStr (String.concat "," items) = true).
  { destruct (String.concat "," items) eqn:Hjoined; [|reflexivity].
    exfalso. pose proof (split_concat items Hne Hfree) as Hsplit.
    rewrite Hjoined in Hsplit. simpl in Hsplit. subst items.
    apply Exists_cons in Hsome as [Hblank|Hnil]; [now apply Hblank|inversion Hnil]. }
  rewrite Htruthy.
  assert (Hlisted : (0 <? length (List.filter (fun server => (0 <? String.length server)%nat)
                                         (map Js.trim items)))%nat = true).
  { clear -Hsome. induction Hsome as [item rest Hitem|item rest _ IH]; simpl.
    - destruct (Js.trim item); [contradiction|reflexivity].
    - destruct (0 <? String.length (Js.trim item))%nat; [reflexivity|exact IH]. }
  rewrite Hlisted.
  apply List.filter_ext. intros config. unfold named. apply existsb_filter_trimmed.
Qed.

(** X28.  [filterEnabledServers] never removes a server by accident: it
    returns all the servers when [main.env] is missing or cannot be read,
    when it has no [ENABLED_SERVERS] and when every item of the list is
    blank.  In every case the result is a selection of the given servers in
    their order, and filtering twice is filtering once. *)
Theorem filterEnabledServers_total mainEnv configs :
  let result := ServerConfigs.filterEnabledServers mainEnv configs in
  (exists keep, result = List.filter keep configs) /\
  ServerConfigs.filterEnabledServers mainEnv result = result /\
  (forall env, mainEnv = Returned (Some env) ->
     match env !! "ENABLED_SERVERS" with
     | Some enabledServersStr =>
         Forall (fun item => Js.trim item = "") (Js.split "," enabledServersStr) ->
         result = configs
     | None => result = configs
     end) /\
  (mainEnv = Returned None -> result = configs) /\
  (forall e, mainEnv = Threw e -> result = configs).
Proof.
  intros result. subst result.
  assert (Hall : List.filter (fun _ => true) configs = configs).
  { induction configs as [|c configs IH]; simpl; [reflexivity|now rewrite IH]. }
  assert (Htwice : forall keep,
            List.filter keep (List.filter keep configs) = List.filter keep configs).
  { intros keep. clear Hall. induction configs as [|c configs IH]; simpl; [reflexivity|].
    destruct (keep c) eqn:Hk; simpl; rewrite ?Hk, IH; reflexivity. }
  unfold ServerConfigs.filterEnabledServers.
  destruct mainEnv as [[env|]|e].
  - destruct (env !! "ENABLED_SERVERS") as [enabledServersStr|] eqn:Henv.
    + destruct (Js.truthyStr enabledServersStr).
      * set (enabledServers := List.filter _ (map Js.trim (Js.split "," enabledServersStr))).
        destruct (0 <? length enabledServers)%nat eqn:Hlisted.
        -- split; [eauto|]. split; [apply Htwice|].
           split; [|split; discriminate].
           intros env' [= <-]. rewrite Henv. intros Hblank. exfalso.
           subst enabledServers. revert Hlisted. clear -Hblank.
           induction Hblank as [|item rest Hitem _ IH]; simpl; [discriminate|].
           rewrite Hitem. exact IH.
        -- split; [exists (fun _ => true); now rewrite Hall|]. split; [reflexivity|].
           split; [|split; discriminate].
           intros env' [= <-]. now rewrite Henv.
      * split; [exists (fun _ => true); now rewrite Hall|]. split; [reflexivity|].
        split; [|split; discriminate].
        intros env' [= <-]. now rewrite Henv.
    + split; [exists (fun _ => true); now rewrite Hall|]. split; [reflexivity|].
      split; [|split; discriminate].
      intros env' [= <-]. now rewrite Henv.
  - split; [exists (fun _ => true); now rewrite Hall|]. split; [reflexivity|].
    split; [discriminate|]. split; [reflexivity|discriminate].
  - split; [exists (fun _ => true); now rewrite Hall|]. split; [reflexivity|].
    split; [discriminate|]. split; [discriminate|reflexivity].
Qed.

Lemma filterEnabledServers_keeps_listed_witness :
  let env : gmap string string := {[ "ENABLED_SERVERS" := " svc ,, other" ]} in
  ServerConfigs.filterEnabledServers (Returned (Some env))
    [Toy.httpServer "svc" []; Toy.stdioServer "third" None; Toy.httpServer "other" []]
  = [Toy.httpServer "svc" []; Toy.httpServer "other" []].
Proof.
  exact (filterEnabledServers_keeps_listed {[ "ENABLED_SERVERS" := " svc ,, other" ]}
           [" svc "; ""; " other"]
           [Toy.httpServer "svc" []; Toy.stdioServer "third" None; Toy.httpServer "other" []]
           ltac:(repeat constructor)
           ltac:(apply Exists_cons_hd; discriminate)
           eq_refl).
Defined.

(** ** The health-check command *)

Section CommandLaws.
Context `{Host}.





Lemma verdictFor_absent name servers verdicts :
  ~ In name (map McpServerConfig.name servers) ->
  verdictFor name (combine servers verdicts) = None.
Proof.
  revert verdicts. induction servers as [|s servers IH]; intros verdicts Hnot;
    [reflexivity|].
  destruct verdicts as [|v verdicts]; [reflexivity|]. simpl.
  destruct (String.eqb_spec name (McpServerConfig.name s)) as [->|_].
  - exfalso. apply Hnot. now left.
  - apply IH. intros Hin. apply Hnot. now right.
Qed.






End CommandLaws.



(** The command on a state file that holds [{}]: [syncStateWithConfig]
    throws on the missing [mcps], before any server is checked. *)
Example healthCheckCommand_on_shapeless_state :
  let w := Toy.world (Some (Doc Shapeless)) [] ["svc"] in
  let '(result, w') :=
    HealthCheckCommand.command [Toy.httpServer "svc" []] None w in
  result = Threw OtherError /\ issued w' = [] /\ stateFile w' = stateFile w.
Proof. vm_compute. repeat split; reflexivity. Qed.

(** The command on the desk: [svc] runs and [tool] needs no container, both
    are recorded online, and both are now in the IDE file. *)
Example healthCheckCommand_on_the_desk :
  let servers := [Toy.httpServer "svc" []; Toy.stdioServer "tool" None] in
  let '(result, w') := HealthCheckCommand.command servers None Toy.desk in
  result = Returned tt /\
  stateFile w'
  = Some (Doc (Shaped (McpStateFile.mk
                         [McpState.mk "svc" "http://localhost:9001/sse"
                            (Some "/workspace/servers/config/svc.env") true None;
                          McpState.mk "tool" "command:docker:img"
                            (Some "/workspace/servers/config/tool.env") true None]
                         (Some "2025-01-01T00:00:00.000Z")))) /\
  issued w' = [DockerService.runningCommand "svc"].
Proof. vm_compute. repeat split; reflexivity. Qed.
